(** * Databricks field notebooks: a shallow embedding and its properties

    The notebooks of this repository are scripts over Spark, MLflow and
    HTTP services.  The few places where they carry logic of their own are
    embedded here as Rocq functions:

    - [PiiEtl]       demos/data-management/solacc-llm-pii/04_Data_ETL.py
    - [QueryHistory] demos/query_history_api_to_delta.py
    - [VectorIndex]  demos/ml/structured-data-for-rag.py
    - [UcTools]      demos/ml/uc_tools_image_upload.py
    - [PiiViews], [Redaction]  the SQL views and the exclusion lists of 04_Data_ETL.py
    - [IndexExists]  [index_exists] of demos/ml/structured-data-for-rag.py
    - [SqlStatement] [execute_sql_statement] of demos/ml/uc_tools_image_upload.py

    Python values that come out of [json.loads] / [response.json()] are
    modelled by the type [json]; Python exceptions by [exn]; code that
    sleeps, prints or talks to a service runs in the monad [M], which
    threads a state, may raise, and records the events it performs.

    The services themselves are parameters: a serving endpoint, the query
    history API, the vector-search index and the SQL warehouse are
    functions from the number of the request (and its payload) to the
    answer, so that two requests of one run may be answered differently.
    What is left out: transport failures of [requests] (every request gets
    a response), HTTP headers, numbers that are not integers (the
    [temperature] 0.0 is written 0), the text Python prints for a dict
    (a parameter [py_str]), and, for Spark, the evaluation strategy beyond
    what is said at [PiiEtl.collect]: a DataFrame keeps its partitioning
    and [monotonically_increasing_id] gives the same ids each time the
    plan is evaluated. *)

From Stdlib Require Import ZArith List String Ascii Bool Arith Lia Permutation.
From Stdlib Require DecimalString.
Import ListNotations.

Local Open Scope string_scope.
Local Open Scope list_scope.

(* ===================================================================== *)
(** * Part I: the model *)
(* ===================================================================== *)

(** ** Python values, exceptions and effects *)

Module Py.

(** Values produced by [json.loads]: [None], [bool], numbers, [str],
    [list] and [dict].  A dict keeps its keys in insertion order. *)
#[warnings="-register-all"]
Inductive json : Type :=
| JNull
| JBool (b : bool)
| JNum (n : Z)
| JStr (s : string)
| JArr (xs : list json)
| JObj (kvs : list (string * json)).

Inductive exn : Type :=
| KeyError (key : string)
| IndexError
| TypeError
| AttributeError
| JSONDecodeError
| NameError (name : string)
| SparkError (what : string)
| Exception (msg : string).

Inductive result (A : Type) : Type :=
| Ok (a : A)
| Raise (e : exn).
Arguments Ok {A} a.
Arguments Raise {A} e.

Definition is_ok {A} (r : result A) : bool :=
  match r with Ok _ => true | Raise _ => false end.

(** What a run does to the outside world, in order. *)
Inductive event : Type :=
| Sleep (seconds : Z)                    (* time.sleep(seconds) *)
| Print (msg : string)                   (* print(msg) *)
| Call (service : string) (arg : json)   (* one request to an external service *)
| Write (table : string).                (* one write to a Delta table *)

Definition is_call (e : event) : bool :=
  match e with Call _ _ => true | _ => false end.

Definition is_sleep (e : event) : bool :=
  match e with Sleep _ => true | _ => false end.

Definition is_write (e : event) : bool :=
  match e with Write _ => true | _ => false end.

Definition calls (t : list event) : nat := List.length (filter is_call t).

(** Every [Call] of the log comes right after a [Sleep] of [seconds]. *)
Fixpoint calls_follow_sleep (seconds : Z) (previous : option event) (t : list event)
  : bool :=
  match t with
  | [] => true
  | e :: rest =>
      (if is_call e
       then match previous with
            | Some (Sleep n) => Z.eqb n seconds
            | _ => false
            end
       else true)
      && calls_follow_sleep seconds (Some e) rest
  end.

(** State, exception and event log. *)
Definition M (S A : Type) : Type := S -> (result A * S) * list event.

Definition ret {S A} (a : A) : M S A := fun s => ((Ok a, s), []).

Definition bind {S A B} (m : M S A) (f : A -> M S B) : M S B :=
  fun s =>
    match m s with
    | ((Ok a, s1), t1) =>
        match f a s1 with
        | (rs, t2) => (rs, t1 ++ t2)
        end
    | ((Raise e, s1), t1) => ((Raise e, s1), t1)
    end.

Definition raise {S A} (e : exn) : M S A := fun s => ((Raise e, s), []).

Definition lift {S A} (r : result A) : M S A := fun s => ((r, s), []).

Definition emit {S} (e : event) : M S unit := fun s => ((Ok tt, s), [e]).

Definition get_state {S} : M S S := fun s => ((Ok s, s), []).

Definition put_state {S} (s' : S) : M S unit := fun _ => ((Ok tt, s'), []).

Definition outcome {S A} (x : (result A * S) * list event) : result A := fst (fst x).
Definition final {S A} (x : (result A * S) * list event) : S := snd (fst x).
Definition trace {S A} (x : (result A * S) * list event) : list event := snd x.

Declare Scope py_scope.
Delimit Scope py_scope with py.
Notation "x <- m ;; k" := (bind m (fun x => k))
  (at level 61, m at next level, right associativity) : py_scope.
Notation "m ;;; k" := (bind m (fun _ => k))
  (at level 61, right associativity) : py_scope.

(** *** Strings *)

(** [str(n)] for a non-negative integer. *)
Definition str_nat (n : nat) : string :=
  DecimalString.NilEmpty.string_of_uint (Nat.to_uint n).

(** [s.find(sub)]: the lowest index at which [sub] occurs in [s]. *)
Fixpoint str_find (sub s : string) : option nat :=
  if String.prefix sub s then Some 0
  else match s with
       | EmptyString => None
       | String _ s' => option_map S (str_find sub s')
       end.

(** [sub in s] *)
Definition str_contains (sub s : string) : bool :=
  match str_find sub s with Some _ => true | None => false end.

(** [s.replace(old, new)] for a non-empty [old]: scan from the left; at a
    match emit [new] and drop the matched characters ([skip] counts those
    still to drop); otherwise copy the character. *)
Fixpoint replace_scan (old new : string) (skip : nat) (s : string) : string :=
  match s with
  | EmptyString => EmptyString
  | String c s' =>
      match skip with
      | S k => replace_scan old new k s'
      | O =>
          if String.prefix old s
          then new ++ replace_scan old new (String.length old - 1) s'
          else String c (replace_scan old new 0 s')
      end
  end.

(** With an empty [old], Python puts [new] before every character and at
    the end. *)
Fixpoint intersperse (new s : string) : string :=
  match s with
  | EmptyString => EmptyString
  | String c s' => String c (new ++ intersperse new s')
  end.

Definition str_replace (old new s : string) : string :=
  match old with
  | EmptyString => new ++ intersperse new s
  | String _ _ => replace_scan old new 0 s
  end.

(** [s.split(old)] for a non-empty [old]: the pieces between the matches
    that [replace_scan] replaces. *)
Fixpoint split_scan (old : string) (skip : nat) (s : string) : list string :=
  match s with
  | EmptyString => [EmptyString]
  | String c s' =>
      match skip with
      | S k => split_scan old k s'
      | O =>
          if String.prefix old s
          then EmptyString :: split_scan old (String.length old - 1) s'
          else match split_scan old 0 s' with
               | piece :: rest => String c piece :: rest
               | [] => [String c EmptyString]
               end
      end
  end.

Definition str_split (old s : string) : list string := split_scan old 0 s.

(** [s[k:]] *)
Fixpoint drop (k : nat) (s : string) : string :=
  match k, s with
  | O, _ => s
  | S k', EmptyString => EmptyString
  | S k', String _ s' => drop k' s'
  end.

Definition upper_ascii (c : ascii) : ascii :=
  let n := nat_of_ascii c in
  if ((97 <=? n) && (n <=? 122))%nat then ascii_of_nat (n - 32) else c.

(** [s.upper()], on the ASCII letters. *)
Fixpoint str_upper (s : string) : string :=
  match s with
  | EmptyString => EmptyString
  | String c s' => String (upper_ascii c) (str_upper s')
  end.

(** White space as [str.strip] sees it: the space and the characters 9 to
    13.  Python also counts the separators 28 to 31 and the white space
    outside ASCII, which are left out. *)
Definition is_space (c : ascii) : bool :=
  let n := nat_of_ascii c in
  ((n =? 32) || ((9 <=? n) && (n <=? 13)))%nat.

Fixpoint lstrip (s : string) : string :=
  match s with
  | EmptyString => EmptyString
  | String c s' => if is_space c then lstrip s' else s
  end.

Fixpoint rstrip (s : string) : string :=
  match s with
  | EmptyString => EmptyString
  | String c s' =>
      match rstrip s' with
      | EmptyString => if is_space c then EmptyString else String c EmptyString
      | r => String c r
      end
  end.

(** [s.strip()] *)
Definition str_strip (s : string) : string := rstrip (lstrip s).

(** [x in xs] for a list of strings. *)
Definition str_in (x : string) (xs : list string) : bool :=
  existsb (String.eqb x) xs.

(** *** Dicts, lists and truth values *)

Fixpoint assoc (k : string) (kvs : list (string * json)) : option json :=
  match kvs with
  | [] => None
  | (k', v) :: rest => if String.eqb k k' then Some v else assoc k rest
  end.

(** [d[k] = v]: an existing key keeps its place, a new one goes last. *)
Fixpoint assoc_set (k : string) (v : json) (kvs : list (string * json))
  : list (string * json) :=
  match kvs with
  | [] => [(k, v)]
  | (k', v') :: rest =>
      if String.eqb k k' then (k', v) :: rest else (k', v') :: assoc_set k v rest
  end.

(** [v[k]] with a string key. *)
Definition getitem (v : json) (k : string) : result json :=
  match v with
  | JObj kvs => match assoc k kvs with Some x => Ok x | None => Raise (KeyError k) end
  | _ => Raise TypeError
  end.

(** [v[0]] *)
Definition getitem0 (v : json) : result json :=
  match v with
  | JArr [] => Raise IndexError
  | JArr (x :: _) => Ok x
  | JStr EmptyString => Raise IndexError
  | JStr (String c _) => Ok (JStr (String c EmptyString))
  | JObj _ => Raise (KeyError "0")
  | _ => Raise TypeError
  end.

(** [d.get(k, default)] *)
Definition dict_get (v : json) (k : string) (default : json) : result json :=
  match v with
  | JObj kvs => Ok (match assoc k kvs with Some x => x | None => default end)
  | _ => Raise AttributeError
  end.

Fixpoint chars (s : string) : list json :=
  match s with
  | EmptyString => []
  | String c s' => JStr (String c EmptyString) :: chars s'
  end.

(** [for x in v]: the elements of a list, the keys of a dict, the
    characters of a string. *)
Definition iter (v : json) : result (list json) :=
  match v with
  | JArr xs => Ok xs
  | JObj kvs => Ok (map (fun kv => JStr (fst kv)) kvs)
  | JStr s => Ok (chars s)
  | _ => Raise TypeError
  end.

(** Truth value of [v] in [if v] / [while v]. *)
Definition truthy (v : json) : bool :=
  match v with
  | JNull => false
  | JBool b => b
  | JNum n => negb (Z.eqb n 0)
  | JStr s => negb (String.eqb s "")
  | JArr xs => match xs with [] => false | _ => true end
  | JObj kvs => match kvs with [] => false | _ => true end
  end.

Definition is_bool (v : json) : bool :=
  match v with JBool _ => true | _ => false end.

(** [for x in xs: f(x)], stopping at the first exception. *)
Fixpoint mapM {A B} (f : A -> result B) (xs : list A) : result (list B) :=
  match xs with
  | [] => Ok []
  | x :: rest =>
      match f x with
      | Raise e => Raise e
      | Ok y =>
          match mapM f rest with
          | Raise e => Raise e
          | Ok ys => Ok (y :: ys)
          end
      end
  end.

Definition rbind {A B} (r : result A) (f : A -> result B) : result B :=
  match r with Ok a => f a | Raise e => Raise e end.

End Py.

Import Py.
Local Open Scope py_scope.

(** Python's [while cond: body] with [break].  The loop is cut after [fuel]
    iterations; [Ok false] reports that the cut was reached, and every use
    below shows that it is not. *)
Inductive ctl : Type := Continue | Break.

Fixpoint while_loop {S} (fuel : nat) (cond : S -> bool) (body : M S ctl)
  : M S bool :=
  fun s =>
    if cond s then
      match fuel with
      | O => ((Ok false, s), [])
      | S fuel' =>
          bind body (fun c =>
            match c with
            | Continue => while_loop fuel' cond body
            | Break => ret true
            end) s
      end
    else ((Ok true, s), []).

(** ** demos/data-management/solacc-llm-pii/04_Data_ETL.py *)

Module PiiEtl.

Definition MAX_RETRIES : nat := 3.
Definition WAIT_SECONDS : Z := 5.

(** What [requests.post] hands back: the status code, the raw text and
    what [response.json()] makes of it ([None] when the text is not JSON). *)
Record response : Type := {
  status_code : nat;
  text : string;
  json_body : option json
}.

Definition response_json (r : response) : result json :=
  match json_body r with
  | Some j => Ok j
  | None => Raise JSONDecodeError
  end.

(** [prediction["candidates"][0]["text"]] *)
Definition first_candidate_text (prediction : json) : result json :=
  rbind (getitem prediction "candidates") (fun cs =>
  rbind (getitem0 cs) (fun c =>
  getitem c "text")).

Section PiiBot.

(** [system_prompt.format(instruction=prompt)], the template being read
    from the registered model at run time. *)
Variable system_prompt_format : string -> string.
(** [f"{api_root}/serving-endpoints/{MODEL_SERVING_ENDPOINT_NAME}/invocations"] *)
Variable invocations_url : string.
(** The serving endpoint: its answer to the [n]-th request of the run. *)
Variable endpoint : nat -> json -> response.

(** [requests.post(url=..., json=..., headers=...)]; the state counts the
    requests sent so far. *)
Definition requests_post (url : string) (payload : json) : M nat response :=
  fun n => ((Ok (endpoint n payload), S n), [Call url payload]).

Definition inference_data (formatted_prompts : list string) : json :=
  JObj [("inputs", JObj [("prompt", JArr (map JStr formatted_prompts))]);
        ("params", JObj [("max_tokens", JNum 2048);
                         ("temperature", JNum 0);
                         ("candidate_count", JNum 1)])].

Definition request_failed (r : response) : exn :=
  Exception ("Request failed with status " ++ str_nat (status_code r)
             ++ ", " ++ text r).

(** [pii_bot(prompts)]; the commented-out retry loop of the source is
    not part of the function. *)
Definition pii_bot (prompts : list string) : M nat (list json) :=
  let formatted_prompts := map system_prompt_format prompts in
  emit (Sleep WAIT_SECONDS) ;;;
  response <- requests_post invocations_url (inference_data formatted_prompts) ;;
  if negb (status_code response =? 200)%nat
  then raise (request_failed response)
  else
    response_json <- lift (response_json response) ;;
    predictions <- lift (rbind (getitem response_json "predictions") iter) ;;
    results <- lift (mapM first_candidate_text predictions) ;;
    ret results.

End PiiBot.

(** *** [batch_process_prompts]

    A DataFrame is the list of its partitions.  Its rows are kept abstract
    ([Row]); the prompt column is read through [prompt_col]. *)

Definition N_PROMPTS_PER_BATCH : nat := 40.
Definition WAIT_MINS : Z := 2.

(** A Java [long]. *)
Definition wrap64 (z : Z) : Z := (z + 2 ^ 63) mod 2 ^ 64 - 2 ^ 63.

(** Spark's [monotonically_increasing_id()]: the partition index in the
    upper 31 bits, the position inside the partition in the lower 33. *)
Definition monotonically_increasing_id (partition offset : nat) : Z :=
  wrap64 (Z.shiftl (Z.of_nat partition) 33 + Z.of_nat offset).

(** Spark's [%] on longs keeps the sign of the dividend. *)
Definition spark_mod (a b : Z) : Z := wrap64 (Z.rem a b).

Section BatchProcess.

Variable Row : Type.
Variable prompt_col : Row -> string.

Record IdRow : Type := {
  base : Row;
  mono_id : Z;
  batch_id : Z
}.

(** A processed row: the row with its ids and the new result column. *)
Record OutRow : Type := {
  src : IdRow;
  result_col : json
}.

Definition DataFrame : Type := list (list Row).

Fixpoint number_rows (partition offset : nat) (rows : list Row) : list IdRow :=
  match rows with
  | [] => []
  | r :: rest =>
      let id := monotonically_increasing_id partition offset in
      {| base := r;
         mono_id := id;
         batch_id := spark_mod id (Z.of_nat N_PROMPTS_PER_BATCH) |}
      :: number_rows partition (S offset) rest
  end.

(** [withColumn("mono_id", ...)] followed by [withColumn("batch_id", ...)] *)
Fixpoint with_batches_from (partition : nat) (df : DataFrame) : list (list IdRow) :=
  match df with
  | [] => []
  | rows :: rest => number_rows partition 0 rows :: with_batches_from (S partition) rest
  end.

Definition with_batches (df : DataFrame) : list (list IdRow) :=
  with_batches_from 0 df.

(** [df_with_batches.filter(col("batch_id") == i)] *)
Definition filter_batch (i : nat) (df : list (list IdRow)) : list (list IdRow) :=
  map (filter (fun r => Z.eqb (batch_id r) (Z.of_nat i))) df.

(** [a.union(b)]: the partitions of [a], then those of [b]. *)
Definition union (a b : list (list IdRow)) : list (list IdRow) := a ++ b.

Definition rows_of {A} (df : list (list A)) : list A := List.concat df.

Definition processing_message (i : nat) : string :=
  "Processing batch " ++ str_nat i ++ " / " ++ str_nat (N_PROMPTS_PER_BATCH - 1).

(** The body of [for i in range(N_PROMPTS_PER_BATCH)].  Spark is lazy:
    [withColumn(result_col_name, pii_bot(...))] only records that the
    column is to be computed, so a processed batch is the filtered batch
    and no request is sent inside the loop. *)
Fixpoint batch_loop {S} (df_with_batches : list (list IdRow)) (range : list nat)
         (results : list (list (list IdRow))) : M S (list (list (list IdRow))) :=
  match range with
  | [] => ret results
  | i :: range' =>
      emit (Print (processing_message i)) ;;;
      let batch_df := filter_batch i df_with_batches in
      let processed_batch := batch_df in
      let results := results ++ [processed_batch] in
      (if (i <? N_PROMPTS_PER_BATCH - 1)%nat
       then emit (Sleep (WAIT_MINS * 60))
       else ret tt) ;;;
      batch_loop df_with_batches range' results
  end.

(** [batch_process_prompts(df_with_prompts, prompt_col_name, result_col_name)]:
    the DataFrame returned still has its result column to compute. *)
Definition batch_process_prompts {S} (df_with_prompts : DataFrame)
  : M S (list (list IdRow)) :=
  let df_with_batches := with_batches df_with_prompts in
  results <- batch_loop df_with_batches (seq 0 N_PROMPTS_PER_BATCH) [] ;;
  match results with
  | [] => raise IndexError
  | first :: others => ret (fold_left union others first)
  end.

(** Computing the result column when the DataFrame is evaluated: a scalar
    pandas UDF is called once on the prompts of every non-empty
    partition, and has to give back as many values as it was given.
    Spark hands a partition over in Arrow batches (of 10000 rows unless
    configured otherwise) and calls the UDF once per batch: for a
    partition of several batches [udf] stands for these calls one after
    the other.  A task that Spark runs again is left out. *)
Section Evaluate.

Variable udf : list string -> M nat (list json).

Definition eval_partition (rows : list IdRow) : M nat (list OutRow) :=
  match rows with
  | [] => ret []
  | _ :: _ =>
      values <- udf (map (fun r => prompt_col (base r)) rows) ;;
      if (List.length values =? List.length rows)%nat
      then ret (map (fun rv => {| src := fst rv; result_col := snd rv |})
                    (combine rows values))
      else raise (SparkError "Result vector from pandas_udf was not the required length")
  end.

Fixpoint collect (df : list (list IdRow)) : M nat (list OutRow) :=
  match df with
  | [] => ret []
  | rows :: rest =>
      out <- eval_partition rows ;;
      outs <- collect rest ;;
      ret (out ++ outs)
  end.

End Evaluate.

End BatchProcess.

Arguments base {Row} _.
Arguments mono_id {Row} _.
Arguments batch_id {Row} _.
Arguments src {Row} _.
Arguments result_col {Row} _.

(** *** Quarantine and cleansed tables (Spark SQL)

    A nullable column is an [option]; a condition evaluates to [Some true],
    [Some false] or [None] (NULL), and [WHERE] keeps a row only on
    [Some true]. *)

Definition sql_or (a b : option bool) : option bool :=
  match a, b with
  | Some true, _ => Some true
  | _, Some true => Some true
  | Some false, Some false => Some false
  | _, _ => None
  end.

Definition sql_and (a b : option bool) : option bool :=
  match a, b with
  | Some false, _ => Some false
  | _, Some false => Some false
  | Some true, Some true => Some true
  | _, _ => None
  end.

Definition sql_not (a : option bool) : option bool := option_map negb a.

Definition sql_le (a b : option Z) : option bool :=
  match a, b with
  | Some x, Some y => Some (Z.leb x y)
  | _, _ => None
  end.

Definition sql_gt (a b : option Z) : option bool :=
  match a, b with
  | Some x, Some y => Some (Z.ltb y x)
  | _, _ => None
  end.

(** [INSTR(str, substr)]: the 1-based position of the first occurrence,
    0 when there is none, NULL when an argument is NULL. *)
Definition INSTR (str substr : option string) : option Z :=
  match str, substr with
  | Some s, Some sub =>
      Some (match str_find sub s with
            | Some n => Z.of_nat n + 1
            | None => 0
            end)%Z
  | _, _ => None
  end.

(** [v IN (lit, ...)] with non-NULL literals. *)
Definition sql_in (v : option string) (literals : list string) : option bool :=
  option_map (fun x => str_in x literals) v.

Definition sql_is_not_null {A} (v : option A) : option bool :=
  Some (match v with Some _ => true | None => false end).

Definition where_holds (c : option bool) : bool :=
  match c with Some true => true | _ => false end.

(** A row of [view_bronze_documents_pii_handled_expanded]. *)
Record ExpandedRow : Type := {
  message_id : option string;
  unmasked_text : option string;
  departments : option (list (option string));
  pii_type : option string;
  value : option string;
  prompt_profiling : option string;
  prompt_categorisation : option string
}.

(** A row of [bronze_documents_pii_handled_quarantined]. *)
Record QuarantinedRow : Type := {
  q_message_id : option string;
  q_unmasked_text : option string;
  q_departments : option (list (option string));
  q_pii_type : option string;
  q_value : option string;
  q_prompt : option string
}.

(** A row of [bronze_documents_pii_handled_cleansed]. *)
Record CleansedRow : Type := {
  c_message_id : option string;
  c_unmasked_text : option string;
  c_departments : option (list (option string));
  c_pii_detected : list (option string * option string)
}.

Definition placeholders : list string := [""; "..."].

(** [WHERE INSTR(unmasked_text, value) <= 0 OR value IN ("", "...")] *)
Definition quarantine_where (r : ExpandedRow) : option bool :=
  sql_or (sql_le (INSTR (unmasked_text r) (value r)) (Some 0%Z))
         (sql_in (value r) placeholders).

(** [SELECT message_id, unmasked_text, departments, pii_type, value, prompt_profiling] *)
Definition quarantine_select (r : ExpandedRow) : QuarantinedRow :=
  {| q_message_id := message_id r;
     q_unmasked_text := unmasked_text r;
     q_departments := departments r;
     q_pii_type := pii_type r;
     q_value := value r;
     q_prompt := prompt_profiling r |}.

(** The rows the first [INSERT INTO ... quarantined] takes from the view. *)
Definition quarantine_rows (view : list ExpandedRow) : list QuarantinedRow :=
  map quarantine_select (filter (fun r => where_holds (quarantine_where r)) view).

Definition insert_into {A} (table rows : list A) : list A := table ++ rows.

(** [WHERE INSTR(unmasked_text, value) > 0 AND value NOT IN ("", "...")
      AND departments IS NOT NULL] *)
Definition cleansed_where (r : ExpandedRow) : option bool :=
  sql_and (sql_and (sql_gt (INSTR (unmasked_text r) (value r)) (Some 0%Z))
                   (sql_not (sql_in (value r) placeholders)))
          (sql_is_not_null (departments r)).

Definition expanded_filtered (view : list ExpandedRow) : list ExpandedRow :=
  filter (fun r => where_holds (cleansed_where r)) view.

(** [GROUP BY message_id, unmasked_text, departments]; NULLs group together. *)
Definition group_key : Type :=
  (option string * option string * option (list (option string)))%type.

Definition opt_eqb {A} (eqb : A -> A -> bool) (a b : option A) : bool :=
  match a, b with
  | Some x, Some y => eqb x y
  | None, None => true
  | _, _ => false
  end.

Fixpoint list_eqb {A} (eqb : A -> A -> bool) (xs ys : list A) : bool :=
  match xs, ys with
  | [], [] => true
  | x :: xs', y :: ys' => eqb x y && list_eqb eqb xs' ys'
  | _, _ => false
  end.

Definition key_eqb (a b : group_key) : bool :=
  match a, b with
  | (m1, t1, d1), (m2, t2, d2) =>
      opt_eqb String.eqb m1 m2 && opt_eqb String.eqb t1 t2
      && opt_eqb (list_eqb (opt_eqb String.eqb)) d1 d2
  end.

Definition key_of_expanded (r : ExpandedRow) : group_key :=
  (message_id r, unmasked_text r, departments r).

Definition key_of_cleansed (g : CleansedRow) : group_key :=
  (c_message_id g, c_unmasked_text g, c_departments g).

(** [STRUCT(pii_type, value)] *)
Definition pii_struct (r : ExpandedRow) : option string * option string :=
  (pii_type r, value r).

Fixpoint add_to_group (k : group_key) (item : option string * option string)
         (groups : list CleansedRow) : list CleansedRow :=
  match groups with
  | [] =>
      [{| c_message_id := fst (fst k);
          c_unmasked_text := snd (fst k);
          c_departments := snd k;
          c_pii_detected := [item] |}]
  | g :: rest =>
      if key_eqb k (key_of_cleansed g)
      then {| c_message_id := c_message_id g;
              c_unmasked_text := c_unmasked_text g;
              c_departments := c_departments g;
              c_pii_detected := c_pii_detected g ++ [item] |} :: rest
      else g :: add_to_group k item rest
  end.

(** [SELECT ..., COLLECT_LIST(STRUCT(pii_type, value)) ... GROUP BY ...] *)
Definition collect_groups (rows : list ExpandedRow) : list CleansedRow :=
  fold_left (fun groups r => add_to_group (key_of_expanded r) (pii_struct r) groups)
            rows [].

(** [CREATE OR REPLACE TABLE ...cleansed AS ...] *)
Definition cleansed_table (view : list ExpandedRow) : list CleansedRow :=
  collect_groups (expanded_filtered view).

(** The view row [r] is found in the quarantine rows / in the cleansed table. *)
Definition quarantined (r : ExpandedRow) (rows : list QuarantinedRow) : Prop :=
  In (quarantine_select r) rows.

Definition cleansed (r : ExpandedRow) (table : list CleansedRow) : Prop :=
  exists g, In g table /\ key_of_cleansed g = key_of_expanded r
            /\ In (pii_struct r) (c_pii_detected g).

(** *** [redact_text] *)

(** An element of [pii_detected]: [item_pii["pii_type"]], [item_pii["value"]]. *)
Record PiiItem : Type := {
  item_pii_type : option string;
  item_value : string
}.

(** [f"{x}"] for a string or [None]. *)
Definition format_opt (x : option string) : string :=
  match x with Some s => s | None => "None" end.

(** [x in exclusions], the exclusions being strings. *)
Definition in_exclusions (x : option string) (exclusions : list string) : bool :=
  match x with
  | Some s => str_in s exclusions
  | None => false
  end.

Definition tag (item_pii : PiiItem) : string :=
  "[" ++ format_opt (item_pii_type item_pii) ++ "]".

(** The body of [for item_pii in pii_list]. *)
Definition redact_item (exclusions : list string) (unmasked_text : string)
           (item_pii : PiiItem) : string :=
  if negb (in_exclusions (item_pii_type item_pii) exclusions)
  then str_replace (item_value item_pii) (tag item_pii) unmasked_text
  else unmasked_text.

Definition redact_row (unmasked_text : string) (pii_list : list PiiItem)
           (exclusions : list string) : string :=
  fold_left (redact_item exclusions) pii_list unmasked_text.

(** [series[i]] *)
Definition series_get {A} (series : list A) (i : nat) : result A :=
  match nth_error series i with
  | Some x => Ok x
  | None => Raise (KeyError (str_nat i))
  end.

Fixpoint redact_loop (unmasked_texts : list string)
         (pii_detected : list (list PiiItem)) (excluded_flags : list (list string))
         (range : list nat) (redacted_texts : list string) : result (list string) :=
  match range with
  | [] => Ok redacted_texts
  | i :: range' =>
      rbind (series_get unmasked_texts i) (fun unmasked_text =>
      rbind (series_get pii_detected i) (fun pii_list =>
      rbind (series_get excluded_flags i) (fun exclusions =>
      redact_loop unmasked_texts pii_detected excluded_flags range'
        (redacted_texts ++ [redact_row unmasked_text pii_list exclusions]))))
  end.

(** What "each occurrence of the value of a non-excluded item is replaced
    by its [pii_type] in square brackets" asks of an output [redacted] at
    the least: when such a value occurs in the input, its tag occurs in
    the output. *)
Definition occurrences_replaced (unmasked_text : string) (pii_list : list PiiItem)
           (exclusions : list string) (redacted : string) : Prop :=
  forall item_pii,
    In item_pii pii_list ->
    in_exclusions (item_pii_type item_pii) exclusions = false ->
    str_contains (item_value item_pii) unmasked_text = true ->
    str_contains (tag item_pii) redacted = true.

(** [redact_text(unmasked_texts, pii_detected, excluded_flags)] *)
Definition redact_text (unmasked_texts : list string)
           (pii_detected : list (list PiiItem)) (excluded_flags : list (list string))
  : result (list string) :=
  redact_loop unmasked_texts pii_detected excluded_flags
              (seq 0 (List.length unmasked_texts)) [].

End PiiEtl.

(** ** demos/query_history_api_to_delta.py *)

Module QueryHistory.

Definition MAX_RESULTS_PER_PAGE : Z := 25000.
Definition MAX_PAGES_PER_RUN : nat := 500.
Definition QUERIES_URL : string :=
  "https://eastus2.azuredatabricks.net/api/2.0/sql/history/queries".
Definition QUERIES_TABLE : string := "query_history_etl.queries".

Record response : Type := {
  status_code : nat;
  text : string;
  json_body : option json
}.

Definition response_json (r : response) : result json :=
  match json_body r with
  | Some j => Ok j
  | None => Raise JSONDecodeError
  end.

(** [array.keys()] *)
Definition dict_keys (array : json) : result (list string) :=
  match array with
  | JObj kvs => Ok (map fst kvs)
  | _ => Raise AttributeError
  end.

(** The inner loop of [get_boolean_keys]: the keys of [array] whose value
    is a [bool]. *)
Definition boolean_keys_of (array : json) : result (list string) :=
  rbind (dict_keys array) (fun keys =>
  rbind (mapM (fun key => rbind (getitem array key)
                                (fun v => Ok (key, is_bool v))) keys) (fun flagged =>
  Ok (map fst (filter snd flagged)))).

(** [get_boolean_keys(arrays)] *)
Definition get_boolean_keys (arrays : json) : result (list string) :=
  rbind (iter arrays) (fun arrays =>
  rbind (mapM boolean_keys_of arrays) (fun found =>
  Ok (List.concat found))).

(** [set(keys)], kept in order of first occurrence. *)
Fixpoint set_of (keys : list string) : list string :=
  match keys with
  | [] => []
  | k :: rest => k :: filter (fun k' => negb (String.eqb k k')) (set_of rest)
  end.

Definition lower_ascii (c : ascii) : ascii :=
  let n := nat_of_ascii c in
  if ((65 <=? n) && (n <=? 90))%nat then ascii_of_nat (n + 32) else c.

(** [s.lower()], on the ASCII letters. *)
Fixpoint str_lower (s : string) : string :=
  match s with
  | EmptyString => EmptyString
  | String c s' => String (lower_ascii c) (str_lower s')
  end.

(** A DataFrame read from JSON records: the inferred columns and the rows. *)
Record DataFrame : Type := {
  columns : list string;
  rows : list (list (string * json))
}.

(** [query_id] is a string column; a row without one has a NULL there. *)
Definition query_id (row : list (string * json)) : option string :=
  match assoc "query_id" row with
  | Some (JStr s) => Some s
  | _ => None
  end.

Definition same_query (a b : list (string * json)) : bool :=
  match query_id a, query_id b with
  | Some x, Some y => String.eqb x y
  | _, _ => false
  end.

(** [queries_table.merge(new, "queryResults.query_id = newQueryResults.query_id")
      .whenMatchedUpdateAll().whenNotMatchedInsertAll().execute()]:
    Delta refuses the merge when two source rows match one target row.
    Its schema validation is left out: a page that lacks a column of the
    table is refused by Delta, and here its rows are stored as they come. *)
Definition delta_merge (target source : list (list (string * json)))
  : result (list (list (string * json))) :=
  if existsb (fun t => (1 <? List.length (filter (same_query t) source))%nat) target
  then Raise (SparkError "multiple source rows matched the same target row")
  else Ok (map (fun t => match find (same_query t) source with
                         | Some s => s
                         | None => t
                         end) target
           ++ filter (fun s => negb (existsb (fun t => same_query t s) target)) source).

Record state : Type := {
  next_page_token : json;
  has_next_page : json;
  pages_fetched : nat;
  requests_sent : nat;
  queries_table : option (list (list (string * json)))
}.

Definition initial (table : option (list (list (string * json)))) : state :=
  {| next_page_token := JNull;
     has_next_page := JBool true;
     pages_fetched := 0;
     requests_sent := 0;
     queries_table := table |}.

Definition modify (f : state -> state) : M state unit :=
  fun s => ((Ok tt, f s), []).

Definition set_next_page_token (v : json) (s : state) : state :=
  {| next_page_token := v; has_next_page := has_next_page s;
     pages_fetched := pages_fetched s; requests_sent := requests_sent s;
     queries_table := queries_table s |}.

Definition set_has_next_page (v : json) (s : state) : state :=
  {| next_page_token := next_page_token s; has_next_page := v;
     pages_fetched := pages_fetched s; requests_sent := requests_sent s;
     queries_table := queries_table s |}.

Definition set_pages_fetched (n : nat) (s : state) : state :=
  {| next_page_token := next_page_token s; has_next_page := has_next_page s;
     pages_fetched := n; requests_sent := requests_sent s;
     queries_table := queries_table s |}.

Definition set_requests_sent (n : nat) (s : state) : state :=
  {| next_page_token := next_page_token s; has_next_page := has_next_page s;
     pages_fetched := pages_fetched s; requests_sent := n;
     queries_table := queries_table s |}.

Definition set_queries_table (t : option (list (list (string * json)))) (s : state)
  : state :=
  {| next_page_token := next_page_token s; has_next_page := has_next_page s;
     pages_fetched := pages_fetched s; requests_sent := requests_sent s;
     queries_table := t |}.

Section FetchLoop.

(** Python's [str(v)]. *)
Variable py_str : json -> string.
(** Spark's [from_unixtime(col / 1000)] on one value. *)
Variable from_unixtime_ms : json -> json.
(** [start_date.timestamp() * 1000] and [datetime.now().timestamp() * 1000] *)
Variable start_time_ms end_time_ms : Z.
(** The query-history API: its answer to the [n]-th request of the run. *)
Variable api : nat -> json -> response.

Definition requests_get (url : string) (params : json) : M state response :=
  fun s =>
    ((Ok (api (requests_sent s) params),
      set_requests_sent (S (requests_sent s)) s),
     [Call url params]).

(** [array_to_process[key] = str(array_to_process[key]).lower()] for every
    key of [boolean_keys_to_convert] *)
Fixpoint convert_booleans (keys : list string) (array_to_process : json)
  : result json :=
  match keys with
  | [] => Ok array_to_process
  | key :: keys' =>
      rbind (getitem array_to_process key) (fun v =>
      match array_to_process with
      | JObj kvs =>
          convert_booleans keys'
            (JObj (assoc_set key (JStr (str_lower (py_str v))) kvs))
      | _ => Raise TypeError
      end)
  end.

Definition record_fields (record : json) : list (string * json) :=
  match record with
  | JObj kvs => kvs
  | _ => []
  end.

Fixpoint infer_columns (records : list json) : list string :=
  match records with
  | [] => []
  | r :: rest => set_of (map fst (record_fields r) ++ infer_columns rest)
  end.

(** [spark.read.json(sc.parallelize(records))] *)
Definition read_json (records : list json) : DataFrame :=
  {| columns := infer_columns records;
     rows := map record_fields records |}.

(** [df.withColumn(name, f(df.source))]; [df.source] needs the column. *)
Definition with_column_from (name source : string) (f : json -> json)
           (df : DataFrame) : result DataFrame :=
  if str_in source (columns df)
  then Ok {| columns := set_of (columns df ++ [name]);
             rows := map (fun row =>
                            assoc_set name
                              (f (match assoc source row with
                                  | Some v => v
                                  | None => JNull
                                  end)) row) (rows df) |}
  else Raise AttributeError.

(** [df.withColumn(name, lit(v))] *)
Definition with_column_lit (name : string) (v : json) (df : DataFrame) : DataFrame :=
  {| columns := set_of (columns df ++ [name]);
     rows := map (assoc_set name v) (rows df) |}.

Definition request_parameters (next_page_token : json) : json :=
  if truthy next_page_token
  then JObj [("max_results", JNum MAX_RESULTS_PER_PAGE);
             ("page_token", next_page_token)]
  else JObj [("max_results", JNum MAX_RESULTS_PER_PAGE);
             ("filter_by",
              JObj [("query_start_time_range",
                     JObj [("start_time_ms", JNum start_time_ms);
                           ("end_time_ms", JNum end_time_ms)])])].

(** [check_table_exist(db_tbl_name)] *)
Definition check_table_exist : M state bool :=
  fun s => ((Ok (match queries_table s with Some _ => true | None => false end), s), []).

(** The [saveAsTable] / [merge] at the end of the loop body. *)
Definition write_page (query_results_clean : DataFrame) : M state unit :=
  table_exist <- check_table_exist ;;
  if negb table_exist
  then
    emit (Write QUERIES_TABLE) ;;;
    modify (set_queries_table (Some (rows query_results_clean)))
  else
    s <- get_state ;;
    merged <- lift (delta_merge (match queries_table s with
                                 | Some t => t
                                 | None => []
                                 end) (rows query_results_clean)) ;;
    emit (Write QUERIES_TABLE) ;;;
    modify (set_queries_table (Some merged)).

(** The loop body from [response_json = response.json()] on, reached when
    the status code is 200. *)
Definition process_page (response : response) : M state ctl :=
  response_json <- lift (response_json response) ;;
  token <- lift (getitem response_json "next_page_token") ;;
  modify (set_next_page_token token) ;;;
  more <- lift (getitem response_json "has_next_page") ;;
  modify (set_has_next_page more) ;;;
  res <- lift (getitem response_json "res") ;;
  keys <- lift (get_boolean_keys res) ;;
  let boolean_keys_to_convert := set_of keys in
  arrays <- lift (iter res) ;;
  records <- lift (mapM (convert_booleans boolean_keys_to_convert) arrays) ;;
  let query_results := read_json records in
  with_start <- lift (with_column_from "query_start_time" "query_start_time_ms"
                        from_unixtime_ms query_results) ;;
  with_end <- lift (if str_in "query_end_time_ms" (columns query_results)
                    then with_column_from "query_end_time" "query_end_time_ms"
                           from_unixtime_ms with_start
                    else Raise AttributeError) ;;
  let query_results_clean :=
    if negb (str_in "error_message" (columns with_end))
    then with_column_lit "error_message" (JStr "") with_end
    else with_end in
  write_page query_results_clean ;;;
  ret Continue.

(** The body of the [while] loop. *)
Definition fetch_page : M state ctl :=
  s <- get_state ;;
  emit (Print ("Starting to fetch page " ++ str_nat (pages_fetched s))) ;;;
  modify (set_pages_fetched (pages_fetched s + 1)) ;;;
  let request_parameters := request_parameters (next_page_token s) in
  emit (Print ("Request parameters: " ++ py_str request_parameters)) ;;;
  response <- requests_get QUERIES_URL request_parameters ;;
  if negb (status_code response =? 200)%nat
  then raise (Exception (text response))
  else process_page response.

(** [while (has_next_page and pages_fetched < MAX_PAGES_PER_RUN)] *)
Definition loop_condition (s : state) : bool :=
  truthy (has_next_page s) && (pages_fetched s <? MAX_PAGES_PER_RUN)%nat.

Definition fetch_loop (fuel : nat) : M state bool :=
  while_loop fuel loop_condition fetch_page.

End FetchLoop.

End QueryHistory.

(** ** demos/ml/structured-data-for-rag.py *)

Module VectorIndex.

Definition GET_INDEX : string := "vector-search/get_index".
Definition DESCRIBE : string := "vector-search/get_index/describe".

(** [v.upper()] needs a [str]. *)
Definition upper (v : json) : result string :=
  match v with
  | JStr s => Ok (str_upper s)
  | _ => Raise AttributeError
  end.

Section Wait.

(** Python's [str(v)]. *)
Variable py_str : json -> string.
(** The vector-search service: its [n]-th answer to
    [vsc.get_index(...).describe()]. *)
Variable describe : nat -> json.

(** [vsc.get_index(endpoint, index).describe()]; the state counts the
    requests sent so far. *)
Definition get_index_describe (endpoint index : string) : M nat json :=
  fun n => ((Ok (describe n), S n), [Call DESCRIBE (JArr [JStr endpoint; JStr index])]).

(** [vsc.get_index(a, b)] *)
Definition get_index (a b : string) : M nat unit :=
  fun n => ((Ok tt, S n), [Call GET_INDEX (JArr [JStr a; JStr b])]).

(** [for i in range(180)]; [true] when the body returned. *)
Fixpoint wait_loop (vs_endpoint_name index_name : string) (range : list nat)
  : M nat bool :=
  match range with
  | [] => ret false
  | i :: range' =>
      idx <- get_index_describe vs_endpoint_name index_name ;;
      status_default <- lift (dict_get idx "index_status" (JObj [])) ;;
      index_status <- lift (dict_get idx "status" status_default) ;;
      state_default <- lift (dict_get index_status "status" (JStr "UNKNOWN")) ;;
      detailed_state <- lift (dict_get index_status "detailed_state" state_default) ;;
      status <- lift (upper detailed_state) ;;
      url_default <- lift (dict_get index_status "url" (JStr "UNKNOWN")) ;;
      url <- lift (dict_get index_status "index_url" url_default) ;;
      if str_contains "ONLINE" status then ret true
      else if str_contains "UNKNOWN" status then
        emit (Print ("Can't get the status - will assume index is ready "
                     ++ py_str idx ++ " - url: " ++ py_str url)) ;;;
        ret true
      else if str_contains "PROVISIONING" status then
        (if (i mod 40 =? 0)%nat
         then emit (Print ("Waiting for index to be ready, this can take a few min... "
                           ++ py_str index_status ++ " - pipeline url:" ++ py_str url))
         else ret tt) ;;;
        emit (Sleep 10) ;;;
        wait_loop vs_endpoint_name index_name range'
      else
        raise (Exception ("Error with the index - this shouldn't happen. "
                          ++ "DLT pipeline might have been killed. Index details: "
                          ++ py_str idx))
  end.

(** [wait_for_index_to_be_ready(vsc, vs_endpoint_name, index_name)] *)
Definition wait_for_index_to_be_ready (vs_endpoint_name index_name : string)
  : M nat unit :=
  returned <- wait_loop vs_endpoint_name index_name (seq 0 180) ;;
  if returned then ret tt
  else
    get_index index_name vs_endpoint_name ;;;
    raise (Exception "Timeout, your index isn't ready yet").

End Wait.

End VectorIndex.

(** ** demos/ml/uc_tools_image_upload.py *)

Module UcTools.

Definition WAREHOUSE : string := "sql-warehouse/execute".
Definition LLM : string := "llm/predict".
Definition SPARK : string := "spark/sql".

(** [process_sql_str(sql_str)] *)
Definition process_sql_str (sql_str : string) : string :=
  let sql_str := str_replace "```" "" sql_str in
  let sql_str := str_replace "sql" "" sql_str in
  let sql_str := str_strip sql_str in
  sql_str.

Record state : Type := {
  num_try : nat;
  sql_statement : string;
  results_string : option string;
  statements_run : nat
}.

Section Retriable.

(** The language-model programs ([dspy] modules), each read at its [.sql]
    or [.answer] field. *)
Variable sql_generator : string -> string -> string.
Variable sql_rectifier : string -> string -> string -> string.
Variable sql_result_summarizer : string -> string -> string -> string.
(** [get_ddl_statements(schema)], answered by Spark. *)
Variable get_ddl_statements : string -> string.
(** The SQL warehouse: what [execute_sql_statement] gives on the [n]-th
    statement sent to it. *)
Variable warehouse : nat -> string -> result string.
(** [str(error)] *)
Variable str_of_error : exn -> string.

Definition modify (f : state -> state) : M state unit :=
  fun s => ((Ok tt, f s), []).

(** [execute_sql_statement(...)] inside [try]: the exception, if any, is
    handed to the handler. *)
Definition try_execute_sql_statement (sql_str : string) : M state (result string) :=
  fun s =>
    ((Ok (warehouse (statements_run s) sql_str),
      {| num_try := num_try s; sql_statement := sql_statement s;
         results_string := results_string s;
         statements_run := S (statements_run s) |}),
     [Call WAREHOUSE (JStr sql_str)]).

(** The body of [while num_try <= max_retries]. *)
Definition attempt (max_retries : nat) (ddl_input : string) : M state ctl :=
  s <- get_state ;;
  let sql_str := process_sql_str (sql_statement s) in
  emit (Print ("SQL STATEMENT- " ++ sql_str)) ;;;
  tried <- try_execute_sql_statement sql_str ;;
  match tried with
  | Ok results =>
      modify (fun s => {| num_try := num_try s; sql_statement := sql_statement s;
                          results_string := Some results;
                          statements_run := statements_run s |}) ;;;
      emit (Print ("SQL RESULTS- " ++ results)) ;;;
      ret Break
  | Raise error =>
      emit (Print ("ERROR- " ++ str_of_error error)) ;;;
      s <- get_state ;;
      emit (Call LLM (JStr (sql_statement s))) ;;;
      let rectified := sql_rectifier (sql_statement s) (str_of_error error) ddl_input in
      let num_try' := num_try s + 1 in
      modify (fun s => {| num_try := num_try'; sql_statement := rectified;
                          results_string := results_string s;
                          statements_run := statements_run s |}) ;;;
      if (num_try' =? max_retries)%nat
      then
        emit (Print ("MAX RETRIES REACHED " ++ str_nat num_try')) ;;;
        raise error
      else ret Continue
  end.

Definition retry_condition (max_retries : nat) (s : state) : bool :=
  (num_try s <=? max_retries)%nat.

(** [retriable_execution(question, max_retries, warehouse_id, uc_catalog_schema)] *)
Definition retriable_execution (fuel : nat) (question : string) (max_retries : nat)
           (uc_catalog_schema : string) : M state (option string) :=
  emit (Call SPARK (JStr uc_catalog_schema)) ;;;
  let ddl_input := get_ddl_statements uc_catalog_schema in
  emit (Call LLM (JStr question)) ;;;
  let generated := sql_generator question ddl_input in
  modify (fun s => {| num_try := 0; sql_statement := generated;
                      results_string := None;
                      statements_run := statements_run s |}) ;;;
  finished <- while_loop fuel (retry_condition max_retries)
                         (attempt max_retries ddl_input) ;;
  if negb finished then ret None
  else
    s <- get_state ;;
    match results_string s with
    | None => raise (NameError "results_string")
    | Some rows =>
        emit (Call LLM (JStr (sql_statement s))) ;;;
        ret (Some (sql_result_summarizer question (sql_statement s) rows))
    end.

End Retriable.

Definition start : state :=
  {| num_try := 0; sql_statement := ""; results_string := None; statements_run := 0 |}.

End UcTools.

(** ** The notebook functions side by side

    To compare what the functions need from the outside, each is run
    against the same record of services. *)

Module Repo.

Record services : Type := {
  (** the registered model's [system_prompt], applied to an instruction *)
  system_prompt_format : string -> string;
  (** the model-serving endpoint *)
  serving_endpoint : nat -> json -> PiiEtl.response;
  (** [vsc.get_index(...).describe()] *)
  vector_search : nat -> json;
  (** the SQL warehouse behind [execute_sql_statement] *)
  sql_warehouse : nat -> string -> result string;
  (** the language-model programs and Spark's catalog *)
  generator : string -> string -> string;
  rectifier : string -> string -> string -> string;
  summarizer : string -> string -> string -> string;
  ddl_statements : string -> string
}.

Inductive notebook_function : Type :=
| pii_bot
| wait_for_index_to_be_ready
| retriable_execution
| get_boolean_keys
| process_sql_str
| redact_text.

Definition arguments (f : notebook_function) : Type :=
  match f with
  | pii_bot => list string
  | wait_for_index_to_be_ready => (string * string)%type
  | retriable_execution => (string * nat * string)%type
  | get_boolean_keys => json
  | process_sql_str => string
  | redact_text =>
      (list string * list (list PiiEtl.PiiItem) * list (list string))%type
  end.

Definition returns (f : notebook_function) : Type :=
  match f with
  | pii_bot => list json
  | wait_for_index_to_be_ready => unit
  | retriable_execution => option string
  | get_boolean_keys => list string
  | process_sql_str => string
  | redact_text => list string
  end.

Section Run.

(** Python's [str(v)] and [str(error)]. *)
Variable py_str : json -> string.
Variable str_of_error : exn -> string.
Variable invocations_url : string.

(** One invocation: what it returns or raises, and the events it performs. *)
Definition run (f : notebook_function) (w : services)
  : arguments f -> result (returns f) * list event :=
  match f return arguments f -> result (returns f) * list event with
  | pii_bot => fun prompts =>
      let x := PiiEtl.pii_bot (system_prompt_format w) invocations_url
                              (serving_endpoint w) prompts 0 in
      (outcome x, trace x)
  | wait_for_index_to_be_ready => fun '(vs_endpoint_name, index_name) =>
      let x := VectorIndex.wait_for_index_to_be_ready py_str (vector_search w)
                 vs_endpoint_name index_name 0 in
      (outcome x, trace x)
  | retriable_execution => fun '(question, max_retries, uc_catalog_schema) =>
      let x := UcTools.retriable_execution (generator w) (rectifier w)
                 (summarizer w) (ddl_statements w) (sql_warehouse w)
                 str_of_error (S max_retries) question max_retries
                 uc_catalog_schema UcTools.start in
      (outcome x, trace x)
  | get_boolean_keys => fun arrays => (QueryHistory.get_boolean_keys arrays, [])
  | process_sql_str => fun sql_str => (Ok (UcTools.process_sql_str sql_str), [])
  | redact_text => fun '(unmasked_texts, pii_detected, excluded_flags) =>
      (PiiEtl.redact_text unmasked_texts pii_detected excluded_flags, [])
  end.

(** No request is sent twice in the invocation. *)
Definition sends_each_request_once (f : notebook_function) : Prop :=
  forall (w : services) (a : arguments f),
    NoDup (filter is_call (snd (run f w a))).

End Run.

Definition to_service (service : string) (e : event) : bool :=
  match e with
  | Call s _ => String.eqb s service
  | _ => false
  end.

(** The number of requests sent to [service]. *)
Definition calls_to (service : string) (t : list event) : nat :=
  List.length (filter (to_service service) t).

End Repo.

(** ** 04_Data_ETL.py: the expanded view and the other quarantine inserts *)

Module PiiViews.
Import PiiEtl.

(** A row of [bronze_documents_pii_handled].  [pii_detected] is an
    [ARRAY<STRUCT<pii_type:STRING,value:STRING>>]; an element is given by
    its two fields, which is how [pii_detected.*] reads it. *)
Record BronzeRow : Type := {
  b_message_id : option string;
  b_unmasked_text : option string;
  b_departments : option (list (option string));
  b_pii_detected : option (list (option string * option string))
}.

(** A row of [bronze_documents_prompts], by the columns that are read. *)
Record PromptRow : Type := {
  p_message_id : option string;
  p_prompt_profiling : option string;
  p_prompt_categorisation : option string
}.

(** [EXPLODE(array)]: one row per element, none for a NULL or empty array. *)
Definition EXPLODE {A} (array : option (list A)) : list A :=
  match array with
  | Some elements => elements
  | None => []
  end.

(** [a = b] on nullable strings. *)
Definition sql_eq (a b : option string) : option bool :=
  match a, b with
  | Some x, Some y => Some (String.eqb x y)
  | _, _ => None
  end.

(** [left INNER JOIN right ON on].  Spark fixes no order for the rows of a
    join; they are listed here as a nested loop finds them. *)
Definition inner_join {A B} (on : A -> B -> option bool)
           (left : list A) (right : list B) : list (A * B) :=
  flat_map (fun a => map (pair a) (filter (fun b => where_holds (on a b)) right)) left.

(** [SELECT message_id, unmasked_text, departments,
            EXPLODE(pii_detected) AS pii_detected FROM ...pii_handled] *)
Definition exploded (bronze : list BronzeRow)
  : list (BronzeRow * (option string * option string)) :=
  flat_map (fun b => map (pair b) (EXPLODE (b_pii_detected b))) bronze.

(** [CREATE OR REPLACE TEMPORARY VIEW view_bronze_documents_pii_handled_expanded] *)
Definition view_bronze_documents_pii_handled_expanded
           (bronze : list BronzeRow) (prompts : list PromptRow) : list ExpandedRow :=
  map (fun epr =>
         let e := fst epr in
         let pr := snd epr in
         {| message_id := b_message_id (fst e);
            unmasked_text := b_unmasked_text (fst e);
            departments := b_departments (fst e);
            pii_type := fst (snd e);
            value := snd (snd e);
            prompt_profiling := p_prompt_profiling pr;
            prompt_categorisation := p_prompt_categorisation pr |})
      (inner_join (fun e pr => sql_eq (b_message_id (fst e)) (p_message_id pr))
                  (exploded bronze) prompts).

Definition is_null {A} (v : option A) : bool :=
  match v with Some _ => false | None => true end.

(** [... b INNER JOIN ...prompts pr ON b.message_id = pr.message_id] *)
Definition bronze_with_prompts (bronze : list BronzeRow) (prompts : list PromptRow)
  : list (BronzeRow * PromptRow) :=
  inner_join (fun b pr => sql_eq (b_message_id b) (p_message_id pr)) bronze prompts.

(** The second [INSERT INTO ... quarantined]: [WHERE b.pii_detected IS NULL]. *)
Definition quarantine_null_pii_detected
           (bronze : list BronzeRow) (prompts : list PromptRow) : list QuarantinedRow :=
  map (fun bpr =>
         {| q_message_id := b_message_id (fst bpr);
            q_unmasked_text := b_unmasked_text (fst bpr);
            q_departments := b_departments (fst bpr);
            q_pii_type := None;
            q_value := None;
            q_prompt := p_prompt_profiling (snd bpr) |})
      (filter (fun bpr => is_null (b_pii_detected (fst bpr)))
              (bronze_with_prompts bronze prompts)).

(** The third [INSERT INTO ... quarantined]: [WHERE b.departments IS NULL]. *)
Definition quarantine_null_departments
           (bronze : list BronzeRow) (prompts : list PromptRow) : list QuarantinedRow :=
  map (fun bpr =>
         {| q_message_id := b_message_id (fst bpr);
            q_unmasked_text := b_unmasked_text (fst bpr);
            q_departments := None;
            q_pii_type := None;
            q_value := None;
            q_prompt := p_prompt_categorisation (snd bpr) |})
      (filter (fun bpr => is_null (b_departments (fst bpr)))
              (bronze_with_prompts bronze prompts)).

(** The quarantine table after the three inserts of the notebook. *)
Definition quarantine_inserts (quarantined_table : list QuarantinedRow)
           (bronze : list BronzeRow) (prompts : list PromptRow) : list QuarantinedRow :=
  let source_view := view_bronze_documents_pii_handled_expanded bronze prompts in
  let after_first := insert_into quarantined_table (quarantine_rows source_view) in
  let after_second :=
    insert_into after_first (quarantine_null_pii_detected bronze prompts) in
  insert_into after_second (quarantine_null_departments bronze prompts).

(** [CREATE OR REPLACE TABLE ...cleansed AS ...] over the view. *)
Definition cleansed_of (bronze : list BronzeRow) (prompts : list PromptRow)
  : list CleansedRow :=
  cleansed_table (view_bronze_documents_pii_handled_expanded bronze prompts).

End PiiViews.

(** ** 04_Data_ETL.py: the exclusion lists of the departments *)

Module Redaction.
Import PiiEtl PiiViews.

Definition DEPARTMENT_REDACTION_EXEMPTIONS : list (string * list string) :=
  [("CUSTOMER_SUPPORT", ["Person names"; "Email addresses"; "Postal addresses"]);
   ("CYBERSECURITY", ["IP addresses"; "MAC addresses"; "Network addresses"]);
   ("PEOPLE_OPS", ["Person names"; "Email addresses"]);
   ("TECHNICAL_SUPPORT", ["Person names"; "Email addresses"])].

(** [DEPARTMENT_REDACTION_EXEMPTIONS.get(department, [])]; a NULL
    department reaches Python as [None], which is no key of the dict. *)
Definition exemptions_get (department : option string) : list string :=
  match department with
  | Some name =>
      match find (fun entry => String.eqb name (fst entry))
                 DEPARTMENT_REDACTION_EXEMPTIONS with
      | Some entry => snd entry
      | None => []
      end
  | None => []
  end.

Definition newline : string := String (ascii_of_nat 10) EmptyString.

(** ["\n".join([f"- {x}" for x in xs])] *)
Definition bullet_list (xs : list string) : string :=
  String.concat newline (map (fun x => ("- " ++ x)%string) xs).

Section Prompts.

(** [user_instruction_filter_pii_types.format(pii_identified_list=...,
    department_exclusions=...)], the template being read from the
    registered model at run time. *)
Variable user_instruction_filter_pii_types_format : string -> string -> string.

(** The body of the loop of [create_filter_pii_prompt]. *)
Definition filter_pii_prompt (department : option string) (pii_identified : list string)
  : string :=
  let department_exclusions := exemptions_get department in
  match department_exclusions with
  | [] => ""
  | _ :: _ =>
      let pii_found_list := bullet_list pii_identified in
      let department_exclusions_str := bullet_list department_exclusions in
      user_instruction_filter_pii_types_format pii_found_list department_exclusions_str
  end.

(** [create_filter_pii_prompt(departments, pii_types_identified)] *)
Definition create_filter_pii_prompt (departments : list (option string))
           (pii_types_identified : list (list string)) : list string :=
  map (fun row => filter_pii_prompt (fst row) (snd row))
      (combine departments pii_types_identified).

End Prompts.

(** [list(set(items))], listed in order of first occurrence (Python fixes
    no order). *)
Fixpoint unique (items : list string) : list string :=
  match items with
  | [] => []
  | item :: rest => item :: filter (fun x => negb (String.eqb item x)) (unique rest)
  end.

Section MergedList.

(** [json.loads] *)
Variable json_loads : string -> result json.

(** [j.items()] *)
Definition dict_items (j : json) : result (list (string * json)) :=
  match j with
  | JObj kvs => Ok kvs
  | _ => Raise AttributeError
  end.

(** [item.strip()] needs a [str]. *)
Definition strip (item : json) : result string :=
  match item with
  | JStr s => Ok (str_strip s)
  | _ => Raise AttributeError
  end.

(** [parse_string(string)] inside [json_string_to_array]. *)
Definition parse_string (s : string) : result (list string) :=
  rbind (json_loads s) (fun j =>
  rbind (dict_items j) (fun kvs =>
  rbind (mapM (fun kv => iter (snd kv)) kvs) (fun extended =>
  let items := List.concat extended in
  rbind (mapM strip items) (fun stripped =>
  let items := filter (fun item => (0 <? String.length item)%nat) stripped in
  Ok (unique items))))).

(** [json_string_to_array(strings)] *)
Definition json_string_to_array (strings : list string) : result (list (list string)) :=
  mapM parse_string strings.

End MergedList.

(** A row of [view_bronze_dept_filters], by the columns that are read. *)
Record FilterRow : Type := {
  f_department : option string;
  f_prompts : string;
  merged_list : list string
}.

(** A row of [view_bronze_redact_ready]. *)
Record RedactReadyRow : Type := {
  r_message_id : option string;
  r_unmasked_text : option string;
  r_department : option string;
  r_pii_detected : list (option string * option string);
  redaction_exclusion_filters : list string
}.

(** [SELECT message_id, unmasked_text, EXPLODE(departments) AS department,
            pii_detected FROM ...cleansed] *)
Definition depts_exploded (cleansed : list CleansedRow)
  : list (CleansedRow * option string) :=
  flat_map (fun g => map (pair g) (EXPLODE (c_departments g))) cleansed.

(** [left LEFT OUTER JOIN right ON on] *)
Definition left_outer_join {A B} (on : A -> B -> option bool)
           (left : list A) (right : list B) : list (A * option B) :=
  flat_map (fun a =>
              match filter (fun b => where_holds (on a b)) right with
              | [] => [(a, None)]
              | matches => map (fun b => (a, Some b)) matches
              end) left.

(** [COALESCE(v, default)] *)
Definition COALESCE {A} (v : option A) (default : A) : A :=
  match v with Some x => x | None => default end.

(** [CREATE OR REPLACE TEMPORARY VIEW view_bronze_redact_ready] *)
Definition view_bronze_redact_ready (cleansed : list CleansedRow)
           (view_bronze_dept_filters : list FilterRow) : list RedactReadyRow :=
  map (fun joined =>
         let de := fst joined in
         let ref := snd joined in
         {| r_message_id := c_message_id (fst de);
            r_unmasked_text := c_unmasked_text (fst de);
            r_department := snd de;
            r_pii_detected := c_pii_detected (fst de);
            redaction_exclusion_filters := COALESCE (option_map merged_list ref) [] |})
      (left_outer_join (fun de ref => sql_eq (snd de) (f_department ref))
                       (depts_exploded cleansed) view_bronze_dept_filters).

(** A row of [view_bronze_department_pii_types_agg] with its prompt. *)
Record PromptedRow : Type := {
  a_department : option string;
  pii_types_identified : list string;
  prompts : string
}.

Section Filters.

Variable user_instruction_filter_pii_types_format : string -> string -> string.
Variable json_loads : string -> result json.
(** The UDF [llama_70b], from the prompts it is given to its responses. *)
Variable llama_70b : list string -> result (list string).

(** [df_agg.withColumn("prompts", create_filter_pii_prompt(...))] *)
Definition df_prompts (df_agg : list (option string * list string)) : list PromptedRow :=
  map (fun row => {| a_department := fst (fst row);
                     pii_types_identified := snd (fst row);
                     prompts := snd row |})
      (combine df_agg
               (create_filter_pii_prompt user_instruction_filter_pii_types_format
                  (map fst df_agg) (map snd df_agg))).

(** A scalar pandas UDF over a column: not called on no rows, and held to
    give back as many values as it was given. *)
Definition apply_udf {A} (udf : list string -> result (list A)) (column : list string)
  : result (list A) :=
  match column with
  | [] => Ok []
  | _ :: _ =>
      rbind (udf column) (fun values =>
      if (List.length values =? List.length column)%nat
      then Ok values
      else Raise (SparkError "Result vector from pandas_udf was not the required length"))
  end.

(** [df_prompts.where(df_prompts["prompts"] != "")
       .withColumn("response", llama_70b(col("prompts")))
       .withColumn("merged_list", json_string_to_array(col("response")))],
    registered as [view_bronze_dept_filters]. *)
Definition view_bronze_dept_filters (df_agg : list (option string * list string))
  : result (list FilterRow) :=
  let kept := filter (fun row => negb (String.eqb (prompts row) "")) (df_prompts df_agg) in
  rbind (apply_udf llama_70b (map prompts kept)) (fun responses =>
  rbind (apply_udf (json_string_to_array json_loads) responses) (fun merged =>
  Ok (map (fun row => {| f_department := a_department (fst row);
                         f_prompts := prompts (fst row);
                         merged_list := snd row |})
          (combine kept merged)))).

End Filters.

End Redaction.

(** ** demos/ml/structured-data-for-rag.py: [index_exists] *)

Module IndexExists.

Definition DESCRIBE : string := "vector-search/get_index/describe".

Section Exists.

(** The vector-search service: what [vsc.get_index(...).describe()]
    returns or raises at the [n]-th request. *)
Variable describe : nat -> result json.
(** [str(e)] *)
Variable str_of_error : exn -> string.

(** The body of the [try]: the exception, if any, goes to the handler. *)
Definition try_ready (endpoint_name index_full_name : string) : M nat (result json) :=
  fun n =>
    ((Ok (rbind (describe n) (fun dict_vsindex =>
          rbind (dict_get dict_vsindex "status" JNull) (fun status =>
          dict_get status "ready" (JBool false)))),
      S n),
     [Call DESCRIBE (JArr [JStr endpoint_name; JStr index_full_name])]).

(** [index_exists(vsc, endpoint_name, index_full_name)] *)
Definition index_exists (endpoint_name index_full_name : string) : M nat json :=
  tried <- try_ready endpoint_name index_full_name ;;
  match tried with
  | Ok ready => ret ready
  | Raise e =>
      if negb (str_contains "RESOURCE_DOES_NOT_EXIST" (str_of_error e))
      then
        emit (Print ("Unexpected error describing the index. "
                     ++ "This could be a permission issue.")%string) ;;;
        raise e
      else ret (JBool false)
  end.

End Exists.

End IndexExists.

(** ** demos/ml/uc_tools_image_upload.py: [execute_sql_statement] *)

Module SqlStatement.

(** [s[:-1]] *)
Fixpoint drop_last (s : string) : string :=
  match s with
  | EmptyString => EmptyString
  | String c EmptyString => EmptyString
  | String c s' => String c (drop_last s')
  end.

Definition newline : string := String (ascii_of_nat 10) EmptyString.

Section Execute.

(** [f"{value}"] for a value of a row. *)
Variable py_str : json -> string.
(** The warehouse behind [sql.connect(...)]: for a statement, what
    [cursor.execute] raises, or [cursor.description] reduced to the column
    names ([None] when the statement gives no result set) and the rows of
    [cursor.fetchall()]. *)
Variable cursor : string -> result (option (list string) * list (list json)).

(** [for col, value in zip(columns, row): result_str += f" {col}={value},"] *)
Definition add_columns (columns : list string) (row : list json) (result_str : string)
  : string :=
  fold_left (fun result_str cv =>
               (result_str ++ " " ++ fst cv ++ "=" ++ py_str (snd cv) ++ ",")%string)
            (combine columns row) result_str.

(** The body of [for row in cursor.fetchall()]. *)
Definition add_row (columns : list string) (result_str : string) (row : list json)
  : string :=
  let result_str := add_columns columns row result_str in
  let result_str := drop_last result_str in
  (result_str ++ newline)%string.

(** [execute_sql_statement(sql_statement, warehouse_id, host_name, db_token)] *)
Definition execute_sql_statement (sql_statement : string) : result string :=
  rbind (cursor sql_statement) (fun executed =>
  match fst executed with
  | None => Raise TypeError
  | Some columns => Ok (fold_left (add_row columns) (snd executed) "")
  end).

End Execute.

End SqlStatement.

(* ===================================================================== *)
(** * Part II: properties *)
(* ===================================================================== *)

(** ** Strings *)

Module PyFacts.

Lemma str_find_none_prefix (sub s : string) :
  str_find sub s = None -> String.prefix sub s = false.
Proof.
  destruct s; simpl; destruct sub; simpl; try discriminate; try reflexivity.
  - destruct (ascii_dec a0 a); [|reflexivity].
    destruct (String.prefix sub s); [discriminate|reflexivity].
Qed.

Lemma str_find_none_tail (sub : string) (c : ascii) (s : string) :
  str_find sub (String c s) = None -> str_find sub s = None.
Proof.
  intros H. simpl in H.
  destruct sub as [|a sub]; [discriminate|].
  destruct (ascii_dec a c).
  - destruct (String.prefix sub s); [discriminate|].
    destruct (str_find (String a sub) s); [discriminate|reflexivity].
  - destruct (str_find (String a sub) s); [discriminate|reflexivity].
Qed.

(** A text in which [old] does not occur is left as it is. *)
Lemma replace_scan_absent (old new s : string) :
  str_find old s = None -> replace_scan old new 0 s = s.
Proof.
  induction s as [|c s IH]; intros H; [reflexivity|].
  cbn [replace_scan].
  rewrite (str_find_none_prefix _ _ H).
  f_equal. apply IH. eapply str_find_none_tail; eassumption.
Qed.

Lemma str_replace_absent (old new s : string) :
  str_find old s = None -> str_replace old new s = s.
Proof.
  intros H. destruct old as [|a old].
  - destruct s; discriminate.
  - apply replace_scan_absent. exact H.
Qed.

Lemma split_scan_cons (old : string) (s : string) :
  forall skip, exists piece rest, split_scan old skip s = piece :: rest.
Proof.
  induction s as [|c s IH]; intros skip; cbn [split_scan]; [eauto|].
  destruct skip; [|apply IH].
  destruct (String.prefix old (String c s)); [eauto|].
  destruct (IH 0) as (p & r & ->). eauto.
Qed.

Lemma concat_cons (sep x : string) (xs : list string) :
  xs <> [] -> String.concat sep (x :: xs) = (x ++ sep ++ String.concat sep xs)%string.
Proof. destruct xs; [congruence|reflexivity]. Qed.

Lemma concat_head (sep : string) (c : ascii) (piece : string) (rest : list string) :
  String.concat sep (String c piece :: rest) = String c (String.concat sep (piece :: rest)).
Proof. destruct rest; reflexivity. Qed.

Lemma replace_scan_join (old new s : string) :
  forall skip, replace_scan old new skip s = String.concat new (split_scan old skip s).
Proof.
  induction s as [|c s IH]; intros skip; cbn [replace_scan split_scan]; [reflexivity|].
  destruct skip; [|apply IH].
  destruct (String.prefix old (String c s)).
  - destruct (split_scan_cons old s (String.length old - 1)) as (p & r & E).
    rewrite concat_cons by (rewrite E; discriminate). rewrite IH. reflexivity.
  - destruct (split_scan_cons old s 0) as (p & r & E). rewrite E.
    rewrite concat_head, <- E, IH. reflexivity.
Qed.

Lemma prefix_drop (s1 s2 : string) :
  String.prefix s1 s2 = true -> (s1 ++ drop (String.length s1) s2)%string = s2.
Proof.
  revert s2. induction s1 as [|a s1 IH]; intros s2 H; [reflexivity|].
  destruct s2 as [|b s2]; [discriminate|]. cbn in *.
  destruct (ascii_dec a b); [subst|discriminate]. rewrite IH; auto.
Qed.

Lemma split_scan_rejoin (old s : string) :
  old <> EmptyString ->
  forall skip, String.concat old (split_scan old skip s) = drop skip s.
Proof.
  intros Hold. induction s as [|c s IH]; intros skip; cbn [split_scan].
  - destruct skip; reflexivity.
  - destruct skip; [|apply IH].
    destruct (String.prefix old (String c s)) eqn:E.
    + destruct (split_scan_cons old s (String.length old - 1)) as (p & r & E').
      rewrite concat_cons by (rewrite E'; discriminate). rewrite IH.
      destruct old as [|a old']; [congruence|].
      pose proof (prefix_drop _ _ E) as H. cbn in H |- *.
      rewrite Nat.sub_0_r. exact H.
    + destruct (split_scan_cons old s 0) as (p & r & E'). rewrite E'.
      rewrite concat_head, <- E', IH. reflexivity.
Qed.

(** [s.replace(old, new)] is [new.join(s.split(old))], and [s] is
    [old.join(s.split(old))]: the pieces between the occurrences of [old]
    are kept, the occurrences themselves become [new]. *)
Lemma str_replace_split (old new s : string) :
  old <> EmptyString ->
  str_replace old new s = String.concat new (str_split old s)
  /\ String.concat old (str_split old s) = s.
Proof.
  intros Hold. unfold str_split. split.
  - destruct old as [|a old]; [congruence|]. apply replace_scan_join.
  - apply (split_scan_rejoin old s Hold 0).
Qed.

End PyFacts.

(** ** 04_Data_ETL.py: [redact_text] *)

Module RedactFacts.
Import PiiEtl.

Lemma redact_row_excluded (unmasked_text : string) (pii_list : list PiiItem)
      (exclusions : list string) :
  (forall item_pii, In item_pii pii_list ->
                    in_exclusions (item_pii_type item_pii) exclusions = true) ->
  redact_row unmasked_text pii_list exclusions = unmasked_text.
Proof.
  unfold redact_row.
  revert unmasked_text.
  induction pii_list as [|item rest IH]; intros unmasked_text Hall; [reflexivity|].
  cbn [fold_left]. unfold redact_item at 2.
  rewrite (Hall item (or_introl eq_refl)). cbn [negb].
  apply IH. intros it Hit. apply Hall. right. exact Hit.
Qed.

(** Excluded items play no part: the row is redacted by the replacements of
    the other items, taken in order. *)
Lemma redact_row_replacements (unmasked_text : string) (pii_list : list PiiItem)
      (exclusions : list string) :
  redact_row unmasked_text pii_list exclusions =
  fold_left (fun text item_pii =>
               str_replace (item_value item_pii) (tag item_pii) text)
            (filter (fun item_pii =>
                       negb (in_exclusions (item_pii_type item_pii) exclusions))
                    pii_list)
            unmasked_text.
Proof.
  unfold redact_row.
  revert unmasked_text.
  induction pii_list as [|item rest IH]; intros unmasked_text; [reflexivity|].
  cbn [fold_left filter]. unfold redact_item at 2.
  destruct (negb (in_exclusions (item_pii_type item) exclusions)); cbn [fold_left];
    apply IH.
Qed.

Lemma series_get_nth {A} (series : list A) (i : nat) (x : A) :
  nth_error series i = Some x -> series_get series i = Ok x.
Proof. unfold series_get. intros ->. reflexivity. Qed.

Definition row_at (unmasked_texts : list string) (pii_detected : list (list PiiItem))
           (excluded_flags : list (list string)) (i : nat) : string :=
  redact_row (nth i unmasked_texts "") (nth i pii_detected []) (nth i excluded_flags []).

Lemma redact_loop_rows (unmasked_texts : list string)
      (pii_detected : list (list PiiItem)) (excluded_flags : list (list string)) :
  forall (range : list nat) (redacted_texts : list string),
    (forall i, In i range ->
               i < List.length unmasked_texts /\ i < List.length pii_detected
               /\ i < List.length excluded_flags) ->
    redact_loop unmasked_texts pii_detected excluded_flags range redacted_texts =
    Ok (redacted_texts
        ++ map (row_at unmasked_texts pii_detected excluded_flags) range).
Proof.
  induction range as [|i range IH]; intros acc Hin.
  - cbn. rewrite app_nil_r. reflexivity.
  - destruct (Hin i (or_introl eq_refl)) as (Ht & Hp & He).
    cbn [redact_loop].
    rewrite (series_get_nth unmasked_texts i (nth i unmasked_texts ""))
      by (apply nth_error_nth'; exact Ht).
    rewrite (series_get_nth pii_detected i (nth i pii_detected []))
      by (apply nth_error_nth'; exact Hp).
    rewrite (series_get_nth excluded_flags i (nth i excluded_flags []))
      by (apply nth_error_nth'; exact He).
    cbn [rbind]. rewrite IH by (intros j Hj; apply Hin; right; exact Hj).
    rewrite <- app_assoc. reflexivity.
Qed.

(** C10, as amended.  For series of equal length [redact_text] returns one
    text per row.  A row whose items are all excluded (or that has none)
    comes back unchanged; otherwise the row is the input after the
    replacements [value -> [pii_type]] of its non-excluded items, applied
    one after the other in list order, each to the text left by the
    previous one.  One replacement cuts its text at the occurrences of the
    value, from the left and without overlap, and joins the pieces with
    the tag. *)
Theorem C10_redact_text_rows
        (unmasked_texts : list string) (pii_detected : list (list PiiItem))
        (excluded_flags : list (list string)) :
  List.length pii_detected = List.length unmasked_texts ->
  List.length excluded_flags = List.length unmasked_texts ->
  exists redacted_texts,
    redact_text unmasked_texts pii_detected excluded_flags = Ok redacted_texts
    /\ List.length redacted_texts = List.length unmasked_texts
    /\ forall i unmasked_text pii_list exclusions,
        nth_error unmasked_texts i = Some unmasked_text ->
        nth_error pii_detected i = Some pii_list ->
        nth_error excluded_flags i = Some exclusions ->
        nth_error redacted_texts i = Some (redact_row unmasked_text pii_list exclusions)
        /\ ((forall item_pii, In item_pii pii_list ->
               in_exclusions (item_pii_type item_pii) exclusions = true) ->
            redact_row unmasked_text pii_list exclusions = unmasked_text)
        /\ redact_row unmasked_text pii_list exclusions =
           fold_left (fun text item_pii =>
                        str_replace (item_value item_pii) (tag item_pii) text)
                     (filter (fun item_pii =>
                                negb (in_exclusions (item_pii_type item_pii) exclusions))
                             pii_list)
                     unmasked_text
        /\ (forall item_pii text,
               item_value item_pii <> "" ->
               str_replace (item_value item_pii) (tag item_pii) text
               = String.concat (tag item_pii) (str_split (item_value item_pii) text)
               /\ String.concat (item_value item_pii)
                                (str_split (item_value item_pii) text) = text).
Proof.
  intros Hp He.
  exists (map (row_at unmasked_texts pii_detected excluded_flags)
              (seq 0 (List.length unmasked_texts))).
  split; [|split].
  - unfold redact_text. rewrite redact_loop_rows; [reflexivity|].
    intros i Hi. apply in_seq in Hi. lia.
  - rewrite length_map, length_seq. reflexivity.
  - intros i t items excl Ht Hi He'.
    split; [|split].
    + assert (Hlt : i < List.length unmasked_texts)
        by (apply nth_error_Some; congruence).
      rewrite nth_error_map, nth_error_seq.
      destruct (Nat.ltb_spec i (List.length unmasked_texts)); [|lia].
      cbn. unfold row_at.
      rewrite (nth_error_nth _ _ "" Ht), (nth_error_nth _ _ [] Hi),
        (nth_error_nth _ _ [] He').
      reflexivity.
    + apply redact_row_excluded.
    + split; [apply redact_row_replacements|].
      intros item_pii text Hvalue. apply PyFacts.str_replace_split. exact Hvalue.
Qed.

Definition john_smith : list PiiItem :=
  [{| item_pii_type := Some "FIRST_NAME"; item_value := "John" |};
   {| item_pii_type := Some "NAME"; item_value := "John Smith" |}].

Lemma C10_redact_text_rows_witness :
  exists redacted_texts,
    redact_text ["John Smith"; "no names"] [john_smith; []] [["FIRST_NAME"; "NAME"]; []]
    = Ok redacted_texts
    /\ nth_error redacted_texts 0 = Some "John Smith".
Proof.
  destruct (C10_redact_text_rows ["John Smith"; "no names"] [john_smith; []]
              [["FIRST_NAME"; "NAME"]; []] eq_refl eq_refl)
    as (out & Hout & _ & Hrows).
  exists out. split; [exact Hout|].
  destruct (Hrows 0 "John Smith" john_smith ["FIRST_NAME"; "NAME"]
              eq_refl eq_refl eq_refl) as (Hnth & Hsame & _ & _).
  rewrite Hnth, Hsame; [reflexivity|].
  intros item [<-|[<-|[]]]; reflexivity.
Defined.

(** C10 as written fails where two values overlap: the text is one
    occurrence of the value of the non-excluded [NAME] item, and the output
    has no [[NAME]] in it, the first replacement having consumed "John". *)
Lemma C10_counterexample :
  redact_text ["John Smith"] [john_smith] [[]] = Ok ["[FIRST_NAME] Smith"]
  /\ ~ occurrences_replaced "John Smith" john_smith []
        (redact_row "John Smith" john_smith []).
Proof.
  split; [reflexivity|].
  intros H.
  specialize (H {| item_pii_type := Some "NAME"; item_value := "John Smith" |}
                (or_intror (or_introl eq_refl)) eq_refl eq_refl).
  vm_compute in H. discriminate H.
Qed.

End RedactFacts.

(** ** 04_Data_ETL.py: quarantine and cleansed tables *)

Module QuarantineFacts.
Import PiiEtl.

Lemma opt_eqb_eq {A} (eqb : A -> A -> bool) :
  (forall x y, eqb x y = true <-> x = y) ->
  forall a b, opt_eqb eqb a b = true <-> a = b.
Proof.
  intros Heqb [x|] [y|]; cbn; try (split; [discriminate|discriminate]).
  - rewrite Heqb. split; [intros ->; reflexivity|intros [= ->]; reflexivity].
  - split; reflexivity.
Qed.

Lemma list_eqb_eq {A} (eqb : A -> A -> bool) :
  (forall x y, eqb x y = true <-> x = y) ->
  forall xs ys, list_eqb eqb xs ys = true <-> xs = ys.
Proof.
  intros Heqb. induction xs as [|x xs IH]; intros [|y ys]; cbn;
    try (split; [discriminate|discriminate]).
  - split; reflexivity.
  - rewrite andb_true_iff, Heqb, IH.
    split; [intros [-> ->]; reflexivity|intros [= -> ->]; split; reflexivity].
Qed.

Lemma key_eqb_eq (a b : group_key) : key_eqb a b = true <-> a = b.
Proof.
  destruct a as [[m1 t1] d1], b as [[m2 t2] d2]. unfold key_eqb.
  rewrite !andb_true_iff.
  rewrite !(opt_eqb_eq String.eqb String.eqb_eq).
  rewrite (opt_eqb_eq _ (list_eqb_eq _ (opt_eqb_eq String.eqb String.eqb_eq))).
  split; [intros [[-> ->] ->]; reflexivity|intros [= -> -> ->]; auto].
Qed.

(** The group of key [k] holds [item]. *)
Definition holds (groups : list CleansedRow) (k : group_key)
           (item : option string * option string) : Prop :=
  exists g, In g groups /\ key_of_cleansed g = k /\ In item (c_pii_detected g).

Lemma add_to_group_holds (k0 : group_key) (item0 : option string * option string)
      (groups : list CleansedRow) (k : group_key)
      (item : option string * option string) :
  holds (add_to_group k0 item0 groups) k item
  <-> holds groups k item \/ (k = k0 /\ item = item0).
Proof.
  induction groups as [|g rest IH]; cbn [add_to_group].
  - split.
    + intros (g & [<-|[]] & Hk & Hi). right.
      destruct k0 as [[m t] d]. cbn in *. destruct Hi as [<-|[]]. auto.
    + intros [(g & [] & _)|[-> ->]].
      eexists. split; [left; reflexivity|].
      destruct k0 as [[m t] d]. cbn. auto.
  - destruct (key_eqb k0 (key_of_cleansed g)) eqn:E.
    + apply key_eqb_eq in E. split.
      * intros (g' & [<-|Hin] & Hk & Hi).
        -- cbn in Hi. apply in_app_or in Hi. destruct Hi as [Hi|[<-|[]]].
           ++ left. exists g. split; [left; reflexivity|]. split; [exact Hk|exact Hi].
           ++ right. split; [|reflexivity]. rewrite <- Hk, E. reflexivity.
        -- left. exists g'. split; [right; exact Hin|]. auto.
      * intros [(g' & [<-|Hin] & Hk & Hi)|[-> ->]].
        -- eexists. split; [left; reflexivity|]. split; [exact Hk|].
           cbn. apply in_or_app. left. exact Hi.
        -- exists g'. split; [right; exact Hin|]. auto.
        -- eexists. split; [left; reflexivity|]. split; [symmetry; exact E|].
           cbn. apply in_or_app. right. left. reflexivity.
    + split.
      * intros (g' & [<-|Hin] & Hk & Hi).
        -- left. exists g. split; [left; reflexivity|]. auto.
        -- destruct (proj1 IH (ex_intro _ g' (conj Hin (conj Hk Hi))))
             as [(g2 & Hin2 & Hk2 & Hi2)|Heq].
           ++ left. exists g2. split; [right; exact Hin2|]. auto.
           ++ right. exact Heq.
      * intros [(g' & [<-|Hin] & Hk & Hi)|Heq].
        -- exists g. split; [left; reflexivity|]. auto.
        -- destruct (proj2 IH (or_introl (ex_intro _ g' (conj Hin (conj Hk Hi)))))
             as (g2 & Hin2 & Hk2 & Hi2).
           exists g2. split; [right; exact Hin2|]. auto.
        -- destruct (proj2 IH (or_intror Heq)) as (g2 & Hin2 & Hk2 & Hi2).
           exists g2. split; [right; exact Hin2|]. auto.
Qed.

Lemma fold_groups_holds (rows : list ExpandedRow) :
  forall (groups : list CleansedRow) k item,
    holds (fold_left (fun groups r =>
                        add_to_group (key_of_expanded r) (pii_struct r) groups)
                     rows groups) k item
    <-> holds groups k item
        \/ exists r, In r rows /\ key_of_expanded r = k /\ pii_struct r = item.
Proof.
  induction rows as [|r rows IH]; intros groups k item; cbn [fold_left].
  - split; [auto|]. intros [H|(r & [] & _)]. exact H.
  - rewrite IH, add_to_group_holds. split.
    + intros [[H|[-> ->]]|(r' & Hin & Hk & Hi)].
      * left. exact H.
      * right. exists r. auto using in_eq.
      * right. exists r'. auto using in_cons.
    + intros [H|(r' & [<-|Hin] & Hk & Hi)].
      * left. left. exact H.
      * left. right. auto.
      * right. exists r'. auto.
Qed.

Lemma collect_groups_holds (rows : list ExpandedRow) k item :
  holds (collect_groups rows) k item
  <-> exists r, In r rows /\ key_of_expanded r = k /\ pii_struct r = item.
Proof.
  unfold collect_groups. rewrite fold_groups_holds.
  split; [|auto]. intros [(g & [] & _)|H]. exact H.
Qed.

(** Both conditions read [unmasked_text], [value] and [departments] only. *)
Lemma cleansed_where_fields (r r' : ExpandedRow) :
  key_of_expanded r' = key_of_expanded r -> pii_struct r' = pii_struct r ->
  cleansed_where r' = cleansed_where r.
Proof.
  unfold key_of_expanded, pii_struct, cleansed_where.
  intros [= _ -> ->] [= _ ->]. reflexivity.
Qed.

Lemma quarantine_where_fields (r r' : ExpandedRow) :
  quarantine_select r' = quarantine_select r ->
  quarantine_where r' = quarantine_where r.
Proof.
  unfold quarantine_select, quarantine_where.
  intros [= _ -> _ _ -> _]. reflexivity.
Qed.

Lemma quarantined_iff (view : list ExpandedRow) (r : ExpandedRow) :
  In r view ->
  (quarantined r (quarantine_rows view) <-> quarantine_where r = Some true).
Proof.
  intros Hin. unfold quarantined, quarantine_rows. rewrite in_map_iff.
  split.
  - intros (r' & Hsel & Hf). apply filter_In in Hf. destruct Hf as [_ Hw].
    rewrite <- (quarantine_where_fields _ _ Hsel).
    destruct (quarantine_where r') as [[|]|]; [reflexivity|discriminate|discriminate].
  - intros Hw. exists r. split; [reflexivity|].
    apply filter_In. split; [exact Hin|]. rewrite Hw. reflexivity.
Qed.

Lemma cleansed_iff (view : list ExpandedRow) (r : ExpandedRow) :
  In r view ->
  (cleansed r (cleansed_table view) <-> cleansed_where r = Some true).
Proof.
  intros Hin.
  change (cleansed r (cleansed_table view))
    with (holds (collect_groups (expanded_filtered view))
                (key_of_expanded r) (pii_struct r)).
  rewrite collect_groups_holds. unfold expanded_filtered. split.
  - intros (r' & Hf & Hk & Hi). apply filter_In in Hf. destruct Hf as [_ Hw].
    rewrite <- (cleansed_where_fields _ _ Hk Hi).
    destruct (cleansed_where r') as [[|]|]; [reflexivity|discriminate|discriminate].
  - intros Hw. exists r. split; [|auto].
    apply filter_In. split; [exact Hin|]. rewrite Hw. reflexivity.
Qed.

Lemma placeholder_iff (v : string) :
  str_in v placeholders = true <-> v = "" \/ v = "...".
Proof.
  unfold str_in, placeholders. cbn [existsb].
  rewrite !orb_true_iff, !String.eqb_eq. intuition discriminate.
Qed.

(** [INSTR] on two non-NULL strings. *)
Definition instr (str substr : string) : Z :=
  match str_find substr str with
  | Some n => Z.of_nat n + 1
  | None => 0
  end.

(** C9, as amended: the claim with [unmasked_text] required to be non-NULL
    as well.  For a row of the expanded view whose [unmasked_text], [value]
    and [departments] are all non-NULL, the first quarantine [INSERT] takes
    the row iff [INSTR(unmasked_text, value) <= 0] or the value is "" or
    "...", the cleansed table keeps it iff [INSTR(unmasked_text, value) > 0]
    and the value is neither, and the row is in exactly one of the two. *)
Theorem C9_quarantine_cleansed_complementary
        (view : list ExpandedRow) (r : ExpandedRow)
        (t v : string) (d : list (option string)) :
  In r view ->
  unmasked_text r = Some t -> value r = Some v -> departments r = Some d ->
  (quarantined r (quarantine_rows view)
   <-> ((instr t v <= 0)%Z \/ v = "" \/ v = "..."))
  /\ (cleansed r (cleansed_table view)
      <-> ((instr t v > 0)%Z /\ v <> "" /\ v <> "..."))
  /\ (quarantined r (quarantine_rows view) \/ cleansed r (cleansed_table view))
  /\ ~ (quarantined r (quarantine_rows view) /\ cleansed r (cleansed_table view)).
Proof.
  intros Hin Ht Hv Hd.
  rewrite (quarantined_iff view r Hin), (cleansed_iff view r Hin).
  unfold quarantine_where, cleansed_where. rewrite Ht, Hv, Hd.
  cbn [INSTR sql_le sql_gt sql_in sql_not sql_is_not_null option_map].
  fold (instr t v).
  pose proof (placeholder_iff v) as Hp.
  destruct (str_in v placeholders) eqn:Ein;
    destruct (Z.leb_spec (instr t v) 0); destruct (Z.ltb_spec 0 (instr t v));
    cbn; try lia;
    intuition (try discriminate; try lia; try congruence).
Qed.

Definition found : ExpandedRow :=
  {| message_id := Some "m1"; unmasked_text := Some "Hi Bob";
     departments := Some [Some "IT"]; pii_type := Some "NAME"; value := Some "Bob";
     prompt_profiling := Some "profile"; prompt_categorisation := Some "categorise" |}.

Definition placeholder : ExpandedRow :=
  {| message_id := Some "m1"; unmasked_text := Some "Hi Bob";
     departments := Some [Some "IT"]; pii_type := Some "EMAIL"; value := Some "...";
     prompt_profiling := Some "profile"; prompt_categorisation := Some "categorise" |}.

Lemma C9_quarantine_cleansed_complementary_witness :
  cleansed found (cleansed_table [found; placeholder])
  /\ quarantined placeholder (quarantine_rows [found; placeholder]).
Proof.
  split.
  - apply (proj1 (proj2 (C9_quarantine_cleansed_complementary
                           [found; placeholder] found "Hi Bob" "Bob" [Some "IT"]
                           (or_introl eq_refl) eq_refl eq_refl eq_refl))).
    split; [reflexivity|]. split; discriminate.
  - apply (proj1 (C9_quarantine_cleansed_complementary
                    [found; placeholder] placeholder "Hi Bob" "..." [Some "IT"]
                    (or_intror (or_introl eq_refl)) eq_refl eq_refl eq_refl)).
    right. right. reflexivity.
Defined.

(** A message whose text is NULL, with a detected value and departments. *)
Definition null_text : ExpandedRow :=
  {| message_id := Some "m2"; unmasked_text := None;
     departments := Some [Some "IT"]; pii_type := Some "NAME"; value := Some "Bob";
     prompt_profiling := Some "profile"; prompt_categorisation := Some "categorise" |}.

(** C9 as written fails on a row whose [unmasked_text] is NULL: [INSTR] is
    NULL there, neither [WHERE] holds, and the row, with its non-NULL value
    and departments, is in neither table. *)
Lemma C9_counterexample :
  value null_text = Some "Bob"
  /\ departments null_text = Some [Some "IT"]
  /\ quarantine_rows [null_text] = []
  /\ cleansed_table [null_text] = []
  /\ ~ (quarantined null_text (quarantine_rows [null_text])
        \/ cleansed null_text (cleansed_table [null_text])).
Proof.
  repeat split.
  intros [H|(g & H & _)]; exact H.
Qed.

End QuarantineFacts.

(** ** 04_Data_ETL.py: [pii_bot] *)

Module PiiBotFacts.
Import PiiEtl.

Section Invocation.

Variable system_prompt_format : string -> string.
Variable invocations_url : string.
Variable endpoint : nat -> json -> response.

Let bot := pii_bot system_prompt_format invocations_url endpoint.
Let payload (prompts : list string) : json :=
  inference_data (map system_prompt_format prompts).

(** What the invocation does after the response has come in. *)
Definition decode (r : response) : result (list json) :=
  rbind (response_json r) (fun response_json =>
  rbind (rbind (getitem response_json "predictions") iter) (fun predictions =>
  mapM first_candidate_text predictions)).

Lemma pii_bot_run (prompts : list string) (n : nat) :
  bot prompts n =
  ((if (status_code (endpoint n (payload prompts)) =? 200)%nat
    then decode (endpoint n (payload prompts))
    else Raise (request_failed (endpoint n (payload prompts))),
    S n),
   [Sleep WAIT_SECONDS; Call invocations_url (payload prompts)]).
Proof.
  unfold bot, pii_bot, payload, decode, bind, emit, requests_post, lift, raise, ret.
  cbn.
  destruct (status_code _ =? 200)%nat; cbn; [|reflexivity].
  destruct (response_json _) as [j|e]; cbn; [|reflexivity].
  destruct (rbind (getitem j "predictions") iter) as [ps|e]; cbn; [|reflexivity].
  destruct (mapM first_candidate_text ps); reflexivity.
Qed.

End Invocation.

(** The first candidate of [prediction] has the text [t]. *)
Definition first_text (prediction t : json) : Prop :=
  exists fields candidate others,
    prediction = JObj fields
    /\ assoc "candidates" fields = Some (JArr (JObj candidate :: others))
    /\ assoc "text" candidate = Some t.

Lemma first_candidate_text_ok (prediction t : json) :
  first_text prediction t -> first_candidate_text prediction = Ok t.
Proof.
  intros (fields & candidate & others & -> & Hc & Ht).
  unfold first_candidate_text. cbn. rewrite Hc. cbn. rewrite Ht. reflexivity.
Qed.

Lemma mapM_first_text (predictions texts : list json) :
  Forall2 first_text predictions texts ->
  mapM first_candidate_text predictions = Ok texts.
Proof.
  induction 1 as [|p t ps ts Hp _ IH]; [reflexivity|].
  cbn. rewrite (first_candidate_text_ok _ _ Hp), IH. reflexivity.
Qed.

(** C2, as amended.  An invocation whose response has a status other than
    200 raises [Exception("Request failed with status ...")] and returns
    nothing.  An invocation whose response has status 200 and a JSON body
    holding a list of predictions, each with a first candidate that has a
    text, returns these texts, one per prediction and in order. *)
Theorem C2_pii_bot_status
        (system_prompt_format : string -> string) (invocations_url : string)
        (endpoint : nat -> json -> response) (prompts : list string) (n : nat) :
  let response :=
    endpoint n (inference_data (map system_prompt_format prompts)) in
  let invocation :=
    pii_bot system_prompt_format invocations_url endpoint prompts n in
  (status_code response <> 200 ->
   outcome invocation = Raise (request_failed response))
  /\ (forall body predictions texts,
         status_code response = 200 ->
         json_body response = Some (JObj body) ->
         assoc "predictions" body = Some (JArr predictions) ->
         Forall2 first_text predictions texts ->
         outcome invocation = Ok texts
         /\ List.length texts = List.length predictions).
Proof.
  intros response invocation. subst response invocation.
  rewrite pii_bot_run. unfold outcome. cbn [fst].
  split.
  - intros Hs. apply Nat.eqb_neq in Hs. rewrite Hs. reflexivity.
  - intros body predictions texts Hs Hb Hp Ht.
    rewrite Hs. cbn [Nat.eqb].
    unfold decode, response_json. rewrite Hb. cbn. rewrite Hp. cbn.
    split; [apply mapM_first_text; exact Ht|].
    symmetry. eapply Forall2_length. exact Ht.
Qed.

Definition served (texts : list string) : response :=
  {| status_code := 200;
     text := "";
     json_body :=
       Some (JObj [("predictions",
                    JArr (map (fun t =>
                                 JObj [("candidates",
                                        JArr [JObj [("text", JStr t)]])])
                              texts))]) |}.

Definition gateway_timeout : response :=
  {| status_code := 504; text := "upstream request timeout"; json_body := None |}.

Definition wrap (prompt : string) : string := "[INST]" ++ prompt ++ "[/INST]".

Lemma C2_pii_bot_status_witness :
  outcome (pii_bot wrap "invocations" (fun _ _ => gateway_timeout) ["Hi Bob"] 0)
  = Raise (Exception "Request failed with status 504, upstream request timeout")
  /\ outcome (pii_bot wrap "invocations" (fun _ _ => served ["{}"]) ["Hi Bob"] 0)
     = Ok [JStr "{}"].
Proof.
  split.
  - apply (proj1 (C2_pii_bot_status wrap "invocations"
                    (fun _ _ => gateway_timeout) ["Hi Bob"] 0)).
    discriminate.
  - apply (proj2 (C2_pii_bot_status wrap "invocations"
                    (fun _ _ => served ["{}"]) ["Hi Bob"] 0)
                 _ _ [JStr "{}"] eq_refl eq_refl eq_refl).
    constructor; [|constructor].
    exists [("candidates", JArr [JObj [("text", JStr "{}")]])],
           [("text", JStr "{}")], [].
    repeat split.
Defined.

(** A 200 response in which a prediction has no candidate. *)
Definition no_candidate : response :=
  {| status_code := 200;
     text := "";
     json_body := Some (JObj [("predictions", JArr [JObj [("candidates", JArr [])]])]) |}.

(** C2 as written fails on such a response: the status is 200 and the
    invocation raises [IndexError] instead of returning a series. *)
Lemma C2_counterexample :
  status_code no_candidate = 200
  /\ outcome (pii_bot wrap "invocations" (fun _ _ => no_candidate) ["Hi Bob"] 0)
     = Raise IndexError.
Proof. split; reflexivity. Qed.

(** C8.  Whatever the prompts and the response, an invocation sleeps
    [WAIT_SECONDS = 5] seconds and then sends its one POST: in its log every
    request comes right after a sleep of 5 seconds. *)
Theorem C8_pii_bot_sleeps_before_post
        (system_prompt_format : string -> string) (invocations_url : string)
        (endpoint : nat -> json -> response) (prompts : list string) (n : nat) :
  let invocation :=
    pii_bot system_prompt_format invocations_url endpoint prompts n in
  WAIT_SECONDS = 5%Z
  /\ trace invocation =
     [Sleep 5;
      Call invocations_url (inference_data (map system_prompt_format prompts))]
  /\ calls_follow_sleep 5 None (trace invocation) = true.
Proof.
  intros invocation. subst invocation. rewrite pii_bot_run.
  repeat split.
Qed.

End PiiBotFacts.

(** ** 04_Data_ETL.py: [batch_process_prompts] *)

Module BatchFacts.
Import PiiEtl.

Definition is_print (e : event) : bool :=
  match e with Print _ => true | _ => false end.

(** What iteration [i] of the loop does. *)
Definition iteration_events (i : nat) : list event :=
  Print (processing_message i)
  :: (if (i <? N_PROMPTS_PER_BATCH - 1)%nat then [Sleep (WAIT_MINS * 60)] else []).

Lemma fold_left_union {Row} (others : list (list (list (IdRow Row))))
      (first : list (list (IdRow Row))) :
  fold_left (@union Row) others first = first ++ List.concat others.
Proof.
  revert first. induction others as [|o others IH]; intros first; cbn.
  - rewrite app_nil_r. reflexivity.
  - rewrite IH. unfold union. rewrite app_assoc. reflexivity.
Qed.

Section Loop.

Variable Row : Type.
Variable S : Type.

Lemma batch_loop_run (df_with_batches : list (list (IdRow Row))) :
  forall (range : list nat) (results : list (list (list (IdRow Row)))) (s : S),
    batch_loop Row df_with_batches range results s =
    ((Ok (results ++ map (fun i => filter_batch Row i df_with_batches) range), s),
     flat_map iteration_events range).
Proof.
  induction range as [|i range IH]; intros results s.
  - cbn. rewrite app_nil_r. reflexivity.
  - cbn [batch_loop flat_map map]. unfold bind at 1. cbn [emit].
    unfold bind at 1.
    unfold iteration_events at 1.
    destruct (i <? N_PROMPTS_PER_BATCH - 1)%nat; cbn [emit ret];
      rewrite IH, <- app_assoc; reflexivity.
Qed.

Lemma batch_process_prompts_run (df : DataFrame Row) (s : S) :
  batch_process_prompts Row df s =
  ((Ok (List.concat (map (fun i => filter_batch Row i (with_batches Row df))
                         (seq 0 N_PROMPTS_PER_BATCH))), s),
   flat_map iteration_events (seq 0 N_PROMPTS_PER_BATCH)).
Proof.
  unfold batch_process_prompts, bind. rewrite batch_loop_run.
  cbn [app]. change (seq 0 N_PROMPTS_PER_BATCH) with (0 :: seq 1 39).
  cbn [map]. cbn [ret]. rewrite fold_left_union, app_nil_r. reflexivity.
Qed.

End Loop.

(** C3.  For every input DataFrame the loop runs its 40 iterations, each
    announced by its print, with one sleep of [WAIT_MINS * 60 = 120]
    seconds after each iteration but the last, and returns.  The log does
    not depend on the DataFrame. *)
Theorem C3_batch_loop_fixed (Row S : Type) (df : DataFrame Row) (s : S) :
  let run := batch_process_prompts Row df s in
  N_PROMPTS_PER_BATCH = 40
  /\ (WAIT_MINS * 60 = 120)%Z
  /\ trace run = flat_map iteration_events (seq 0 40)
  /\ List.length (filter is_print (trace run)) = 40
  /\ filter is_sleep (trace run) = repeat (Sleep 120) 39
  /\ last (trace run) (Sleep 0) = Print "Processing batch 39 / 39"
  /\ hd (Sleep 0) (trace run) = Print "Processing batch 0 / 39"
  /\ is_ok (outcome run) = true.
Proof.
  intros run. subst run. rewrite batch_process_prompts_run.
  unfold trace, outcome. cbn [fst snd is_ok].
  repeat split; vm_compute; reflexivity.
Qed.

(** *** The batches partition the rows *)

Lemma wrap64_small (z : Z) :
  (- 2 ^ 63 <= z < 2 ^ 63)%Z -> wrap64 z = z.
Proof.
  intros H. unfold wrap64. rewrite Z.mod_small; lia.
Qed.

Lemma monotonically_increasing_id_small (partition offset : nat) :
  (Z.of_nat partition < 2 ^ 30)%Z -> (Z.of_nat offset < 2 ^ 33)%Z ->
  monotonically_increasing_id partition offset
  = (Z.of_nat partition * 2 ^ 33 + Z.of_nat offset)%Z.
Proof.
  intros Hp Ho. unfold monotonically_increasing_id.
  rewrite Z.shiftl_mul_pow2 by lia. apply wrap64_small. lia.
Qed.

Lemma spark_mod_nonneg (a : Z) :
  (0 <= a)%Z ->
  spark_mod a 40 = (a mod 40)%Z /\ (0 <= spark_mod a 40 < 40)%Z.
Proof.
  intros Ha. unfold spark_mod. rewrite Z.rem_mod_nonneg by lia.
  pose proof (Z.mod_pos_bound a 40 ltac:(lia)).
  rewrite wrap64_small by lia. lia.
Qed.

(** A list cut into classes [0 .. n-1] by a key and put together again. *)
Lemma filter_classes_le {A} (key : A -> Z) (l : list A) (n : nat) :
  Permutation (filter (fun x => (key x <? Z.of_nat n)%Z) l
               ++ filter (fun x => (key x =? Z.of_nat n)%Z) l)
              (filter (fun x => (key x <? Z.of_nat (Datatypes.S n))%Z) l).
Proof.
  induction l as [|a l IH]; [constructor|].
  cbn [filter].
  destruct (Z.ltb_spec (key a) (Z.of_nat n));
    destruct (Z.eqb_spec (key a) (Z.of_nat n));
    destruct (Z.ltb_spec (key a) (Z.of_nat (Datatypes.S n))); try lia.
  - cbn. constructor. exact IH.
  - symmetry. etransitivity; [|apply Permutation_middle].
    constructor. symmetry. exact IH.
  - exact IH.
Qed.

Lemma filter_none {A} (f : A -> bool) (l : list A) :
  Forall (fun x => f x = false) l -> filter f l = [].
Proof.
  induction 1 as [|x l Hx _ IH]; [reflexivity|]. cbn. rewrite Hx. exact IH.
Qed.

Lemma filter_all {A} (f : A -> bool) (l : list A) :
  Forall (fun x => f x = true) l -> filter f l = l.
Proof.
  induction 1 as [|x l Hx _ IH]; [reflexivity|]. cbn. rewrite Hx, IH. reflexivity.
Qed.

Lemma filter_classes_below {A} (key : A -> Z) (l : list A) (n : nat) :
  Forall (fun x => (0 <= key x)%Z) l ->
  Permutation
    (List.concat (map (fun i => filter (fun x => (key x =? Z.of_nat i)%Z) l) (seq 0 n)))
    (filter (fun x => (key x <? Z.of_nat n)%Z) l).
Proof.
  intros Hpos. induction n as [|n IH].
  - cbn. rewrite filter_none; [constructor|].
    eapply Forall_impl; [|exact Hpos]. cbn. intros x Hx.
    destruct (Z.ltb_spec (key x) 0); [lia|reflexivity].
  - rewrite seq_S, map_app, concat_app. cbn [map List.concat plus].
    rewrite app_nil_r. etransitivity; [|apply filter_classes_le].
    apply Permutation_app_tail. exact IH.
Qed.

Lemma filter_classes {A} (key : A -> Z) (l : list A) (n : nat) :
  Forall (fun x => (0 <= key x < Z.of_nat n)%Z) l ->
  Permutation
    (List.concat (map (fun i => filter (fun x => (key x =? Z.of_nat i)%Z) l) (seq 0 n)))
    l.
Proof.
  intros Hb. etransitivity.
  - apply filter_classes_below. eapply Forall_impl; [|exact Hb]. cbn. intros; lia.
  - rewrite filter_all; [reflexivity|].
    eapply Forall_impl; [|exact Hb]. cbn. intros x Hx.
    destruct (Z.ltb_spec (key x) (Z.of_nat n)); [reflexivity|lia].
Qed.

Section Rows.

Variable Row : Type.
Variable prompt_col : Row -> string.

(** The ids Spark gives: non-negative, and a batch id in [0, 40). *)
Definition well_numbered (r : IdRow Row) : Prop :=
  (0 <= mono_id r)%Z
  /\ batch_id r = (mono_id r mod 40)%Z
  /\ (0 <= batch_id r < 40)%Z.

Lemma number_rows_base (partition : nat) (rows : list Row) :
  forall offset, map base (number_rows Row partition offset rows) = rows.
Proof.
  induction rows as [|r rows IH]; intros offset; [reflexivity|].
  cbn. rewrite IH. reflexivity.
Qed.

Lemma number_rows_well_numbered (partition : nat) (rows : list Row) :
  (Z.of_nat partition < 2 ^ 30)%Z ->
  forall offset,
    (Z.of_nat offset + Z.of_nat (List.length rows) <= 2 ^ 33)%Z ->
    Forall well_numbered (number_rows Row partition offset rows).
Proof.
  intros Hp. induction rows as [|r rows IH]; intros offset Hlen; [constructor|].
  cbn [number_rows List.length] in *.
  constructor.
  - unfold well_numbered. cbn [mono_id batch_id].
    rewrite monotonically_increasing_id_small by lia.
    change (Z.of_nat N_PROMPTS_PER_BATCH) with 40%Z.
    pose proof (spark_mod_nonneg (Z.of_nat partition * 2 ^ 33 + Z.of_nat offset)
                                 ltac:(lia)).
    lia.
  - apply IH. lia.
Qed.

Lemma with_batches_from_base (df : DataFrame Row) :
  forall partition,
    map base (rows_of (with_batches_from Row partition df)) = rows_of df.
Proof.
  unfold rows_of. induction df as [|rows df IH]; intros partition; [reflexivity|].
  cbn. rewrite map_app, number_rows_base, IH. reflexivity.
Qed.

Lemma with_batches_from_well_numbered (df : DataFrame Row) :
  Forall (fun rows => (Z.of_nat (List.length rows) <= 2 ^ 33)%Z) df ->
  forall partition,
    (Z.of_nat partition + Z.of_nat (List.length df) <= 2 ^ 30)%Z ->
    Forall well_numbered (rows_of (with_batches_from Row partition df)).
Proof.
  unfold rows_of. induction 1 as [|rows df Hrows _ IH]; intros partition Hlen;
    [constructor|].
  cbn [with_batches_from List.concat List.length] in *.
  apply Forall_app. split.
  - apply number_rows_well_numbered; lia.
  - apply IH. lia.
Qed.

Lemma rows_of_batches (tagged : list (list (IdRow Row))) (n : nat) :
  rows_of (List.concat (map (fun i => filter_batch Row i tagged) (seq 0 n)))
  = List.concat (map (fun i => filter (fun r => (batch_id r =? Z.of_nat i)%Z)
                                      (rows_of tagged)) (seq 0 n)).
Proof.
  unfold rows_of. induction (seq 0 n) as [|i range IH]; [reflexivity|].
  cbn [map List.concat]. rewrite concat_app, IH. f_equal.
  unfold filter_batch. apply concat_filter_map.
Qed.

(** *** Evaluating the result column *)

Section Evaluate.

Variable udf : list string -> M nat (list json).

Lemma eval_partition_src (rows : list (IdRow Row)) (n : nat)
      (out : list (OutRow Row)) :
  outcome (eval_partition Row prompt_col udf rows n) = Ok out ->
  map src out = rows.
Proof.
  unfold eval_partition, outcome. destruct rows as [|r rows].
  - cbn. intros [= <-]. reflexivity.
  - unfold bind.
    destruct (udf _ n) as [[[values|e] n'] t]; cbn; [|discriminate].
    destruct (Nat.eqb_spec (List.length values) (Datatypes.S (List.length rows)))
      as [Hlen|_]; cbn; [|discriminate].
    intros [= <-]. rewrite map_map. cbn [src].
    change (fun x : IdRow Row * json => fst x) with (@fst (IdRow Row) json).
    destruct values as [|v values]; [discriminate|].
    cbn [combine map fst]. f_equal.
    clear - Hlen. cbn in Hlen. injection Hlen as Hlen.
    revert values Hlen. induction rows as [|r' rows IH]; intros [|v' values] Hlen;
      try discriminate; [reflexivity|].
    cbn. f_equal. apply IH. cbn in Hlen. lia.
Qed.

Lemma collect_src (df : list (list (IdRow Row))) :
  forall (n : nat) (out : list (OutRow Row)),
    outcome (collect Row prompt_col udf df n) = Ok out ->
    map src out = rows_of df.
Proof.
  unfold rows_of, outcome. induction df as [|rows df IH]; intros n out.
  - cbn. intros [= <-]. reflexivity.
  - cbn [collect]. unfold bind at 1.
    pose proof (eval_partition_src rows n) as Hpart. unfold outcome in Hpart.
    destruct (eval_partition Row prompt_col udf rows n) as [[[o|e] n1] t1];
      cbn [fst] in *; [|discriminate].
    unfold bind at 1. specialize (IH n1).
    destruct (collect Row prompt_col udf df n1) as [[[os|e] n2] t2];
      cbn [fst] in *; [|discriminate].
    cbn. intros [= <-]. rewrite map_app, (Hpart o eq_refl), (IH os eq_refl).
    reflexivity.
Qed.

(** The UDF answers every call, with one value per prompt. *)
Definition answers_each_prompt : Prop :=
  forall prompts n,
    exists values, outcome (udf prompts n) = Ok values
                   /\ List.length values = List.length prompts.

Lemma collect_returns (df : list (list (IdRow Row))) :
  answers_each_prompt ->
  forall n, is_ok (outcome (collect Row prompt_col udf df n)) = true.
Proof.
  intros Hudf. unfold outcome. induction df as [|rows df IH]; intros n;
    [reflexivity|].
  cbn [collect]. unfold bind at 1.
  assert (Hpart : exists o n1 t1,
             eval_partition Row prompt_col udf rows n = ((Ok o, n1), t1)).
  { unfold eval_partition. destruct rows as [|r rows].
    - do 3 eexists. reflexivity.
    - unfold bind.
      destruct (Hudf (map (fun r => prompt_col (base r)) (r :: rows)) n)
        as (values & Hv & Hlen).
      unfold outcome in Hv.
      destruct (udf _ n) as [[res n'] t]. cbn [fst] in Hv. subst res.
      rewrite length_map in Hlen. rewrite Hlen, Nat.eqb_refl.
      do 3 eexists. reflexivity. }
  destruct Hpart as (o & n1 & t1 & ->).
  unfold bind at 1. specialize (IH n1).
  destruct (collect Row prompt_col udf df n1) as [[[os|e] n2] t2];
    cbn [fst is_ok] in *; [reflexivity|discriminate].
Qed.

End Evaluate.

(** C5.  For a DataFrame within the limits Spark sets for
    [monotonically_increasing_id] (fewer than 2^30 partitions, fewer than
    2^33 rows in each), every row is given [batch_id = mono_id mod 40];
    batch [i] holds the rows whose [batch_id] is [i]; the DataFrame
    returned is the union of the batches 0..39 and its rows are the input
    rows, each of them once; evaluating it gives every row its result
    value, whenever the UDF answers each call with one value per prompt. *)
Theorem C5_batches_partition (S : Type) (df : DataFrame Row) (s : S) :
  (Z.of_nat (List.length df) <= 2 ^ 30)%Z ->
  Forall (fun rows => (Z.of_nat (List.length rows) <= 2 ^ 33)%Z) df ->
  let tagged := with_batches Row df in
  let batch i := filter_batch Row i tagged in
  exists returned,
    outcome (batch_process_prompts Row df s) = Ok returned
    /\ map base (rows_of tagged) = rows_of df
    /\ Forall (fun r => batch_id r = (mono_id r mod 40)%Z) (rows_of tagged)
    /\ returned = List.concat (map batch (seq 0 40))
    /\ (forall i r, In r (rows_of (batch i))
                    <-> In r (rows_of tagged) /\ batch_id r = Z.of_nat i)
    /\ Permutation (rows_of returned) (rows_of tagged)
    /\ Permutation (map base (rows_of returned)) (rows_of df)
    /\ (forall udf n out,
           outcome (collect Row prompt_col udf returned n) = Ok out ->
           map src out = rows_of returned)
    /\ (forall udf n,
           answers_each_prompt udf ->
           is_ok (outcome (collect Row prompt_col udf returned n)) = true).
Proof.
  intros Hparts Hrows tagged batch.
  assert (Hwell : Forall well_numbered (rows_of tagged))
    by (apply with_batches_from_well_numbered; [exact Hrows|lia]).
  assert (Hperm : Permutation (rows_of (List.concat (map batch (seq 0 40))))
                              (rows_of tagged)).
  { subst batch. rewrite rows_of_batches.
    apply (filter_classes batch_id (rows_of tagged) 40).
    eapply Forall_impl; [|exact Hwell]. unfold well_numbered. cbn. intros; lia. }
  exists (List.concat (map batch (seq 0 40))).
  split; [rewrite BatchFacts.batch_process_prompts_run; reflexivity|].
  split; [apply with_batches_from_base|].
  split; [eapply Forall_impl; [|exact Hwell]; unfold well_numbered; tauto|].
  split; [reflexivity|].
  split.
  { intros i r. subst batch. unfold rows_of, filter_batch.
    rewrite concat_filter_map, filter_In, Z.eqb_eq. reflexivity. }
  split; [exact Hperm|].
  split.
  { rewrite <- (with_batches_from_base df 0). apply Permutation_map. exact Hperm. }
  split.
  - intros udf n out. apply collect_src.
  - intros udf n Hudf. apply collect_returns. exact Hudf.
Qed.

End Rows.

Definition prompts_table : DataFrame string :=
  [["Hi Bob"; "Call 555-0100"; "From Ann"]; ["No names here"]].

(** Both partitions are numbered from their own offset 0: the fourth row
    gets the id [2^33] and goes to batch 32. *)
Lemma C5_batches_partition_witness :
  exists returned,
    outcome (batch_process_prompts string prompts_table tt) = Ok returned
    /\ Permutation (map base (rows_of returned)) (rows_of prompts_table)
    /\ map batch_id (rows_of (with_batches string prompts_table))
       = [0; 1; 2; 32]%Z.
Proof.
  destruct (C5_batches_partition string (fun prompt => prompt) unit
              prompts_table tt)
    as (returned & Hout & _ & _ & _ & _ & _ & Hperm & _).
  - vm_compute. discriminate.
  - repeat constructor; vm_compute; discriminate.
  - exists returned. split; [exact Hout|]. split; [exact Hperm|reflexivity].
Defined.

End BatchFacts.

(** ** Loops *)

Module LoopFacts.

Section While.

Variable S : Type.
Variable cond : S -> bool.
Variable body : M S ctl.

(** A run cut by its fuel stands where the loop would go on. *)
Lemma while_loop_cut (fuel : nat) :
  forall s s' t,
    while_loop fuel cond body s = ((Ok false, s'), t) -> cond s' = true.
Proof.
  induction fuel as [|fuel IH]; intros s s' t; cbn [while_loop].
  - destruct (cond s) eqn:E; intros [= <- <-]. exact E.
  - destruct (cond s) eqn:E; [|discriminate].
    unfold bind. destruct (body s) as [[[[|]|e] s1] t1].
    + specialize (IH s1).
      destruct (while_loop fuel cond body s1) as [[r s2] t2].
      intros [= -> -> <-]. eapply IH. reflexivity.
    + cbn. discriminate.
    + discriminate.
Qed.

(** More fuel takes a cut run further, from where it stood. *)
Lemma while_loop_resume (fuel more : nat) :
  forall s s' t,
    while_loop fuel cond body s = ((Ok false, s'), t) ->
    while_loop (fuel + more) cond body s =
    (fst (while_loop more cond body s'),
     t ++ snd (while_loop more cond body s')).
Proof.
  induction fuel as [|fuel IH]; intros s s' t; cbn [while_loop plus].
  - destruct (cond s) eqn:E; intros [= <- <-].
    destruct (while_loop more cond body s) as [rs t']. reflexivity.
  - destruct (cond s) eqn:E; [|discriminate].
    unfold bind. destruct (body s) as [[[[|]|e] s1] t1].
    + specialize (IH s1).
      destruct (while_loop fuel cond body s1) as [[r s2] t2].
      intros [= -> -> <-]. rewrite (IH s' t2 eq_refl).
      rewrite app_assoc. reflexivity.
    + cbn. discriminate.
    + discriminate.
Qed.

End While.

End LoopFacts.

(** ** query_history_api_to_delta.py *)

Module QueryHistoryFacts.
Import QueryHistory.

(** A piece of the loop body that keeps the page and request counters,
    does not [break], and either leaves the table alone and writes
    nothing, or does the one write of the page. *)
Definition page_tail (m : M state ctl) : Prop :=
  forall s,
    outcome (m s) <> Ok Break
    /\ pages_fetched (final (m s)) = pages_fetched s
    /\ requests_sent (final (m s)) = requests_sent s
    /\ ((trace (m s) = [] /\ queries_table (final (m s)) = queries_table s)
        \/ trace (m s) = [Write QUERIES_TABLE]).

Ltac tail_case side :=
  unfold outcome, final, trace; cbn;
  split; [discriminate|split; [reflexivity|split; [reflexivity|side]]].

Lemma page_tail_lift {A} (r : result A) (k : A -> M state ctl) :
  (forall a, page_tail (k a)) -> page_tail (bind (lift r) k).
Proof.
  intros Hk s. unfold bind, lift. destruct r as [a|e].
  - specialize (Hk a s). destruct (k a s) as [[r' s'] t']. exact Hk.
  - tail_case ltac:(left; split; reflexivity).
Qed.

Lemma page_tail_modify (f : state -> state) (k : M state ctl) :
  (forall s, pages_fetched (f s) = pages_fetched s
             /\ requests_sent (f s) = requests_sent s
             /\ queries_table (f s) = queries_table s) ->
  page_tail k -> page_tail (bind (modify f) (fun _ => k)).
Proof.
  intros Hf Hk s. unfold bind, modify.
  specialize (Hk (f s)). destruct (Hf s) as (Hp & Hr & Ht).
  destruct (k (f s)) as [[r' s'] t']. cbn in *.
  rewrite <- Hp, <- Hr, <- Ht. exact Hk.
Qed.

Lemma page_tail_write (df : DataFrame) :
  page_tail (bind (write_page df) (fun _ => ret Continue)).
Proof.
  intros s.
  unfold write_page, check_table_exist, bind, get_state, emit, modify, lift, ret.
  destruct (queries_table s) as [table|] eqn:E; cbn; rewrite ?E.
  - destruct (delta_merge table (rows df)); cbn.
    + tail_case ltac:(right; reflexivity).
    + tail_case ltac:(left; split; [reflexivity|exact E]).
  - tail_case ltac:(right; reflexivity).
Qed.

Section Fetch.

Variable py_str : json -> string.
Variable from_unixtime_ms : json -> json.
Variable start_time_ms end_time_ms : Z.
Variable api : nat -> json -> response.

Definition page : M state ctl :=
  fetch_page py_str from_unixtime_ms start_time_ms end_time_ms api.

Definition loop (fuel : nat) : M state bool :=
  fetch_loop py_str from_unixtime_ms start_time_ms end_time_ms api fuel.

Lemma process_page_tail (r : response) :
  page_tail (process_page py_str from_unixtime_ms r).
Proof.
  unfold process_page.
  repeat first
    [ apply page_tail_lift; intros ?
    | apply page_tail_modify; [intros ?; split; [|split]; reflexivity|]
    | apply page_tail_write ].
Qed.

(** The request the loop sends from state [s], and the answer it gets. *)
Definition request_of (s : state) : json :=
  request_parameters start_time_ms end_time_ms (next_page_token s).

Definition response_of (s : state) : response :=
  api (requests_sent s) (request_of s).

Definition announce (s : state) : list event :=
  [Print ("Starting to fetch page " ++ str_nat (pages_fetched s));
   Print ("Request parameters: " ++ py_str (request_of s));
   Call QUERIES_URL (request_of s)].

(** The state once the request has been sent. *)
Definition requested (s : state) : state :=
  set_requests_sent (Datatypes.S (requests_sent s))
                    (set_pages_fetched (pages_fetched s + 1) s).

Lemma fetch_page_run (s : state) :
  page s =
  if (status_code (response_of s) =? 200)%nat
  then (fst (process_page py_str from_unixtime_ms (response_of s) (requested s)),
        announce s
        ++ snd (process_page py_str from_unixtime_ms (response_of s) (requested s)))
  else ((Raise (Exception (text (response_of s))), requested s), announce s).
Proof.
  unfold page, fetch_page, bind, get_state, emit, modify, requests_get, raise.
  cbn -[process_page]. fold (request_of s). fold (response_of s). fold (requested s).
  destruct (status_code (response_of s) =? 200)%nat; cbn -[process_page];
    [|reflexivity].
  destruct (process_page py_str from_unixtime_ms (response_of s) (requested s))
    as [rs t].
  reflexivity.
Qed.

(** What every page does, however it ends: one more page counted, one
    request sent, then at most one write, and only after a 200; the body
    never leaves the loop by [break]. *)
Lemma fetch_page_shape (s : state) :
  exists r s' writes,
    page s = ((r, s'), announce s ++ writes)
    /\ pages_fetched s' = pages_fetched s + 1
    /\ requests_sent s' = Datatypes.S (requests_sent s)
    /\ r <> Ok Break
    /\ ((writes = [] /\ queries_table s' = queries_table s)
        \/ (writes = [Write QUERIES_TABLE]
            /\ status_code (response_of s) = 200)).
Proof.
  rewrite fetch_page_run.
  destruct (Nat.eqb_spec (status_code (response_of s)) 200) as [Hs|Hs].
  - destruct (process_page_tail (response_of s) (requested s))
      as (Hb & Hp & Hr & Hw).
    destruct (process_page _ _ _ _) as [[r s'] writes].
    unfold outcome, final, trace in *. cbn [fst snd] in *.
    exists r, s', writes. split; [reflexivity|].
    split; [rewrite Hp; reflexivity|]. split; [rewrite Hr; reflexivity|].
    split; [exact Hb|].
    destruct Hw as [[-> Ht] | ->]; [left|right]; auto.
  - exists (Raise (Exception (text (response_of s)))), (requested s), [].
    rewrite app_nil_r. split; [reflexivity|].
    split; [cbn; reflexivity|]. split; [reflexivity|]. split; [discriminate|].
    left. split; reflexivity.
Qed.



Lemma loop_raise (fuel : nat) (s s' : state) (t : list event) (e : exn) :
  loop_condition s = true ->
  page s = ((Raise e, s'), t) ->
  loop (Datatypes.S fuel) s = ((Raise e, s'), t).
Proof.
  intros Hc Hp. unfold loop, fetch_loop. cbn [while_loop]. rewrite Hc.
  unfold bind. fold page. rewrite Hp. reflexivity.
Qed.




(** C6.  A page is written only after its response had status 200, the
    write being the last thing the page does.  A response with another
    status raises at once: when the loop has processed [pages] pages and
    the next response is not a 200, the run raises [Exception(response.text)]
    with the table as those pages left it, and with their writes only. *)
Theorem C6_page_written_after_200 :
  (forall s r s' t,
      page s = ((r, s'), t) ->
      In (Write QUERIES_TABLE) t ->
      status_code (response_of s) = 200
      /\ t = announce s ++ [Write QUERIES_TABLE])
  /\ (forall s0 pages more before s,
         loop pages s0 = ((Ok false, s), before) ->
         status_code (response_of s) <> 200 ->
         let run := loop (pages + Datatypes.S more) s0 in
         outcome run = Raise (Exception (text (response_of s)))
         /\ queries_table (final run) = queries_table s
         /\ filter is_write (trace run) = filter is_write before
         /\ trace run = before ++ announce s).
Proof.
  split.
  - intros s r s' t Hp Hin.
    destruct (fetch_page_shape s) as (r0 & s0 & writes & Hshape & _ & _ & _ & Hw).
    rewrite Hshape in Hp. injection Hp as _ _ Ht. subst t.
    destruct Hw as [[Hw _]|[Hw Hs]]; subst writes.
    + cbn in Hin. destruct Hin as [H|[H|[H|[]]]]; discriminate H.
    + split; [exact Hs|reflexivity].
  - intros s0 pages more before s Hcut Hs run. subst run.
    unfold loop, fetch_loop in *.
    rewrite (LoopFacts.while_loop_resume _ _ _ _ _ _ _ _ Hcut).
    pose proof (LoopFacts.while_loop_cut _ _ _ _ _ _ _ Hcut) as Hc.
    change (while_loop (Datatypes.S more) loop_condition
              (fetch_page py_str from_unixtime_ms start_time_ms end_time_ms api) s)
      with (loop (Datatypes.S more) s).
    pose proof (fetch_page_run s) as Hrun.
    apply Nat.eqb_neq in Hs. rewrite Hs in Hrun.
    rewrite (loop_raise _ _ _ _ _ Hc Hrun).
    unfold outcome, final, trace. cbn [fst snd].
    split; [reflexivity|]. split; [reflexivity|]. split; [|reflexivity].
    rewrite filter_app. cbn. rewrite app_nil_r. reflexivity.
Qed.

End Fetch.

Definition show (v : json) : string := "{...}".
Definition seconds (v : json) : json := v.

Definition one_query (id : string) (more : bool) : response :=
  {| status_code := 200;
     text := "";
     json_body :=
       Some (JObj [("next_page_token", JStr "next");
                   ("has_next_page", JBool more);
                   ("res", JArr [JObj [("query_id", JStr id);
                                       ("query_start_time_ms", JNum 1000);
                                       ("query_end_time_ms", JNum 2000);
                                       ("is_final", JBool true)]])]) |}.

Definition unavailable : response :=
  {| status_code := 503; text := "temporarily unavailable"; json_body := None |}.

(** One page, then an error. *)
Definition failing_api (n : nat) (params : json) : response :=
  match n with
  | 0 => one_query "q1" true
  | _ => unavailable
  end.


Lemma C6_page_written_after_200_witness :
  let run := loop show seconds 0 10 failing_api 500 (initial None) in
  outcome run = Raise (Exception "temporarily unavailable")
  /\ option_map (@List.length _) (queries_table (final run)) = Some 1
  /\ filter is_write (trace run) = [Write QUERIES_TABLE].
Proof.
  pose proof (proj2 (C6_page_written_after_200 show seconds 0 10 failing_api)
                    (initial None) 1 498) as H.
  cbn zeta in H.
  specialize (H _ _ eq_refl ltac:(discriminate)).
  destruct H as (Ho & Ht & Hw & _).
  cbn zeta. change 500 with (1 + 499).
  rewrite Ho, Ht, Hw. repeat split.
Defined.


End QueryHistoryFacts.

(** ** Counting the events of a run *)

Module EffectFacts.

Definition count (p : event -> bool) (t : list event) : nat :=
  List.length (filter p t).

Lemma count_app (p : event -> bool) (a b : list event) :
  count p (a ++ b) = count p a + count p b.
Proof. unfold count. rewrite filter_app, length_app. reflexivity. Qed.

(** No run of [m] has more than [n] events satisfying [p]. *)
Definition at_most {S A} (p : event -> bool) (n : nat) (m : M S A) : Prop :=
  forall s, count p (trace (m s)) <= n.

Lemma at_most_ret {S A} (p : event -> bool) (n : nat) (a : A) :
  at_most p n (@ret S A a).
Proof. intros s. cbn. lia. Qed.

Lemma at_most_raise {S A} (p : event -> bool) (n : nat) (e : exn) :
  at_most p n (@raise S A e).
Proof. intros s. cbn. lia. Qed.

Lemma at_most_bind {S A B} (p : event -> bool) (n1 n2 : nat)
      (m : M S A) (k : A -> M S B) :
  at_most p n1 m -> (forall a, at_most p n2 (k a)) ->
  at_most p (n1 + n2) (bind m k).
Proof.
  intros Hm Hk s. specialize (Hm s). unfold bind, trace in *.
  destruct (m s) as [[[a|e] s1] t1]; cbn [snd] in *.
  - specialize (Hk a s1). unfold trace in Hk.
    destruct (k a s1) as [rs t2]. cbn [snd] in *. rewrite count_app. lia.
  - lia.
Qed.

Lemma at_most_lift {S A B} (p : event -> bool) (n : nat)
      (r : result A) (k : A -> M S B) :
  (forall a, at_most p n (k a)) -> at_most p n (bind (lift r) k).
Proof.
  intros Hk. apply (at_most_bind p 0 n); [|exact Hk].
  intros s. destruct r; cbn; lia.
Qed.

Lemma at_most_emit {S B} (p : event -> bool) (n : nat) (e : event) (k : M S B) :
  p e = false -> at_most p n k -> at_most p n (bind (emit e) (fun _ => k)).
Proof.
  intros He Hk. apply (at_most_bind p 0 n); [|intros _; exact Hk].
  intros s. unfold count. cbn. rewrite He. cbn. lia.
Qed.

End EffectFacts.

(** ** structured-data-for-rag.py: [wait_for_index_to_be_ready] *)

Module VectorIndexFacts.
Import VectorIndex EffectFacts.

Section Wait.

Variable py_str : json -> string.
Variable describe : nat -> json.

Lemma get_index_describe_once (endpoint index : string) :
  at_most is_call 1 (get_index_describe describe endpoint index).
Proof. intros s. cbn. lia. Qed.

(** One request per turn of the loop, at most. *)
Lemma wait_loop_calls (vs_endpoint_name index_name : string) (range : list nat) :
  at_most is_call (List.length range)
          (wait_loop py_str describe vs_endpoint_name index_name range).
Proof.
  induction range as [|i range IH]; cbn [wait_loop List.length].
  - apply at_most_ret.
  - apply (at_most_bind is_call 1 (List.length range));
      [apply get_index_describe_once|intros idx].
    repeat (apply at_most_lift; intros ?).
    repeat match goal with
           | |- at_most _ _ (if ?c then _ else _) => destruct c
           end.
    + apply at_most_ret.
    + apply at_most_emit; [reflexivity|apply at_most_ret].
    + apply (at_most_bind is_call 0 (List.length range)).
      * destruct (i mod 40 =? 0)%nat; intros s; cbn; lia.
      * intros _. apply at_most_emit; [reflexivity|exact IH].
    + apply at_most_raise.
Qed.

Lemma wait_for_index_calls (vs_endpoint_name index_name : string) :
  at_most is_call 181
          (wait_for_index_to_be_ready py_str describe vs_endpoint_name index_name).
Proof.
  unfold wait_for_index_to_be_ready.
  apply (at_most_bind is_call 180 1).
  - apply (wait_loop_calls vs_endpoint_name index_name (seq 0 180)).
  - intros [|].
    + apply at_most_ret.
    + apply (at_most_bind is_call 1 0).
      * intros s. cbn. lia.
      * intros _. apply at_most_raise.
Qed.

End Wait.

End VectorIndexFacts.

(** ** uc_tools_image_upload.py: [retriable_execution] *)

Module UcToolsFacts.
Import UcTools EffectFacts.

Definition to_warehouse : event -> bool := Repo.to_service WAREHOUSE.

(** The statements the loop may still send when [num_try] is [k]. *)
Definition budget (max_retries k : nat) : nat :=
  if (k <? max_retries)%nat then max_retries - k
  else if (k =? max_retries)%nat then 1 else 0.

Section Retriable.

Variable sql_generator : string -> string -> string.
Variable sql_rectifier : string -> string -> string -> string.
Variable sql_result_summarizer : string -> string -> string -> string.
Variable get_ddl_statements : string -> string.
Variable warehouse : nat -> string -> result string.
Variable str_of_error : exn -> string.

Definition try_once (max_retries : nat) (ddl_input : string) : M state ctl :=
  attempt sql_rectifier warehouse str_of_error max_retries ddl_input.

(** Every attempt sends one statement; a failed one that goes round again
    has counted one more try, short of [max_retries]. *)
Lemma attempt_shape (max_retries : nat) (ddl_input : string) (s : state) :
  exists r s' t,
    try_once max_retries ddl_input s = ((r, s'), t)
    /\ count to_warehouse t = 1
    /\ (r = Ok Continue ->
        num_try s' = num_try s + 1 /\ num_try s' <> max_retries)
    /\ statements_run s' = Datatypes.S (statements_run s).
Proof.
  unfold try_once, attempt, try_execute_sql_statement, bind, get_state, emit,
    modify, raise, ret.
  cbn. destruct (warehouse (statements_run s) _) as [rows|error]; cbn.
  - do 3 eexists. split; [reflexivity|]. split; [reflexivity|].
    split; [discriminate|reflexivity].
  - destruct (Nat.eqb_spec (num_try s + 1) max_retries) as [E|E]; cbn.
    + do 3 eexists. split; [reflexivity|]. split; [reflexivity|].
      split; [discriminate|reflexivity].
    + do 3 eexists. split; [reflexivity|]. split; [reflexivity|].
      split; [intros _; split; [reflexivity|exact E]|reflexivity].
Qed.

Lemma retry_loop_statements (max_retries : nat) (ddl_input : string) (fuel : nat) :
  forall s,
    count to_warehouse
          (trace (while_loop fuel (retry_condition max_retries)
                             (try_once max_retries ddl_input) s))
    <= budget max_retries (num_try s).
Proof.
  induction fuel as [|fuel IH]; intros s; cbn [while_loop];
    (destruct (retry_condition max_retries s) eqn:Hc; [|cbn; lia]).
  - cbn. lia.
  - unfold retry_condition in Hc. apply Nat.leb_le in Hc.
    destruct (attempt_shape max_retries ddl_input s)
      as (r & s' & t & Hrun & Hone & Hnext & _).
    unfold bind. rewrite Hrun.
    assert (Hpos : 1 <= budget max_retries (num_try s)).
    { unfold budget. destruct (Nat.ltb_spec (num_try s) max_retries); [lia|].
      destruct (Nat.eqb_spec (num_try s) max_retries); lia. }
    destruct r as [[|]|e].
    + destruct (Hnext eq_refl) as (Hn & Hne). specialize (IH s').
      destruct (while_loop fuel _ _ s') as [rs t']. unfold trace in *.
      cbn [snd] in *. rewrite count_app, Hone.
      unfold budget in *. rewrite Hn in IH.
      destruct (Nat.ltb_spec (num_try s) max_retries);
        destruct (Nat.ltb_spec (num_try s + 1) max_retries);
        destruct (Nat.eqb_spec (num_try s) max_retries);
        destruct (Nat.eqb_spec (num_try s + 1) max_retries); lia.
    + unfold trace, ret. cbn [snd]. rewrite app_nil_r, Hone. exact Hpos.
    + unfold trace. cbn [snd]. rewrite Hone. exact Hpos.
Qed.

(** With fuel for [max_retries + 1] turns the loop is not cut. *)
Lemma retry_loop_not_cut (max_retries : nat) (ddl_input : string) (fuel : nat) :
  forall s,
    max_retries < num_try s + fuel ->
    outcome (while_loop fuel (retry_condition max_retries)
                        (try_once max_retries ddl_input) s) <> Ok false.
Proof.
  induction fuel as [|fuel IH]; intros s Hfuel; cbn [while_loop];
    (destruct (retry_condition max_retries s) eqn:Hc; [|cbn; discriminate]).
  - unfold retry_condition in Hc. apply Nat.leb_le in Hc. lia.
  - destruct (attempt_shape max_retries ddl_input s)
      as (r & s' & t & Hrun & _ & Hnext & _).
    unfold bind. rewrite Hrun. destruct r as [[|]|e].
    + destruct (Hnext eq_refl) as (Hn & _). specialize (IH s' ltac:(lia)).
      destruct (while_loop fuel _ _ s') as [[r' s''] t']. exact IH.
    + cbn. discriminate.
    + cbn. discriminate.
Qed.

Lemma count_bind {S A B} (p : event -> bool) (n1 n2 : nat)
      (m : M S A) (k : A -> M S B) (s : S) :
  count p (trace (m s)) <= n1 -> (forall a, at_most p n2 (k a)) ->
  count p (trace (bind m k s)) <= n1 + n2.
Proof.
  intros Hm Hk. unfold bind, trace in *.
  destruct (m s) as [[[a|e] s1] t1]; cbn [snd] in *.
  - specialize (Hk a s1). unfold trace in Hk.
    destruct (k a s1) as [rs t2]. cbn [snd] in *. rewrite count_app. lia.
  - lia.
Qed.

(** What follows the loop sends nothing to the warehouse. *)
Lemma summary_statements (question : string) (finished : bool) :
  at_most to_warehouse 0
    (if negb finished then ret None
     else
       bind get_state (fun s =>
         match results_string s with
         | None => raise (NameError "results_string")
         | Some rows =>
             bind (emit (Call LLM (JStr (sql_statement s)))) (fun _ =>
               ret (Some (sql_result_summarizer question (sql_statement s) rows)))
         end)).
Proof.
  destruct finished; cbn [negb]; [|apply at_most_ret].
  intros s. unfold bind, get_state. cbn.
  destruct (results_string s); cbn; lia.
Qed.

(** [retriable_execution] sends at most [max_retries] statements to the
    warehouse (one when [max_retries] is 0). *)
Lemma retriable_execution_statements
      (fuel : nat) (question : string) (max_retries : nat)
      (uc_catalog_schema : string) :
  at_most to_warehouse (Nat.max 1 max_retries)
          (retriable_execution sql_generator sql_rectifier
             sql_result_summarizer get_ddl_statements warehouse str_of_error
             fuel question max_retries uc_catalog_schema).
Proof.
  unfold retriable_execution.
  apply at_most_emit; [reflexivity|].
  apply at_most_emit; [reflexivity|].
  intros s. unfold bind at 1. unfold modify at 1.
  match goal with
  | |- context [bind ?m ?k ?s0] =>
      pose proof (count_bind to_warehouse (budget max_retries 0) 0 m k s0) as H;
      destruct (bind m k s0) as [rs t]
  end.
  unfold trace in *. cbn [snd app] in *.
  assert (Hb : budget max_retries 0 <= Nat.max 1 max_retries).
  { unfold budget. destruct (Nat.ltb_spec 0 max_retries); [lia|].
    destruct (Nat.eqb_spec 0 max_retries); lia. }
  etransitivity; [apply H|lia].
  - apply (retry_loop_statements max_retries
             (get_ddl_statements uc_catalog_schema) fuel).
  - intros finished. apply summary_statements.
Qed.

(** The fuel given in [Repo.run] is enough: the loop is never cut, so
    [None] is never returned. *)
Lemma retriable_execution_not_cut
      (question : string) (max_retries : nat) (uc_catalog_schema : string)
      (s : state) :
  outcome (retriable_execution sql_generator sql_rectifier
             sql_result_summarizer get_ddl_statements warehouse str_of_error
             (Datatypes.S max_retries) question max_retries uc_catalog_schema s)
  <> Ok None.
Proof.
  unfold retriable_execution.
  unfold bind at 1. cbn [emit]. unfold bind at 1. cbn [emit].
  unfold bind at 1. unfold modify at 1. unfold bind at 1.
  fold (try_once max_retries (get_ddl_statements uc_catalog_schema)).
  match goal with
  | |- context [while_loop _ ?c ?b ?s0] =>
      pose proof (retry_loop_not_cut max_retries
                    (get_ddl_statements uc_catalog_schema)
                    (Datatypes.S max_retries) s0 ltac:(cbn; lia)) as Hcut;
      destruct (while_loop (Datatypes.S max_retries) c b s0)
        as [[[finished|e] s1] t1]
  end; unfold outcome in *; cbn [fst] in *; [|discriminate].
  destruct finished; [|congruence]. cbn [negb].
  unfold bind, get_state. destruct (results_string s1); cbn; discriminate.
Qed.

End Retriable.

End UcToolsFacts.

(** ** The notebook functions side by side *)

Module RepoFacts.
Import Repo.

(** Services that answer at once and in the expected shape. *)
Definition ready : services :=
  {| system_prompt_format := fun instruction => instruction;
     serving_endpoint := fun _ _ => PiiBotFacts.served ["{}"];
     vector_search :=
       fun _ => JObj [("status", JObj [("detailed_state", JStr "ONLINE")])];
     sql_warehouse := fun _ _ => Ok "rows";
     generator := fun _ _ => "SELECT 1";
     rectifier := fun _ _ _ => "SELECT 1";
     summarizer := fun _ _ _ => "one row";
     ddl_statements := fun _ => "CREATE TABLE t (x INT)" |}.

(** An index that is still being provisioned when first asked. *)
Definition provisioning : services :=
  {| system_prompt_format := system_prompt_format ready;
     serving_endpoint := serving_endpoint ready;
     vector_search :=
       fun n =>
         match n with
         | 0 => JObj [("status", JObj [("detailed_state", JStr "PROVISIONING")])]
         | _ => JObj [("status", JObj [("detailed_state", JStr "ONLINE")])]
         end;
     sql_warehouse := sql_warehouse ready;
     generator := generator ready;
     rectifier := rectifier ready;
     summarizer := summarizer ready;
     ddl_statements := ddl_statements ready |}.

(** A warehouse that rejects the first statement it is sent. *)
Definition rejecting : services :=
  {| system_prompt_format := system_prompt_format ready;
     serving_endpoint := serving_endpoint ready;
     vector_search := vector_search ready;
     sql_warehouse :=
       fun n _ =>
         match n with
         | 0 => Raise (Exception "TABLE_OR_VIEW_NOT_FOUND")
         | _ => Ok "rows"
         end;
     generator := generator ready;
     rectifier := rectifier ready;
     summarizer := summarizer ready;
     ddl_statements := ddl_statements ready |}.

Definition show (v : json) : string := "{...}".
Definition show_error (e : exn) : string := "error".

Section Functions.

Variable py_str : json -> string.
Variable str_of_error : exn -> string.
Variable invocations_url : string.

Let run := Repo.run py_str str_of_error invocations_url.

(** C1, as amended.  [pii_bot] sends exactly one request per invocation,
    whatever the answer: its retry loop is commented out.  The repository
    does hold live loops that repeat a request: [wait_for_index_to_be_ready]
    asks for the index status up to 180 times (and once more for its
    timeout message), and [retriable_execution] sends a rectified statement
    after a failed one, [max_retries] statements at most. *)
Theorem C1_requests_per_invocation (w : services) :
  (forall prompts,
      filter is_call (snd (run pii_bot w prompts))
      = [Call invocations_url
              (PiiEtl.inference_data (map (system_prompt_format w) prompts))])
  /\ sends_each_request_once py_str str_of_error invocations_url pii_bot
  /\ (forall vs_endpoint_name index_name,
         calls (snd (run wait_for_index_to_be_ready w (vs_endpoint_name, index_name)))
         <= 181)
  /\ (forall question max_retries uc_catalog_schema,
         calls_to UcTools.WAREHOUSE
                  (snd (run retriable_execution w
                            (question, max_retries, uc_catalog_schema)))
         <= Nat.max 1 max_retries).
Proof.
  assert (Hbot : forall w' prompts,
             filter is_call (snd (run pii_bot w' prompts))
             = [Call invocations_url
                     (PiiEtl.inference_data (map (system_prompt_format w') prompts))]).
  { intros w' prompts. unfold run, Repo.run.
    rewrite PiiBotFacts.pii_bot_run. reflexivity. }
  split; [apply Hbot|]. split.
  - intros w' prompts. fold run. rewrite Hbot.
    constructor; [intros []|constructor].
  - split.
    + intros vs_endpoint_name index_name. unfold run, Repo.run. cbn [snd].
      apply (VectorIndexFacts.wait_for_index_calls py_str (vector_search w)).
    + intros question max_retries uc_catalog_schema. unfold run, Repo.run.
      cbn [snd].
      apply (UcToolsFacts.retriable_execution_statements
               (generator w) (rectifier w) (summarizer w) (ddl_statements w)
               (sql_warehouse w) str_of_error).
Qed.

End Functions.

(** C1 as written fails on [wait_for_index_to_be_ready], which sends the
    same status request again after a sleep of 10 seconds while the index
    is provisioning, and on [retriable_execution], which sends a second
    statement once the first has failed. *)
Lemma C1_counterexample :
  snd (run show show_error "invocations" wait_for_index_to_be_ready provisioning
           ("endpoint", "index"))
  = [Call VectorIndex.DESCRIBE (JArr [JStr "endpoint"; JStr "index"]);
     Print "Waiting for index to be ready, this can take a few min... {...} - pipeline url:{...}";
     Sleep 10;
     Call VectorIndex.DESCRIBE (JArr [JStr "endpoint"; JStr "index"])]
  /\ ~ sends_each_request_once show show_error "invocations"
                               wait_for_index_to_be_ready
  /\ calls_to UcTools.WAREHOUSE
              (snd (run show show_error "invocations" retriable_execution rejecting
                        ("question", 3, "schema"))) = 2.
Proof.
  split; [reflexivity|]. split; [|reflexivity].
  intros H. specialize (H provisioning ("endpoint", "index")).
  vm_compute in H. inversion H as [|x l Hnotin Hrest]. apply Hnotin. left. reflexivity.
Qed.

End RepoFacts.

(* ===================================================================== *)
(** * Part III: further properties of the modelled code *)
(* ===================================================================== *)

(** ** Lists of results, dicts *)

Module PyMore.

Lemma mapM_ok {A B} (f : A -> result B) (g : A -> B) (xs : list A) :
  (forall x, In x xs -> f x = Ok (g x)) -> mapM f xs = Ok (map g xs).
Proof.
  induction xs as [|x xs IH]; intros H; [reflexivity|].
  cbn. rewrite (H x (or_introl eq_refl)), IH; [reflexivity|].
  intros y Hy. apply H. right. exact Hy.
Qed.

Lemma mapM_Forall2 {A B} (f : A -> result B) (xs : list A) :
  forall ys, mapM f xs = Ok ys -> Forall2 (fun x y => f x = Ok y) xs ys.
Proof.
  induction xs as [|x xs IH]; intros ys; cbn.
  - intros [= <-]. constructor.
  - destruct (f x) as [y|e] eqn:E; [|discriminate].
    destruct (mapM f xs) as [ys'|e]; [|discriminate].
    intros [= <-]. constructor; [exact E|apply IH; reflexivity].
Qed.

(** The first element that fails decides the error. *)
Lemma mapM_raise {A B} (f : A -> result B) (P : exn -> Prop) (xs : list A) :
  (forall x e, In x xs -> f x = Raise e -> P e) ->
  (exists x, In x xs /\ is_ok (f x) = false) ->
  exists e, mapM f xs = Raise e /\ P e.
Proof.
  induction xs as [|x xs IH]; intros HP (y & Hy & Hfail); [destruct Hy|].
  cbn. destruct (f x) as [b|e] eqn:E.
  - destruct IH as (e & -> & He).
    + intros z e Hz. apply HP. right. exact Hz.
    + destruct Hy as [<-|Hy]; [rewrite E in Hfail; discriminate|eauto].
    + eauto.
  - exists e. split; [reflexivity|]. eapply HP; [left; reflexivity|exact E].
Qed.

Lemma assoc_in (k : string) (kvs : list (string * json)) :
  In k (map fst kvs) <-> exists v, assoc k kvs = Some v.
Proof.
  induction kvs as [|[k' v'] kvs IH]; cbn.
  - split; [intros []|intros (v & H); discriminate].
  - destruct (String.eqb_spec k k') as [->|Hne].
    + split; eauto.
    + rewrite <- IH. split; [intros [H|H]; [congruence|exact H]|auto].
Qed.

(** [d[k] = v] then [d[k]]. *)
Lemma assoc_set_same (k : string) (v : json) (kvs : list (string * json)) :
  assoc k (assoc_set k v kvs) = Some v.
Proof.
  induction kvs as [|[k' v'] kvs IH]; cbn.
  - rewrite String.eqb_refl. reflexivity.
  - destruct (String.eqb_spec k k') as [->|Hne]; cbn.
    + rewrite String.eqb_refl. reflexivity.
    + destruct (String.eqb_spec k k'); [congruence|exact IH].
Qed.

(** [d[k] = v] leaves the other keys alone. *)
Lemma assoc_set_other (k k' : string) (v : json) (kvs : list (string * json)) :
  k' <> k -> assoc k' (assoc_set k v kvs) = assoc k' kvs.
Proof.
  intros Hne. induction kvs as [|[k0 v0] kvs IH]; cbn.
  - destruct (String.eqb_spec k' k); [congruence|reflexivity].
  - destruct (String.eqb_spec k k0) as [->|Hk]; cbn.
    + destruct (String.eqb_spec k' k0); [congruence|reflexivity].
    + destruct (String.eqb_spec k' k0); [reflexivity|exact IH].
Qed.

Lemma assoc_set_keys (k : string) (v : json) (kvs : list (string * json)) :
  In k (map fst kvs) -> map fst (assoc_set k v kvs) = map fst kvs.
Proof.
  induction kvs as [|[k0 v0] kvs IH]; cbn; [intros []|].
  destruct (String.eqb_spec k k0) as [->|Hk]; cbn; [reflexivity|].
  intros [H|H]; [congruence|]. rewrite IH; [reflexivity|exact H].
Qed.

Lemma set_of_in (keys : list string) (k : string) :
  In k (QueryHistory.set_of keys) <-> In k keys.
Proof.
  induction keys as [|k0 keys IH]; cbn; [reflexivity|].
  rewrite filter_In, IH. destruct (String.eqb_spec k0 k) as [->|Hne]; cbn.
  - split; auto.
  - split; [intros [H|[H _]]; auto|intros [H|H]; auto].
Qed.

Lemma set_of_nodup (keys : list string) : NoDup (QueryHistory.set_of keys).
Proof.
  induction keys as [|k0 keys IH]; cbn; constructor.
  - rewrite filter_In. intros [_ H]. rewrite String.eqb_refl in H. discriminate.
  - apply NoDup_filter. exact IH.
Qed.

(** Python's [str] on the two booleans; the other values do not matter
    here. *)
Definition py_str_bool (v : json) : string :=
  match v with
  | JBool true => "True"
  | JBool false => "False"
  | _ => "{...}"
  end.

Lemma bind_lift_ok {S A B} (a : A) (k : A -> M S B) (s : S) :
  bind (lift (Ok a)) k s = k a s.
Proof. unfold bind, lift. destruct (k a s) as [rs t]. reflexivity. Qed.

Lemma bind_lift_raise {S A B} (e : exn) (k : A -> M S B) (s : S) :
  bind (lift (Raise e)) k s = ((Raise e, s), []).
Proof. reflexivity. Qed.

End PyMore.

(** ** query_history_api_to_delta.py: records, pages *)

Module QueryHistoryMore.
Import QueryHistory QueryHistoryFacts PyMore.

(** The keys of a dict whose value is a [bool]. *)
Definition boolean_keys (kvs : list (string * json)) : list string :=
  filter (fun k => match assoc k kvs with
                   | Some (JBool _) => true
                   | _ => false
                   end) (map fst kvs).

Lemma boolean_keys_of_dict (kvs : list (string * json)) :
  boolean_keys_of (JObj kvs) = Ok (boolean_keys kvs).
Proof.
  unfold boolean_keys_of, boolean_keys. cbn [dict_keys rbind].
  rewrite (mapM_ok _ (fun k => (k, match assoc k kvs with
                                   | Some (JBool _) => true
                                   | _ => false
                                   end))).
  - cbn [rbind]. f_equal.
    induction (map fst kvs) as [|k ks IH]; [reflexivity|].
    cbn. destruct (assoc k kvs) as [[]|]; cbn; rewrite IH; reflexivity.
  - intros k Hk. apply assoc_in in Hk. destruct Hk as (v & Hv).
    cbn. rewrite Hv. cbn. destruct v; reflexivity.
Qed.

Lemma boolean_keys_of_other (array : json) :
  (forall kvs, array <> JObj kvs) -> boolean_keys_of array = Raise AttributeError.
Proof. intros H. destruct array; try reflexivity. contradiction (H kvs eq_refl). Qed.

Lemma boolean_keys_in (kvs : list (string * json)) (k : string) :
  In k (boolean_keys kvs) <-> exists b, assoc k kvs = Some (JBool b).
Proof.
  unfold boolean_keys. rewrite filter_In, assoc_in. split.
  - intros [_ H]. destruct (assoc k kvs) as [[]|]; try discriminate. eauto.
  - intros (b & ->). eauto.
Qed.

Lemma get_boolean_keys_dicts (records : list (list (string * json))) :
  get_boolean_keys (JArr (map JObj records))
  = Ok (List.concat (map boolean_keys records)).
Proof.
  unfold get_boolean_keys. cbn [iter rbind].
  rewrite (mapM_ok _ (fun a => match a with
                               | JObj kvs => boolean_keys kvs
                               | _ => []
                               end)).
  - cbn [rbind]. rewrite map_map. reflexivity.
  - intros a Ha. apply in_map_iff in Ha. destruct Ha as (kvs & <- & _).
    apply boolean_keys_of_dict.
Qed.

Lemma boolean_keys_concat_in (records : list (list (string * json))) (k : string) :
  In k (List.concat (map boolean_keys records))
  <-> exists kvs b, In kvs records /\ assoc k kvs = Some (JBool b).
Proof.
  rewrite in_concat. split.
  - intros (ks & Hks & Hk). apply in_map_iff in Hks.
    destruct Hks as (kvs & <- & Hin). apply boolean_keys_in in Hk.
    destruct Hk as (b & Hb). eauto.
  - intros (kvs & b & Hin & Hb). exists (boolean_keys kvs).
    split; [apply in_map; exact Hin|]. apply boolean_keys_in. eauto.
Qed.

(** X1.  On a list of dicts [get_boolean_keys] returns the keys that hold
    a [bool] in some record, and no other; a record that is not a dict
    makes it raise [AttributeError]. *)
Theorem get_boolean_keys_spec :
  (forall records : list (list (string * json)),
      exists keys,
        get_boolean_keys (JArr (map JObj records)) = Ok keys
        /\ forall k, In k keys
                     <-> exists kvs b, In kvs records /\ assoc k kvs = Some (JBool b))
  /\ (forall arrays array,
         In array arrays -> (forall kvs, array <> JObj kvs) ->
         get_boolean_keys (JArr arrays) = Raise AttributeError).
Proof.
  split.
  - intros records. exists (List.concat (map boolean_keys records)).
    split; [apply get_boolean_keys_dicts|apply boolean_keys_concat_in].
  - intros arrays array Hin Hnot. unfold get_boolean_keys. cbn [iter rbind].
    destruct (mapM_raise boolean_keys_of (fun e => e = AttributeError) arrays)
      as (e & -> & ->); [| |reflexivity].
    + intros a e _ Ha.
      destruct a as [| | | | |kvs];
        [..|rewrite boolean_keys_of_dict in Ha; discriminate];
        cbn in Ha; injection Ha as <-; reflexivity.
    + exists array. split; [exact Hin|].
      rewrite (boolean_keys_of_other _ Hnot). reflexivity.
Qed.

Lemma get_boolean_keys_spec_witness :
  get_boolean_keys (JArr [JObj [("is_final", JBool true)]; JStr "q2"])
  = Raise AttributeError.
Proof.
  apply (proj2 get_boolean_keys_spec
           [JObj [("is_final", JBool true)]; JStr "q2"] (JStr "q2")).
  - right. left. reflexivity.
  - discriminate.
Defined.

Section Convert.

Variable py_str : json -> string.

(** The value the loop stores in place of [v]. *)
Definition lowered (v : json) : json := JStr (str_lower (py_str v)).

(** What converting the keys [keys] makes of the dict [kvs]. *)
Lemma convert_booleans_dict (keys : list string) :
  forall kvs,
    NoDup keys ->
    (forall k, In k keys -> In k (map fst kvs)) ->
    exists kvs',
      convert_booleans py_str keys (JObj kvs) = Ok (JObj kvs')
      /\ map fst kvs' = map fst kvs
      /\ (forall k v, In k keys -> assoc k kvs = Some v ->
                      assoc k kvs' = Some (lowered v))
      /\ (forall k, ~ In k keys -> assoc k kvs' = assoc k kvs).
Proof.
  induction keys as [|key keys IH]; intros kvs Hnd Hall.
  - exists kvs. cbn. repeat split; auto. intros k v [].
  - inversion Hnd as [|? ? Hnotin Hnd']; subst.
    assert (Hkey : In key (map fst kvs)) by (apply Hall; left; reflexivity).
    destruct (proj1 (assoc_in key kvs) Hkey) as (v0 & Hv0).
    destruct (IH (assoc_set key (lowered v0) kvs) Hnd') as (kvs' & Hrun & Hk & Hin & Hout).
    { intros k Hk. rewrite assoc_set_keys by exact Hkey. apply Hall. right. exact Hk. }
    exists kvs'. cbn [convert_booleans getitem]. rewrite Hv0. cbn [rbind].
    split; [exact Hrun|]. split; [rewrite Hk; apply assoc_set_keys; exact Hkey|].
    split.
    + intros k v [<-|Hk'] Hv.
      * rewrite Hout by exact Hnotin. rewrite assoc_set_same. congruence.
      * apply Hin; [exact Hk'|]. rewrite assoc_set_other; [exact Hv|].
        intros ->. contradiction.
    + intros k Hk'. rewrite Hout by (intros H; apply Hk'; right; exact H).
      apply assoc_set_other. intros ->. apply Hk'. left. reflexivity.
Qed.

(** A key that the dict does not have stops the conversion. *)
Lemma convert_booleans_missing (keys : list string) :
  forall kvs k,
    In k keys -> assoc k kvs = None ->
    exists k', convert_booleans py_str keys (JObj kvs) = Raise (KeyError k').
Proof.
  induction keys as [|key keys IH]; intros kvs k Hin Hnone; [destruct Hin|].
  cbn [convert_booleans getitem].
  destruct (assoc key kvs) as [v0|] eqn:Hv0; cbn [rbind]; [|eauto].
  destruct Hin as [->|Hin]; [congruence|].
  apply (IH _ k Hin). rewrite assoc_set_other; [exact Hnone|].
  intros ->. congruence.
Qed.

Lemma convert_booleans_errors (keys : list string) :
  forall kvs e,
    convert_booleans py_str keys (JObj kvs) = Raise e -> exists k, e = KeyError k.
Proof.
  induction keys as [|key keys IH]; intros kvs e; cbn [convert_booleans getitem].
  - discriminate.
  - destruct (assoc key kvs) as [v0|]; cbn [rbind].
    + apply IH.
    + intros [= <-]. eauto.
Qed.

Lemma converted_records (keys : list string) :
  py_str (JBool true) = "True" -> py_str (JBool false) = "False" ->
  forall (records : list (list (string * json))) (converted : list json),
    (forall kvs k b, In kvs records -> assoc k kvs = Some (JBool b) -> In k keys) ->
    mapM (convert_booleans py_str (set_of keys)) (map JObj records) = Ok converted ->
    Forall2 (fun kvs record =>
               exists kvs',
                 record = JObj kvs'
                 /\ map fst kvs' = map fst kvs
                 /\ (forall k v, assoc k kvs' = Some v -> is_bool v = false)
                 /\ (forall k b, assoc k kvs = Some (JBool b) ->
                                 assoc k kvs' = Some (JStr (if b then "true" else "false")))
                 /\ (forall k, ~ In k keys -> assoc k kvs' = assoc k kvs))
            records converted.
Proof.
  intros Htrue Hfalse.
  induction records as [|kvs records IH]; intros converted Hb Hconv; cbn in Hconv.
  - injection Hconv as <-. constructor.
  - destruct (convert_booleans py_str (set_of keys) (JObj kvs)) as [record|e] eqn:Hone;
      [|discriminate].
    destruct (mapM _ (map JObj records)) as [rest|e] eqn:Hrest; [|discriminate].
    injection Hconv as <-. constructor.
    + assert (Hhas : forall k, In k (set_of keys) -> In k (map fst kvs)).
      { intros k Hk. destruct (assoc k kvs) as [v|] eqn:Hv;
          [apply assoc_in; eauto|].
        destruct (convert_booleans_missing (set_of keys) kvs k Hk Hv) as (k' & Hr).
        rewrite Hr in Hone. discriminate. }
      destruct (convert_booleans_dict (set_of keys) kvs (set_of_nodup keys) Hhas)
        as (kvs' & Hrun & Hk & Hin & Hout).
      rewrite Hrun in Hone. injection Hone as <-.
      exists kvs'. split; [reflexivity|]. split; [exact Hk|].
      assert (Hb' : forall k b, assoc k kvs = Some (JBool b) -> In k (set_of keys)).
      { intros k b Hkb. apply set_of_in. apply (Hb kvs k b); [left; reflexivity|exact Hkb]. }
      split; [|split].
      * intros k v Hv.
        destruct (in_dec string_dec k (set_of keys)) as [Hyes|Hno].
        -- destruct (proj1 (assoc_in k kvs) (Hhas k Hyes)) as (v0 & Hv0).
           rewrite (Hin k v0 Hyes Hv0) in Hv. injection Hv as <-. reflexivity.
        -- rewrite (Hout k Hno) in Hv. destruct v; try reflexivity.
           contradiction Hno. eapply Hb'. exact Hv.
      * intros k b Hkb. rewrite (Hin k _ (Hb' k b Hkb) Hkb). unfold lowered.
        destruct b; [rewrite Htrue|rewrite Hfalse]; reflexivity.
      * intros k Hk'. apply Hout. rewrite set_of_in. exact Hk'.
    + apply IH; [|reflexivity].
      intros kvs0 k b Hin0. apply Hb. right. exact Hin0.
Qed.

(** X2.  When the keys found by [get_boolean_keys] are converted in every
    record of the page, no record is left with a [bool]: a [True] or
    [False] has become "true" or "false", the keys that hold no [bool] in
    any record keep their values, and the keys of a record and their order
    do not change. *)
Theorem converted_records_hold_no_bool
        (records : list (list (string * json))) (keys : list string)
        (converted : list json) :
  py_str (JBool true) = "True" -> py_str (JBool false) = "False" ->
  get_boolean_keys (JArr (map JObj records)) = Ok keys ->
  mapM (convert_booleans py_str (set_of keys)) (map JObj records) = Ok converted ->
  Forall2 (fun kvs record =>
             exists kvs',
               record = JObj kvs'
               /\ map fst kvs' = map fst kvs
               /\ (forall k v, assoc k kvs' = Some v -> is_bool v = false)
               /\ (forall k b, assoc k kvs = Some (JBool b) ->
                               assoc k kvs' = Some (JStr (if b then "true" else "false")))
               /\ (forall k, ~ In k keys -> assoc k kvs' = assoc k kvs))
          records converted.
Proof.
  intros Htrue Hfalse Hkeys Hconv.
  rewrite get_boolean_keys_dicts in Hkeys. injection Hkeys as <-.
  apply (converted_records _ Htrue Hfalse records converted); [|exact Hconv].
  intros kvs k b Hin Hkb. apply boolean_keys_concat_in. eauto.
Qed.

End Convert.

Lemma converted_records_hold_no_bool_witness :
  Forall2 (fun kvs record =>
             exists kvs',
               record = JObj kvs'
               /\ map fst kvs' = map fst kvs
               /\ (forall k v, assoc k kvs' = Some v -> is_bool v = false)
               /\ (forall k b, assoc k kvs = Some (JBool b) ->
                               assoc k kvs' = Some (JStr (if b then "true" else "false")))
               /\ (forall k, ~ In k ["is_final"; "is_final"] ->
                              assoc k kvs' = assoc k kvs))
          [[("query_id", JStr "q1"); ("is_final", JBool true)];
           [("query_id", JStr "q2"); ("is_final", JBool false)]]
          [JObj [("query_id", JStr "q1"); ("is_final", JStr "true")];
           JObj [("query_id", JStr "q2"); ("is_final", JStr "false")]].
Proof.
  apply (converted_records_hold_no_bool py_str_bool
           [[("query_id", JStr "q1"); ("is_final", JBool true)];
            [("query_id", JStr "q2"); ("is_final", JBool false)]]
           ["is_final"; "is_final"]); reflexivity.
Defined.

Lemma bind_modify {B} (f : state -> state) (k : unit -> M state B) (s : state) :
  bind (modify f) k s = k tt (f s).
Proof. unfold bind, modify. destruct (k tt (f s)) as [rs t]. reflexivity. Qed.

Section Pages.

Variable py_str : json -> string.
Variable from_unixtime_ms : json -> json.
Variable start_time_ms end_time_ms : Z.
Variable api : nat -> json -> response.

Abbreviation page := (page py_str from_unixtime_ms start_time_ms end_time_ms api).
Abbreviation response_of := (response_of start_time_ms end_time_ms api).
Abbreviation announce := (announce py_str start_time_ms end_time_ms).

(** A page that raises before the table is looked at. *)
Definition fails_unwritten (s : state) (e : exn) : Prop :=
  outcome (page s) = Raise e
  /\ trace (page s) = announce s
  /\ queries_table (final (page s)) = queries_table s.

Lemma fails_unwritten_intro (s s' : state) (e : exn) :
  status_code (response_of s) = 200 ->
  process_page py_str from_unixtime_ms (response_of s) (requested s)
  = ((Raise e, s'), []) ->
  queries_table s' = queries_table s ->
  fails_unwritten s e.
Proof.
  intros Hs Hp Ht. unfold fails_unwritten. rewrite fetch_page_run, Hs, Hp.
  unfold outcome, trace, final. cbn [Nat.eqb fst snd]. rewrite app_nil_r. auto.
Qed.

(** X3.  The loop reads [next_page_token], [has_next_page] and [res] from
    every 200 answer, in this order: an answer that lacks one of them
    raises [KeyError] for the first one missing, after the request and
    before anything is written. *)
Theorem page_needs_its_three_keys
        (s : state) (body : list (string * json)) (key : string) :
  status_code (response_of s) = 200 ->
  json_body (response_of s) = Some (JObj body) ->
  find (fun k => negb (str_in k (map fst body)))
       ["next_page_token"; "has_next_page"; "res"] = Some key ->
  fails_unwritten s (KeyError key).
Proof.
  intros Hs Hbody Hkey.
  assert (Hget : forall k, getitem (JObj body) k
                           = if str_in k (map fst body)
                             then getitem (JObj body) k else Raise (KeyError k)).
  { intros k. destruct (str_in k (map fst body)) eqn:E; [reflexivity|].
    cbn. destruct (assoc k body) as [v|] eqn:Hv; [|reflexivity].
    assert (In k (map fst body)) as Hin by (apply assoc_in; eauto).
    unfold str_in in E. 
    assert (existsb (String.eqb k) (map fst body) = true) as Hex.
    { apply existsb_exists. exists k. split; [exact Hin|apply String.eqb_refl]. }
    congruence. }
  assert (Hok : forall k, str_in k (map fst body) = true ->
                          exists v, getitem (JObj body) k = Ok v).
  { intros k E. unfold str_in in E. apply existsb_exists in E.
    destruct E as (k' & Hin & Heq). apply String.eqb_eq in Heq. subst k'.
    apply assoc_in in Hin. destruct Hin as (v & Hv). exists v. cbn. rewrite Hv.
    reflexivity. }
  cbn [find] in Hkey.
  destruct (str_in "next_page_token" (map fst body)) eqn:E1; cbn [negb] in Hkey.
  - destruct (Hok _ E1) as (token & Htoken).
    destruct (str_in "has_next_page" (map fst body)) eqn:E2; cbn [negb] in Hkey.
    + destruct (Hok _ E2) as (more & Hmore).
      destruct (str_in "res" (map fst body)) eqn:E3; cbn [negb] in Hkey;
        [discriminate|]. injection Hkey as <-.
      eapply fails_unwritten_intro; [exact Hs| |].
      * unfold process_page, response_json. rewrite Hbody.
        rewrite bind_lift_ok, Htoken, bind_lift_ok, bind_modify.
        rewrite Hmore, bind_lift_ok, bind_modify.
        rewrite (Hget "res"), E3, bind_lift_raise. reflexivity.
      * reflexivity.
    + injection Hkey as <-.
      eapply fails_unwritten_intro; [exact Hs| |].
      * unfold process_page, response_json. rewrite Hbody.
        rewrite bind_lift_ok, Htoken, bind_lift_ok, bind_modify.
        rewrite (Hget "has_next_page"), E2, bind_lift_raise. reflexivity.
      * reflexivity.
  - injection Hkey as <-.
    eapply fails_unwritten_intro; [exact Hs| |].
    + unfold process_page, response_json. rewrite Hbody.
      rewrite bind_lift_ok, (Hget "next_page_token"), E1, bind_lift_raise.
      reflexivity.
    + reflexivity.
Qed.

(** The page up to the conversion of the booleans. *)
Lemma process_page_records
      (r : response) (s : state) (token more : json)
      (records : list (list (string * json))) :
  json_body r = Some (JObj [("next_page_token", token);
                            ("has_next_page", more);
                            ("res", JArr (map JObj records))]) ->
  process_page py_str from_unixtime_ms r s
  = bind (lift (mapM (convert_booleans py_str
                        (set_of (List.concat (map boolean_keys records))))
                     (map JObj records)))
         (fun converted =>
            let query_results := read_json converted in
            with_start <- lift (with_column_from "query_start_time" "query_start_time_ms"
                                  from_unixtime_ms query_results) ;;
            with_end <- lift (if str_in "query_end_time_ms" (columns query_results)
                              then with_column_from "query_end_time" "query_end_time_ms"
                                     from_unixtime_ms with_start
                              else Raise AttributeError) ;;
            let query_results_clean :=
              if negb (str_in "error_message" (columns with_end))
              then with_column_lit "error_message" (JStr "") with_end
              else with_end in
            write_page query_results_clean ;;;
            ret Continue)
         (set_has_next_page more (set_next_page_token token s)).
Proof.
  intros Hbody. unfold process_page, response_json. rewrite Hbody.
  rewrite bind_lift_ok.
  change (getitem _ "next_page_token") with (Ok (A:=json) token).
  rewrite bind_lift_ok, bind_modify.
  change (getitem _ "has_next_page") with (Ok (A:=json) more).
  rewrite bind_lift_ok, bind_modify.
  change (getitem _ "res") with (Ok (A:=json) (JArr (map JObj records))).
  rewrite bind_lift_ok, get_boolean_keys_dicts, bind_lift_ok.
  cbn [iter]. rewrite bind_lift_ok. reflexivity.
Qed.

(** X4.  The keys to convert are collected over the whole page and then
    read in every record: when a key holds a [bool] in one record and is
    absent from another, the page raises [KeyError] and nothing is
    written. *)
Theorem page_with_uneven_boolean_key
        (s : state) (token more : json) (records : list (list (string * json)))
        (has lacks : list (string * json)) (key : string) (b : bool) :
  status_code (response_of s) = 200 ->
  json_body (response_of s)
  = Some (JObj [("next_page_token", token);
                ("has_next_page", more);
                ("res", JArr (map JObj records))]) ->
  In has records -> assoc key has = Some (JBool b) ->
  In lacks records -> assoc key lacks = None ->
  exists missing, fails_unwritten s (KeyError missing).
Proof.
  intros Hs Hbody Hhas Hb Hlacks Hnone.
  set (keys := set_of (List.concat (map boolean_keys records))).
  destruct (mapM_raise (convert_booleans py_str keys)
                       (fun e => exists k, e = KeyError k) (map JObj records))
    as (e & Hrun & missing & ->).
  - intros x e Hx He. apply in_map_iff in Hx. destruct Hx as (kvs & <- & _).
    eapply convert_booleans_errors. exact He.
  - exists (JObj lacks). split; [apply in_map; exact Hlacks|].
    destruct (convert_booleans_missing py_str keys lacks key) as (k' & ->);
      [|exact Hnone|reflexivity].
    apply set_of_in, boolean_keys_concat_in. eauto.
  - exists missing. eapply fails_unwritten_intro; [exact Hs| |].
    + rewrite (process_page_records _ _ _ _ _ Hbody). fold keys.
      rewrite Hrun, bind_lift_raise. reflexivity.
    + reflexivity.
Qed.

(** X5.  A page without queries cannot be processed: the DataFrame read
    from an empty [res] has no column [query_start_time_ms], so that the
    page raises [AttributeError] and nothing is written. *)
Theorem page_without_queries (s : state) (token more : json) :
  status_code (response_of s) = 200 ->
  json_body (response_of s)
  = Some (JObj [("next_page_token", token);
                ("has_next_page", more);
                ("res", JArr [])]) ->
  fails_unwritten s AttributeError.
Proof.
  intros Hs Hbody. eapply fails_unwritten_intro; [exact Hs| |].
  - rewrite (process_page_records _ _ token more [] Hbody). reflexivity.
  - reflexivity.
Qed.

(** A piece of the loop body that leaves [next_page_token] alone. *)
Definition keeps_token (m : M state ctl) : Prop :=
  forall s, next_page_token (final (m s)) = next_page_token s.

Lemma keeps_token_lift {A} (r : result A) (k : A -> M state ctl) :
  (forall a, keeps_token (k a)) -> keeps_token (bind (lift r) k).
Proof.
  intros Hk s. destruct r as [a|e].
  - rewrite bind_lift_ok. apply Hk.
  - reflexivity.
Qed.

Lemma keeps_token_modify (f : state -> state) (k : M state ctl) :
  (forall s, next_page_token (f s) = next_page_token s) ->
  keeps_token k -> keeps_token (bind (modify f) (fun _ => k)).
Proof. intros Hf Hk s. rewrite bind_modify, Hk. apply Hf. Qed.

Lemma keeps_token_write (df : DataFrame) :
  keeps_token (bind (write_page df) (fun _ => ret Continue)).
Proof.
  intros s.
  unfold write_page, check_table_exist, bind, get_state, emit, modify, lift, ret.
  destruct (queries_table s) as [table|] eqn:E; cbn; rewrite ?E.
  - destruct (delta_merge table (rows df)); reflexivity.
  - reflexivity.
Qed.

(** X28.  The token of a 200 answer is kept whatever happens to the rest
    of the page, and decides the next request: a token that is not empty
    is sent back as [page_token], without the time filter; after a token
    that is [None] or empty the next request is the first request again,
    with the time filter and no token. *)
Theorem next_request_follows_the_token
        (s s' : state) (body : list (string * json)) (token : json)
        (r : result ctl) (t : list event) :
  status_code (response_of s) = 200 ->
  json_body (response_of s) = Some (JObj body) ->
  assoc "next_page_token" body = Some token ->
  page s = ((r, s'), t) ->
  next_page_token s' = token
  /\ request_of start_time_ms end_time_ms s'
     = if truthy token
       then JObj [("max_results", JNum MAX_RESULTS_PER_PAGE); ("page_token", token)]
       else request_of start_time_ms end_time_ms (initial None).
Proof.
  intros Hs Hbody Htoken Hpage.
  assert (Hkept : next_page_token s' = token).
  { rewrite fetch_page_run, Hs in Hpage. cbn [Nat.eqb] in Hpage.
    assert (Hfinal : s' = final (process_page py_str from_unixtime_ms (response_of s)
                                              (requested s))).
    { unfold final. injection Hpage as H1 _. rewrite H1. reflexivity. }
    rewrite Hfinal. unfold process_page, response_json. rewrite Hbody.
    rewrite bind_lift_ok. cbn [getitem]. rewrite Htoken.
    rewrite bind_lift_ok, bind_modify.
    match goal with
    | |- next_page_token (final (?m ?s0)) = _ =>
        assert (Hm : keeps_token m); [|rewrite (Hm s0); reflexivity]
    end.
    repeat first
      [ apply keeps_token_lift; intros ?
      | apply keeps_token_modify; [intros ?; reflexivity|]
      | apply keeps_token_write ]. }
  split; [exact Hkept|].
  unfold request_of, request_parameters. rewrite Hkept.
  destruct (truthy token); reflexivity.
Qed.

End Pages.

(** A 200 answer with the given body, whatever the request. *)
Definition answering (body : json) (n : nat) (params : json) : response :=
  {| status_code := 200; text := ""; json_body := Some body |}.

Definition no_token : json :=
  JObj [("has_next_page", JBool false); ("res", JArr [])].

Definition uneven : json :=
  JObj [("next_page_token", JNull);
        ("has_next_page", JBool false);
        ("res", JArr (map JObj [[("query_id", JStr "q1"); ("is_final", JBool true)];
                                [("query_id", JStr "q2")]]))].

Definition no_queries : json :=
  JObj [("next_page_token", JNull); ("has_next_page", JBool false); ("res", JArr [])].

Lemma page_needs_its_three_keys_witness :
  fails_unwritten py_str_bool (fun v => v) 0 10 (answering no_token) (initial None)
                  (KeyError "next_page_token").
Proof.
  apply (page_needs_its_three_keys py_str_bool (fun v => v) 0 10 (answering no_token)
           (initial None) [("has_next_page", JBool false); ("res", JArr [])]);
    reflexivity.
Defined.

Lemma page_with_uneven_boolean_key_witness :
  exists missing,
    fails_unwritten py_str_bool (fun v => v) 0 10 (answering uneven) (initial None)
                    (KeyError missing).
Proof.
  apply (page_with_uneven_boolean_key py_str_bool (fun v => v) 0 10 (answering uneven)
           (initial None) JNull (JBool false)
           [[("query_id", JStr "q1"); ("is_final", JBool true)];
            [("query_id", JStr "q2")]]
           [("query_id", JStr "q1"); ("is_final", JBool true)]
           [("query_id", JStr "q2")] "is_final" true);
    try reflexivity; cbn; auto.
Defined.

Lemma page_without_queries_witness :
  fails_unwritten py_str_bool (fun v => v) 0 10 (answering no_queries) (initial None)
                  AttributeError.
Proof.
  apply (page_without_queries py_str_bool (fun v => v) 0 10 (answering no_queries)
           (initial None) JNull (JBool false)); reflexivity.
Defined.

Lemma next_request_follows_the_token_witness :
  request_of 0 10
    (final (page PyMore.py_str_bool (fun v => v) 0 10 (answering no_queries) (initial None)))
  = request_of 0 10 (initial None).
Proof.
  exact (proj2 (next_request_follows_the_token PyMore.py_str_bool (fun v => v) 0 10
                  (answering no_queries) (initial None) _
                  [("next_page_token", JNull); ("has_next_page", JBool false);
                   ("res", JArr [])]
                  JNull _ _ eq_refl eq_refl eq_refl eq_refl)).
Defined.

End QueryHistoryMore.

(** ** structured-data-for-rag.py: how the wait ends *)

Module VectorIndexMore.
Import VectorIndex.

(** The status the loop reads off an answer of [describe()]. *)
Definition status_of (idx : json) : result string :=
  rbind (dict_get idx "index_status" (JObj [])) (fun status_default =>
  rbind (dict_get idx "status" status_default) (fun index_status =>
  rbind (dict_get index_status "status" (JStr "UNKNOWN")) (fun state_default =>
  rbind (dict_get index_status "detailed_state" state_default) upper))).

Definition online (idx : json) : Prop :=
  exists status, status_of idx = Ok status /\ str_contains "ONLINE" status = true.

Definition unknown (idx : json) : Prop :=
  exists status,
    status_of idx = Ok status
    /\ str_contains "ONLINE" status = false
    /\ str_contains "UNKNOWN" status = true.

Definition provisioning (idx : json) : Prop :=
  exists status,
    status_of idx = Ok status
    /\ str_contains "ONLINE" status = false
    /\ str_contains "UNKNOWN" status = false
    /\ str_contains "PROVISIONING" status = true.

Definition broken (idx : json) : Prop :=
  exists status,
    status_of idx = Ok status
    /\ str_contains "ONLINE" status = false
    /\ str_contains "UNKNOWN" status = false
    /\ str_contains "PROVISIONING" status = false.

(** The requests and the sleeps of a run, in order. *)
Definition effects (t : list event) : list event :=
  filter (fun e => is_call e || is_sleep e) t.

Definition poll (endpoint index : string) : event :=
  Call DESCRIBE (JArr [JStr endpoint; JStr index]).

(** [k] rounds of asking and sleeping 10 seconds. *)
Fixpoint polls (endpoint index : string) (k : nat) : list event :=
  match k with
  | 0 => []
  | S k' => poll endpoint index :: Sleep 10 :: polls endpoint index k'
  end.

Lemma effects_app (a b : list event) : effects (a ++ b) = effects a ++ effects b.
Proof. apply filter_app. Qed.

Section Wait.

Variable py_str : json -> string.
Variable describe : nat -> json.
Variables vs_endpoint_name index_name : string.

Abbreviation wait := (wait_loop py_str describe vs_endpoint_name index_name).

(** One turn of the loop, by the status it reads. *)
Lemma wait_loop_step (i : nat) (range : list nat) (n : nat) (status : string) :
  status_of (describe n) = Ok status ->
  let x := wait (i :: range) n in
  if str_contains "ONLINE" status || str_contains "UNKNOWN" status then
    outcome x = Ok true /\ final x = S n
    /\ effects (trace x) = [poll vs_endpoint_name index_name]
  else if str_contains "PROVISIONING" status then
    outcome x = outcome (wait range (S n))
    /\ final x = final (wait range (S n))
    /\ effects (trace x)
       = poll vs_endpoint_name index_name :: Sleep 10
         :: effects (trace (wait range (S n)))
  else
    (exists message, outcome x = Raise (Exception message))
    /\ final x = S n
    /\ effects (trace x) = [poll vs_endpoint_name index_name].
Proof.
  unfold status_of. intros Hst.
  remember (wait (i :: range) n) as x eqn:Hx.
  cbn [wait_loop] in Hx. unfold bind at 1 in Hx.
  unfold get_index_describe at 1 in Hx. cbv beta iota in Hx.
  destruct (dict_get (describe n) "index_status" (JObj [])) as [d0|e];
    [|discriminate]. cbn [rbind] in Hst. rewrite PyMore.bind_lift_ok in Hx.
  destruct (dict_get (describe n) "status" d0) as [index_status|e];
    [|discriminate]. cbn [rbind] in Hst. rewrite PyMore.bind_lift_ok in Hx.
  destruct index_status as [| | | | |kvs]; try discriminate.
  cbn [dict_get rbind] in Hst, Hx.
  rewrite !PyMore.bind_lift_ok, Hst in Hx.
  rewrite !PyMore.bind_lift_ok in Hx.
  destruct (str_contains "ONLINE" status); cbn [orb].
  { subst x. unfold outcome, final, trace, ret. cbn. auto. }
  destruct (str_contains "UNKNOWN" status).
  { subst x. unfold outcome, final, trace, ret, bind, emit. cbn. auto. }
  destruct (str_contains "PROVISIONING" status).
  - unfold bind, emit, ret in Hx. subst x.
    unfold outcome, final, trace, poll.
    destruct (i mod 40 =? 0)%nat; cbv beta iota;
      destruct (wait range (S n)) as [[r s'] t]; cbn; auto.
  - subst x. unfold outcome, final, trace, raise. cbn. eauto.
Qed.

Lemma provisioning_round (i : nat) (range : list nat) (n : nat) :
  provisioning (describe n) ->
  outcome (wait (i :: range) n) = outcome (wait range (S n))
  /\ final (wait (i :: range) n) = final (wait range (S n))
  /\ effects (trace (wait (i :: range) n))
     = poll vs_endpoint_name index_name :: Sleep 10
       :: effects (trace (wait range (S n))).
Proof.
  intros (status & Hst & H1 & H2 & H3).
  pose proof (wait_loop_step i range n status Hst) as H.
  rewrite H1, H2, H3 in H. exact H.
Qed.

(** The loop through [k] answers that say PROVISIONING. *)
Lemma wait_loop_rounds (k : nat) :
  forall (range : list nat) (n : nat),
    k <= List.length range ->
    (forall j, j < k -> provisioning (describe (n + j))) ->
    outcome (wait range n) = outcome (wait (skipn k range) (n + k))
    /\ final (wait range n) = final (wait (skipn k range) (n + k))
    /\ effects (trace (wait range n))
       = polls vs_endpoint_name index_name k
         ++ effects (trace (wait (skipn k range) (n + k))).
Proof.
  induction k as [|k IH]; intros range n Hlen Hprov.
  - rewrite Nat.add_0_r. cbn. auto.
  - destruct range as [|i range]; [cbn in Hlen; lia|].
    destruct (provisioning_round i range n) as (Ho & Hf & He).
    { rewrite <- (Nat.add_0_r n). apply Hprov. lia. }
    destruct (IH range (S n)) as (Ho' & Hf' & He').
    { cbn in Hlen. lia. }
    { intros j Hj. replace (S n + j) with (n + S j) by lia. apply Hprov. lia. }
    replace (n + S k) with (S n + k) by lia. cbn [skipn polls app].
    rewrite Ho, Hf, He, Ho', Hf', He'. auto.
Qed.

Abbreviation run :=
  (wait_for_index_to_be_ready py_str describe vs_endpoint_name index_name 0).

Lemma wait_returned (x : (result bool * nat) * list event) :
  x = wait (seq 0 180) 0 ->
  outcome x = Ok true ->
  outcome run = Ok tt /\ final run = final x
  /\ effects (trace run) = effects (trace x).
Proof.
  intros Hx Ho. unfold wait_for_index_to_be_ready, bind. rewrite <- Hx.
  destruct x as [[r s] t]. unfold outcome in Ho. cbn in Ho. subst r.
  unfold outcome, final, trace, ret. cbn. rewrite app_nil_r. auto.
Qed.

Lemma wait_raised (x : (result bool * nat) * list event) (e : exn) :
  x = wait (seq 0 180) 0 ->
  outcome x = Raise e ->
  outcome run = Raise e /\ final run = final x
  /\ effects (trace run) = effects (trace x).
Proof.
  intros Hx Ho. unfold wait_for_index_to_be_ready, bind. rewrite <- Hx.
  destruct x as [[r s] t]. unfold outcome in Ho. cbn in Ho. subst r.
  unfold outcome, final, trace. cbn. auto.
Qed.

(** X9.  When the index is reported PROVISIONING [k] times ([k] < 180)
    and then in another state, [wait_for_index_to_be_ready] has asked
    [k + 1] times and slept 10 seconds after each of the first [k]
    answers; it returns when the last answer says ONLINE or UNKNOWN and
    raises otherwise, without sleeping again. *)
Theorem wait_settles_on_first_other_status (k : nat) :
  k < 180 ->
  (forall j, j < k -> provisioning (describe j)) ->
  (online (describe k) \/ unknown (describe k) ->
   outcome run = Ok tt)
  /\ (broken (describe k) -> exists message, outcome run = Raise (Exception message))
  /\ (~ provisioning (describe k) -> is_ok (status_of (describe k)) = true ->
      final run = k + 1
      /\ effects (trace run)
         = polls vs_endpoint_name index_name k ++ [poll vs_endpoint_name index_name]).
Proof.
  intros Hk Hprov.
  destruct (wait_loop_rounds k (seq 0 180) 0) as (Ho & Hf & He);
    [rewrite length_seq; lia|exact Hprov|].
  cbn [plus] in Ho, Hf, He.
  assert (Hrange : exists i range, skipn k (seq 0 180) = i :: range).
  { destruct (skipn k (seq 0 180)) as [|i range] eqn:E; [|eauto].
    apply (f_equal (@List.length nat)) in E.
    rewrite length_skipn, length_seq in E. cbn [List.length] in E. lia. }
  destruct Hrange as (i & range & Hrange). rewrite Hrange in Ho, Hf, He.
  assert (Hcase : forall status,
             status_of (describe k) = Ok status ->
             (str_contains "ONLINE" status || str_contains "UNKNOWN" status = true ->
              outcome run = Ok tt /\ final run = k + 1
              /\ effects (trace run)
                 = polls vs_endpoint_name index_name k
                   ++ [poll vs_endpoint_name index_name])
             /\ (str_contains "ONLINE" status = false ->
                 str_contains "UNKNOWN" status = false ->
                 str_contains "PROVISIONING" status = false ->
                 (exists message, outcome run = Raise (Exception message))
                 /\ final run = k + 1
                 /\ effects (trace run)
                    = polls vs_endpoint_name index_name k
                      ++ [poll vs_endpoint_name index_name])).
  { intros status Hst. pose proof (wait_loop_step i range k status Hst) as Hstep.
    cbv zeta in Hstep. split.
    - intros Hready. rewrite Hready in Hstep. destruct Hstep as (Ho1 & Hf1 & He1).
      destruct (wait_returned _ eq_refl (eq_trans Ho Ho1)) as (-> & -> & ->).
      rewrite Hf, Hf1, He, He1. split; [reflexivity|]. split; [lia|reflexivity].
    - intros H1 H2 H3. rewrite H1, H2, H3 in Hstep. cbn [orb] in Hstep.
      destruct Hstep as ((message & Ho1) & Hf1 & He1).
      destruct (wait_raised _ _ eq_refl (eq_trans Ho Ho1)) as (-> & -> & ->).
      rewrite Hf, Hf1, He, He1. split; [eauto|]. split; [lia|reflexivity]. }
  split; [|split].
  - intros [(status & Hst & Hon)|(status & Hst & _ & Hun)];
      apply (Hcase status Hst); rewrite ?Hon, ?Hun, ?orb_true_r; reflexivity.
  - intros (status & Hst & H1 & H2 & H3). apply (Hcase status Hst); assumption.
  - intros Hnot Hok. destruct (status_of (describe k)) as [status|e] eqn:Hst;
      [|discriminate].
    destruct (str_contains "ONLINE" status || str_contains "UNKNOWN" status) eqn:Hready.
    + apply (proj1 (Hcase status eq_refl) Hready).
    + apply orb_false_iff in Hready. destruct Hready as [H1 H2].
      destruct (str_contains "PROVISIONING" status) eqn:H3.
      * contradiction Hnot. exists status. rewrite Hst. auto.
      * apply (proj2 (Hcase status eq_refl) H1 H2 H3).
Qed.

(** X10.  When all 180 answers say PROVISIONING the function gives up: it
    has asked 180 times and slept 10 seconds after every answer (half an
    hour in all), sends one more request, [get_index] with the index name
    in the place of the endpoint name, and does not return normally. *)
Theorem wait_gives_up_after_180_answers :
  (forall j, j < 180 -> provisioning (describe j)) ->
  is_ok (outcome run) = false
  /\ final run = 181
  /\ effects (trace run)
     = polls vs_endpoint_name index_name 180
       ++ [Call GET_INDEX (JArr [JStr index_name; JStr vs_endpoint_name])].
Proof.
  intros Hprov.
  destruct (wait_loop_rounds 180 (seq 0 180) 0) as (Ho & Hf & He);
    [rewrite length_seq; lia|exact Hprov|].
  change (skipn 180 (seq 0 180)) with (@nil nat) in Ho, Hf, He.
  cbn [plus wait_loop] in Ho, Hf, He.
  unfold wait_for_index_to_be_ready, bind.
  destruct (wait (seq 0 180) 0) as [[r s] t].
  unfold outcome, final, trace, ret in *. cbn [fst snd] in *. subst r s.
  cbn [get_index raise fst snd app is_ok].
  split; [reflexivity|]. split; [reflexivity|].
  rewrite effects_app, He. cbn [effects filter is_call is_sleep orb].
  rewrite app_nil_r. reflexivity.
Qed.

(** X11.  An answer of [describe()] with neither a [status] nor an
    [index_status] entry is read as UNKNOWN and taken for a ready index:
    the function returns after this one request, without sleeping. *)
Theorem answer_without_status_counts_as_ready (fields : list (string * json)) :
  describe 0 = JObj fields ->
  assoc "status" fields = None ->
  assoc "index_status" fields = None ->
  outcome run = Ok tt
  /\ effects (trace run) = [poll vs_endpoint_name index_name].
Proof.
  intros Hd Hs Hi.
  assert (Hst : status_of (describe 0) = Ok "UNKNOWN").
  { rewrite Hd. unfold status_of. cbn [dict_get rbind]. rewrite Hi, Hs. reflexivity. }
  pose proof (wait_loop_step 0 (seq 1 179) 0 "UNKNOWN" Hst) as Hstep.
  change (str_contains "ONLINE" "UNKNOWN" || str_contains "UNKNOWN" "UNKNOWN")
    with true in Hstep.
  cbv zeta in Hstep. destruct Hstep as (Ho & _ & He).
  destruct (wait_returned _ eq_refl Ho) as (-> & _ & ->). auto.
Qed.

End Wait.

Definition reported (state : string) : json :=
  JObj [("status", JObj [("detailed_state", JStr state); ("ready", JBool false)])].

(** Two answers PROVISIONING, then ONLINE. *)
Definition third_time_online (n : nat) : json :=
  match n with
  | 0 | 1 => reported "PROVISIONING_INITIAL_SNAPSHOT"
  | _ => reported "ONLINE_NO_PENDING_UPDATE"
  end.

Definition never_ready (n : nat) : json := reported "PROVISIONING_INITIAL_SNAPSHOT".

Definition bare (n : nat) : json := JObj [("name", JStr "hotels_index")].

Lemma reported_provisioning : provisioning (reported "PROVISIONING_INITIAL_SNAPSHOT").
Proof. eexists. repeat split; reflexivity. Qed.

Lemma wait_settles_on_first_other_status_witness :
  let run := wait_for_index_to_be_ready PyMore.py_str_bool third_time_online
               "endpoint" "hotels_index" 0 in
  outcome run = Ok tt
  /\ final run = 3
  /\ effects (trace run)
     = polls "endpoint" "hotels_index" 2 ++ [poll "endpoint" "hotels_index"].
Proof.
  pose proof (wait_settles_on_first_other_status PyMore.py_str_bool
                third_time_online "endpoint" "hotels_index" 2) as H.
  destruct H as (Hret & _ & Hrun).
  - lia.
  - intros j Hj. destruct j as [|[|j]]; [apply reported_provisioning..|lia].
  - cbv zeta. split; [|apply Hrun].
    + apply Hret. left. eexists. split; reflexivity.
    + intros (status & Hst & Hon & _). cbn in Hst. injection Hst as <-.
      discriminate Hon.
    + reflexivity.
Defined.

Lemma wait_gives_up_after_180_answers_witness :
  let run := wait_for_index_to_be_ready PyMore.py_str_bool never_ready
               "endpoint" "hotels_index" 0 in
  is_ok (outcome run) = false /\ final run = 181.
Proof.
  pose proof (wait_gives_up_after_180_answers PyMore.py_str_bool
                never_ready "endpoint" "hotels_index") as H.
  destruct H as (Ho & Hf & _).
  - intros j _. apply reported_provisioning.
  - cbv zeta. split; [exact Ho|exact Hf].
Defined.

Lemma answer_without_status_counts_as_ready_witness :
  let run := wait_for_index_to_be_ready PyMore.py_str_bool bare
               "endpoint" "hotels_index" 0 in
  outcome run = Ok tt /\ effects (trace run) = [poll "endpoint" "hotels_index"].
Proof.
  apply (answer_without_status_counts_as_ready PyMore.py_str_bool bare
           "endpoint" "hotels_index" [("name", JStr "hotels_index")]); reflexivity.
Defined.

End VectorIndexMore.

(** ** uc_tools_image_upload.py: how the retries end *)

Module UcToolsMore.
Import UcTools.

Section Retriable.

Variable sql_generator : string -> string -> string.
Variable sql_rectifier : string -> string -> string -> string.
Variable sql_result_summarizer : string -> string -> string -> string.
Variable get_ddl_statements : string -> string.
Variable warehouse : nat -> string -> result string.
Variable str_of_error : exn -> string.

Variable max_retries : nat.
Variable ddl_input : string.

Abbreviation body := (attempt sql_rectifier warehouse str_of_error max_retries ddl_input).
Abbreviation loop fuel := (while_loop fuel (retry_condition max_retries) body).

(** What the warehouse makes of the statement that state [s] holds. *)
Definition executed (s : state) : result string :=
  warehouse (statements_run s) (process_sql_str (sql_statement s)).

(** The state after a failed statement: one more try counted, the
    statement replaced by what the rectifier makes of it and of the error. *)
Definition rectified (s : state) : state :=
  match executed s with
  | Raise error =>
      {| num_try := num_try s + 1;
         sql_statement := sql_rectifier (sql_statement s) (str_of_error error) ddl_input;
         results_string := results_string s;
         statements_run := S (statements_run s) |}
  | Ok _ => s
  end.

Fixpoint after_failures (k : nat) (s : state) : state :=
  match k with
  | 0 => s
  | S k' => after_failures k' (rectified s)
  end.

Definition answered (rows : string) (s : state) : state :=
  {| num_try := num_try s; sql_statement := sql_statement s;
     results_string := Some rows; statements_run := S (statements_run s) |}.

Lemma attempt_succeeds (s : state) (rows : string) :
  executed s = Ok rows ->
  exists t,
    body s = ((Ok Break, answered rows s), t)
    /\ Repo.calls_to WAREHOUSE t = 1 /\ Repo.calls_to LLM t = 0.
Proof.
  unfold executed. intros H.
  unfold attempt, try_execute_sql_statement, bind, get_state, emit, modify, ret.
  cbn -[process_sql_str]. rewrite H. cbn. eexists. split; [reflexivity|]. split; reflexivity.
Qed.

Lemma attempt_fails (s : state) (error : exn) :
  executed s = Raise error ->
  exists t,
    body s = ((if (num_try s + 1 =? max_retries)%nat then Raise error else Ok Continue,
               rectified s), t)
    /\ Repo.calls_to WAREHOUSE t = 1 /\ Repo.calls_to LLM t = 1.
Proof.
  intros H. unfold rectified. rewrite H. unfold executed in H.
  unfold attempt, try_execute_sql_statement, bind, get_state, emit, modify, ret, raise.
  cbn -[process_sql_str]. rewrite H. cbn -[process_sql_str].
  destruct (num_try s + 1 =? max_retries)%nat; cbn;
    (eexists; split; [reflexivity|]; split; reflexivity).
Qed.

Lemma calls_to_app (service : string) (a b : list event) :
  Repo.calls_to service (a ++ b) = Repo.calls_to service a + Repo.calls_to service b.
Proof. unfold Repo.calls_to. rewrite filter_app, length_app. reflexivity. Qed.

(** The loop through [k] failed statements, short of the last retry. *)
Lemma loop_through_failures (k : nat) :
  forall (fuel : nat) (s : state),
    k = 0 \/ num_try s + k < max_retries ->
    (forall j, j < k -> is_ok (executed (after_failures j s)) = false) ->
    exists t,
      loop (k + fuel) s
      = (fst (loop fuel (after_failures k s)),
         t ++ snd (loop fuel (after_failures k s)))
      /\ Repo.calls_to WAREHOUSE t = k /\ Repo.calls_to LLM t = k
      /\ num_try (after_failures k s) = num_try s + k
      /\ statements_run (after_failures k s) = statements_run s + k
      /\ results_string (after_failures k s) = results_string s.
Proof.
  induction k as [|k IH]; intros fuel s Hlt Hfail.
  - exists []. cbn [plus after_failures app].
    destruct (loop fuel s) as [rs t]. rewrite !Nat.add_0_r. repeat split.
  - destruct Hlt as [Hlt|Hlt]; [discriminate|].
    pose proof (Hfail 0 ltac:(lia)) as H0. cbn [after_failures] in H0.
    destruct (executed s) as [rows|error] eqn:Hex; [discriminate|].
    destruct (attempt_fails s error Hex) as (t1 & Hbody & Hw1 & Hl1).
    destruct (Nat.eqb_spec (num_try s + 1) max_retries) as [E|_]; [lia|].
    assert (Hn : num_try (rectified s) = num_try s + 1
                 /\ statements_run (rectified s) = S (statements_run s)
                 /\ results_string (rectified s) = results_string s).
    { unfold rectified. rewrite Hex. cbn. auto. }
    destruct Hn as (Hn & Hs & Hr).
    destruct (IH fuel (rectified s)) as (t & Hloop & Hw & Hl & Hn' & Hs' & Hr').
    { right. lia. }
    { intros j Hj. apply (Hfail (S j)). lia. }
    exists (t1 ++ t). cbn [plus while_loop after_failures].
    replace (retry_condition max_retries s) with true
      by (symmetry; apply Nat.leb_le; lia).
    unfold bind at 1. rewrite Hbody, Hloop. cbv beta iota.
    rewrite <- app_assoc. split; [reflexivity|].
    rewrite !calls_to_app. repeat split; try lia. congruence.
Qed.

End Retriable.

Section Execution.

Variable sql_generator : string -> string -> string.
Variable sql_rectifier : string -> string -> string -> string.
Variable sql_result_summarizer : string -> string -> string -> string.
Variable get_ddl_statements : string -> string.
Variable warehouse : nat -> string -> result string.
Variable str_of_error : exn -> string.

Variables (question : string) (max_retries : nat) (uc_catalog_schema : string).

Abbreviation run fuel :=
  (retriable_execution sql_generator sql_rectifier sql_result_summarizer
     get_ddl_statements warehouse str_of_error fuel question max_retries
     uc_catalog_schema start).

(** The state in which the loop is entered. *)
Definition entered : state :=
  {| num_try := 0;
     sql_statement := sql_generator question (get_ddl_statements uc_catalog_schema);
     results_string := None;
     statements_run := 0 |}.

(** The state after [k] failed statements. *)
Definition failed (k : nat) : state :=
  after_failures sql_rectifier warehouse str_of_error
                 (get_ddl_statements uc_catalog_schema) k entered.

Abbreviation result_of s := (executed warehouse s).

(** The end of the function, after the loop. *)
Definition summarise (finished : bool) : M state (option string) :=
  if negb finished then ret None
  else
    s <- get_state ;;
    match results_string s with
    | None => raise (NameError "results_string")
    | Some rows =>
        emit (Call LLM (JStr (sql_statement s))) ;;;
        ret (Some (sql_result_summarizer question (sql_statement s) rows))
    end.

Abbreviation retries fuel :=
  (while_loop fuel (retry_condition max_retries)
     (attempt sql_rectifier warehouse str_of_error max_retries
        (get_ddl_statements uc_catalog_schema))).

Lemma run_unfolded (fuel : nat) :
  run fuel
  = (fst (bind (retries fuel) summarise entered),
     [Call SPARK (JStr uc_catalog_schema); Call LLM (JStr question)]
     ++ snd (bind (retries fuel) summarise entered)).
Proof.
  unfold retriable_execution. fold summarise.
  unfold bind at 1. unfold emit at 1. cbv beta iota.
  unfold bind at 1. unfold emit at 1. cbv beta iota.
  unfold bind at 1. unfold modify at 1. cbv beta iota.
  change {| num_try := 0;
            sql_statement := sql_generator question (get_ddl_statements uc_catalog_schema);
            results_string := None;
            statements_run := statements_run start |} with entered.
  destruct (bind (retries fuel) summarise entered) as [rs t].
  reflexivity.
Qed.

(** The run, given how the loop ends. *)
Lemma run_after_loop (fuel : nat) (r : result bool) (s : state) (t : list event) :
  retries fuel entered = ((r, s), t) ->
  run fuel
  = match r with
    | Ok finished =>
        (fst (summarise finished s),
         [Call SPARK (JStr uc_catalog_schema); Call LLM (JStr question)]
         ++ t ++ snd (summarise finished s))
    | Raise e =>
        ((Raise e, s),
         [Call SPARK (JStr uc_catalog_schema); Call LLM (JStr question)] ++ t)
    end.
Proof.
  intros H. rewrite run_unfolded. unfold bind. rewrite H.
  destruct r as [finished|e]; [|reflexivity].
  destruct (summarise finished s) as [rs t']. reflexivity.
Qed.

Lemma failed_state (k : nat) (fuel : nat) :
  k = 0 \/ k < max_retries ->
  (forall j, j < k -> is_ok (result_of (failed j)) = false) ->
  exists t,
    retries (k + fuel) entered
    = (fst (retries fuel (failed k)), t ++ snd (retries fuel (failed k)))
    /\ Repo.calls_to WAREHOUSE t = k /\ Repo.calls_to LLM t = k
    /\ num_try (failed k) = k
    /\ results_string (failed k) = None.
Proof.
  intros Hk Hfail.
  destruct (loop_through_failures sql_rectifier warehouse str_of_error max_retries
              (get_ddl_statements uc_catalog_schema) k fuel entered)
    as (t & Hloop & Hw & Hl & Hn & _ & Hr).
  - cbn [entered num_try plus]. exact Hk.
  - exact Hfail.
  - exists t. fold (failed k) in *. auto.
Qed.

(** X12.  When the first [k] statements fail and the next one is
    answered, with [k] below [max_retries] (or no failure at all),
    [retriable_execution] returns the summary of the rows of that
    statement, the [k]-th rectification of the generated one.  It has sent
    [k + 1] statements to the warehouse and asked the language model
    [k + 2] times: to generate, to rectify after each failure, and to
    summarise. *)
Theorem answer_from_first_statement_that_runs (k fuel : nat) (rows : string) :
  k < fuel ->
  k = 0 \/ k < max_retries ->
  (forall j, j < k -> is_ok (result_of (failed j)) = false) ->
  result_of (failed k) = Ok rows ->
  outcome (run fuel)
  = Ok (Some (sql_result_summarizer question (sql_statement (failed k)) rows))
  /\ Repo.calls_to WAREHOUSE (trace (run fuel)) = k + 1
  /\ Repo.calls_to LLM (trace (run fuel)) = k + 2.
Proof.
  intros Hfuel Hk Hfail Hrows.
  destruct (failed_state k (fuel - k) Hk Hfail) as (t & Hloop & Hw & Hl & Hn & _).
  replace (k + (fuel - k)) with fuel in Hloop by lia.
  destruct (fuel - k) as [|more] eqn:Hmore; [lia|].
  destruct (attempt_succeeds sql_rectifier warehouse str_of_error max_retries
              (get_ddl_statements uc_catalog_schema) (failed k) rows Hrows)
    as (t1 & Hbody & Hw1 & Hl1).
  cbn [while_loop] in Hloop.
  replace (retry_condition max_retries (failed k)) with true in Hloop
    by (symmetry; apply Nat.leb_le; lia).
  unfold bind at 1 2 in Hloop. rewrite Hbody in Hloop. cbn [ret fst snd] in Hloop.
  rewrite app_nil_r in Hloop.
  rewrite (run_after_loop fuel _ _ _ Hloop).
  unfold summarise, bind, get_state, emit, ret, outcome, trace.
  cbn [negb answered results_string sql_statement fst snd].
  split; [reflexivity|].
  rewrite !calls_to_app, Hw, Hl, Hw1, Hl1. cbn. split; lia.
Qed.

(** X13.  When the first [max_retries] statements all fail
    ([max_retries] at least 1), [retriable_execution] raises the error of
    the last of them.  It has sent [max_retries] statements, not one more,
    and has asked the language model to rectify after each failure, the
    last one included. *)
Theorem raises_last_error_after_max_retries (fuel : nat) (error : exn) :
  0 < max_retries -> max_retries <= fuel ->
  (forall j, j < max_retries -> is_ok (result_of (failed j)) = false) ->
  result_of (failed (max_retries - 1)) = Raise error ->
  outcome (run fuel) = Raise error
  /\ Repo.calls_to WAREHOUSE (trace (run fuel)) = max_retries
  /\ Repo.calls_to LLM (trace (run fuel)) = max_retries + 1.
Proof.
  intros Hpos Hfuel Hfail Hlast.
  destruct (failed_state (max_retries - 1) (fuel - (max_retries - 1)))
    as (t & Hloop & Hw & Hl & Hn & _).
  { right. lia. }
  { intros j Hj. apply Hfail. lia. }
  replace (max_retries - 1 + (fuel - (max_retries - 1))) with fuel in Hloop by lia.
  destruct (fuel - (max_retries - 1)) as [|more] eqn:Hmore; [lia|].
  destruct (attempt_fails sql_rectifier warehouse str_of_error max_retries
              (get_ddl_statements uc_catalog_schema) (failed (max_retries - 1))
              error Hlast)
    as (t1 & Hbody & Hw1 & Hl1).
  replace (num_try (failed (max_retries - 1)) + 1 =? max_retries)%nat with true
    in Hbody by (symmetry; apply Nat.eqb_eq; lia).
  cbn [while_loop] in Hloop.
  replace (retry_condition max_retries (failed (max_retries - 1))) with true in Hloop
    by (symmetry; apply Nat.leb_le; lia).
  unfold bind at 1 2 in Hloop. rewrite Hbody in Hloop. cbn [fst snd] in Hloop.
  rewrite (run_after_loop fuel _ _ _ Hloop).
  unfold outcome, trace. cbn [fst snd].
  split; [reflexivity|].
  rewrite !calls_to_app, Hw, Hl, Hw1, Hl1. cbn. split; lia.
Qed.

End Execution.

Section NoRetry.

Variable sql_generator : string -> string -> string.
Variable sql_rectifier : string -> string -> string -> string.
Variable sql_result_summarizer : string -> string -> string -> string.
Variable get_ddl_statements : string -> string.
Variable warehouse : nat -> string -> result string.
Variable str_of_error : exn -> string.

(** X14.  With [max_retries = 0] a failing statement is not reported: the
    loop ends after the one statement without [results_string] being
    bound, and the function raises [NameError] for it in place of the
    error of the warehouse. *)
Theorem no_retry_loses_the_error
        (fuel : nat) (question uc_catalog_schema : string) (error : exn) :
  warehouse 0 (process_sql_str
                 (sql_generator question (get_ddl_statements uc_catalog_schema)))
  = Raise error ->
  let run := retriable_execution sql_generator sql_rectifier sql_result_summarizer
               get_ddl_statements warehouse str_of_error (S fuel) question 0
               uc_catalog_schema start in
  outcome run = Raise (NameError "results_string")
  /\ Repo.calls_to WAREHOUSE (trace run) = 1.
Proof.
  intros Hfail run. subst run.
  pose (first := entered sql_generator get_ddl_statements question uc_catalog_schema).
  assert (Hex : executed warehouse first = Raise error) by exact Hfail.
  destruct (attempt_fails sql_rectifier warehouse str_of_error 0
              (get_ddl_statements uc_catalog_schema) first error Hex)
    as (t1 & Hbody & Hw1 & _).
  change (num_try first + 1 =? 0)%nat with false in Hbody. cbv iota in Hbody.
  assert (Hloop : while_loop (S fuel) (retry_condition 0)
                    (attempt sql_rectifier warehouse str_of_error 0
                       (get_ddl_statements uc_catalog_schema)) first
                  = ((Ok true,
                      rectified sql_rectifier warehouse str_of_error
                        (get_ddl_statements uc_catalog_schema) first), t1)).
  { cbn [while_loop]. change (retry_condition 0 first) with true. cbv iota.
    unfold bind. rewrite Hbody.
    assert (Hstop : retry_condition 0
                      (rectified sql_rectifier warehouse str_of_error
                         (get_ddl_statements uc_catalog_schema) first) = false).
    { unfold rectified. rewrite Hex. reflexivity. }
    destruct fuel; cbn [while_loop]; rewrite Hstop; rewrite app_nil_r; reflexivity. }
  rewrite (run_after_loop _ _ sql_result_summarizer _ _ _ _ _ _ _ _ _ _ Hloop).
  unfold summarise, bind, get_state, raise, outcome, trace, rectified.
  rewrite Hex. cbn [negb results_string first entered fst snd].
  split; [reflexivity|].
  rewrite !calls_to_app, Hw1. reflexivity.
Qed.

End NoRetry.

(** A generator that misspells its statement, a rectifier that knows the
    right one, and a warehouse that accepts only that. *)
Definition misspelt (question relevant_table_schemas : string) : string :=
  "```sql SELEC count(*) FROM hotels ```".

Definition corrected (input_sql error_str relevant_table_schemas : string) : string :=
  "SELECT count(*) FROM hotels".

Definition rows_only (question sql relevant_rows : string) : string := relevant_rows.

Definition no_tables (schema_name : string) : string := "".

Definition strict (n : nat) (statement : string) : result string :=
  if String.eqb statement "SELECT count(*) FROM hotels"
  then Ok " count=3"
  else Raise (Exception "PARSE_SYNTAX_ERROR").

Definition down (n : nat) (statement : string) : result string :=
  Raise (SparkError "warehouse is stopped").

Definition error_text (e : exn) : string := "error".

Lemma answer_from_first_statement_that_runs_witness :
  let run := retriable_execution misspelt corrected rows_only no_tables strict
               error_text 4 "how many hotels?" 3 "main.hotels" start in
  outcome run = Ok (Some " count=3")
  /\ Repo.calls_to WAREHOUSE (trace run) = 2
  /\ Repo.calls_to LLM (trace run) = 3.
Proof.
  apply (answer_from_first_statement_that_runs misspelt corrected rows_only
           no_tables strict error_text "how many hotels?" 3 "main.hotels"
           1 4 " count=3").
  - lia.
  - right. lia.
  - intros [|j] Hj; [reflexivity|lia].
  - reflexivity.
Defined.

Lemma raises_last_error_after_max_retries_witness :
  let run := retriable_execution misspelt corrected rows_only no_tables down
               error_text 4 "how many hotels?" 3 "main.hotels" start in
  outcome run = Raise (SparkError "warehouse is stopped")
  /\ Repo.calls_to WAREHOUSE (trace run) = 3
  /\ Repo.calls_to LLM (trace run) = 4.
Proof.
  apply (raises_last_error_after_max_retries misspelt corrected rows_only
           no_tables down error_text "how many hotels?" 3 "main.hotels" 4
           (SparkError "warehouse is stopped")).
  - lia.
  - lia.
  - intros j _. reflexivity.
  - reflexivity.
Defined.

Lemma no_retry_loses_the_error_witness :
  let run := retriable_execution misspelt corrected rows_only no_tables down
               error_text 1 "how many hotels?" 0 "main.hotels" start in
  outcome run = Raise (NameError "results_string")
  /\ Repo.calls_to WAREHOUSE (trace run) = 1.
Proof.
  apply (no_retry_loses_the_error misspelt corrected rows_only no_tables down
           error_text 0 "how many hotels?" "main.hotels"
           (SparkError "warehouse is stopped")).
  reflexivity.
Defined.

(** *** [process_sql_str] *)

(** A string that does not begin with white space. *)
Definition starts_clean (s : string) : bool :=
  match s with
  | EmptyString => true
  | String c _ => negb (is_space c)
  end.

(** A string that does not end with white space. *)
Fixpoint ends_clean (s : string) : bool :=
  match s with
  | EmptyString => true
  | String c EmptyString => negb (is_space c)
  | String _ s' => ends_clean s'
  end.

Lemma lstrip_starts_clean (s : string) : starts_clean (lstrip s) = true.
Proof.
  induction s as [|c s IH]; [reflexivity|].
  cbn [lstrip]. destruct (is_space c) eqn:Hc; [exact IH|]. cbn. rewrite Hc. reflexivity.
Qed.

Lemma rstrip_starts_clean (s : string) :
  starts_clean s = true -> starts_clean (rstrip s) = true.
Proof.
  destruct s as [|c s]; [reflexivity|]. cbn [starts_clean rstrip]. intros Hc.
  destruct (rstrip s); [|exact Hc].
  destruct (is_space c) eqn:E; [reflexivity|]. cbn. rewrite E. reflexivity.
Qed.

Lemma rstrip_ends_clean (s : string) : ends_clean (rstrip s) = true.
Proof.
  induction s as [|c s IH]; [reflexivity|].
  cbn [rstrip]. destruct (rstrip s) as [|d r].
  - destruct (is_space c) eqn:Hc; [reflexivity|]. cbn. rewrite Hc. reflexivity.
  - exact IH.
Qed.

(** X15.  [process_sql_str] returns a statement that neither begins nor
    ends with white space; a statement that holds no code fence and no
    "sql" is only stripped. *)
Theorem process_sql_str_strips (sql_str : string) :
  starts_clean (process_sql_str sql_str) = true
  /\ ends_clean (process_sql_str sql_str) = true
  /\ (str_contains "```" sql_str = false -> str_contains "sql" sql_str = false ->
      process_sql_str sql_str = str_strip sql_str).
Proof.
  unfold process_sql_str, str_strip. split; [|split].
  - apply rstrip_starts_clean, lstrip_starts_clean.
  - apply rstrip_ends_clean.
  - unfold str_contains. intros Hfence Hsql.
    rewrite (PyFacts.str_replace_absent "```" "" sql_str).
    + rewrite (PyFacts.str_replace_absent "sql" "" sql_str); [reflexivity|].
      destruct (str_find "sql" sql_str); [discriminate|reflexivity].
    + destruct (str_find "```" sql_str); [discriminate|reflexivity].
Qed.

Lemma process_sql_str_strips_witness :
  process_sql_str "  SELECT 1 " = "SELECT 1".
Proof.
  exact (proj2 (proj2 (process_sql_str_strips "  SELECT 1 ")) eq_refl eq_refl).
Defined.

End UcToolsMore.

(** ** 04_Data_ETL.py: the cleansed table, the redaction *)

Module PiiEtlMore.
Import PiiEtl.

(** *** The cleansed table *)

Import QuarantineFacts.

Lemma add_to_group_keys (k : group_key) (item : option string * option string)
      (groups : list CleansedRow) :
  map key_of_cleansed (add_to_group k item groups)
  = if existsb (key_eqb k) (map key_of_cleansed groups)
    then map key_of_cleansed groups
    else map key_of_cleansed groups ++ [k].
Proof.
  induction groups as [|g rest IH]; cbn [add_to_group map existsb app].
  - destruct k as [[m t] d]. reflexivity.
  - destruct (key_eqb k (key_of_cleansed g)) eqn:E; cbn [orb map].
    + reflexivity.
    + rewrite IH. destruct (existsb _ _); reflexivity.
Qed.

Lemma add_to_group_nodup (k : group_key) (item : option string * option string)
      (groups : list CleansedRow) :
  NoDup (map key_of_cleansed groups) ->
  NoDup (map key_of_cleansed (add_to_group k item groups)).
Proof.
  intros Hnd. rewrite add_to_group_keys.
  destruct (existsb _ _) eqn:E; [exact Hnd|].
  apply NoDup_app; [exact Hnd|repeat constructor; intros []|].
  intros k' Hin [Hk|[]]. subst k'.
  assert (existsb (key_eqb k) (map key_of_cleansed groups) = true) as Hex.
  { apply existsb_exists. exists k. split; [exact Hin|apply key_eqb_eq; reflexivity]. }
  congruence.
Qed.

Lemma add_to_group_nonempty (k : group_key) (item : option string * option string)
      (groups : list CleansedRow) :
  Forall (fun g => c_pii_detected g <> []) groups ->
  Forall (fun g => c_pii_detected g <> []) (add_to_group k item groups).
Proof.
  induction 1 as [|g rest Hg Hrest IH]; cbn [add_to_group].
  - constructor; [discriminate|constructor].
  - destruct (key_eqb k (key_of_cleansed g)).
    + constructor; [|assumption]. cbn. destruct (c_pii_detected g); discriminate.
    + constructor; assumption.
Qed.

Lemma collect_groups_shape (rows : list ExpandedRow) :
  NoDup (map key_of_cleansed (collect_groups rows))
  /\ Forall (fun g => c_pii_detected g <> []) (collect_groups rows).
Proof.
  unfold collect_groups.
  assert (H : forall groups,
             NoDup (map key_of_cleansed groups)
             /\ Forall (fun g => c_pii_detected g <> []) groups ->
             NoDup (map key_of_cleansed
                      (fold_left (fun groups r =>
                                    add_to_group (key_of_expanded r) (pii_struct r) groups)
                                 rows groups))
             /\ Forall (fun g => c_pii_detected g <> [])
                       (fold_left (fun groups r =>
                                     add_to_group (key_of_expanded r) (pii_struct r) groups)
                                  rows groups)).
  { induction rows as [|r rows IH]; intros groups [Hnd Hne]; cbn [fold_left].
    - auto.
    - apply IH. split; [apply add_to_group_nodup|apply add_to_group_nonempty]; assumption. }
  apply H. split; constructor.
Qed.

(** What the [WHERE] of the cleansed table asks of a row. *)
Lemma cleansed_where_true (r : ExpandedRow) :
  where_holds (cleansed_where r) = true ->
  exists t v d,
    unmasked_text r = Some t /\ value r = Some v /\ departments r = Some d
    /\ v <> "" /\ v <> "..." /\ str_contains v t = true.
Proof.
  unfold cleansed_where, INSTR, str_contains, sql_in, sql_not, sql_gt,
    sql_is_not_null, where_holds.
  destruct (unmasked_text r) as [t|], (value r) as [v|], (departments r) as [d|];
    cbn [option_map sql_and]; try discriminate;
    try (destruct (str_find v t) as [n|] eqn:F; [|change (0 <? 0)%Z with false]);
    try (destruct (str_in v placeholders) eqn:P); cbn [negb];
    try (destruct (0 <? _)%Z); cbn [sql_and]; try discriminate.
  intros _. exists t, v, d.
  assert (~ (v = "" \/ v = "...")) as Hp.
  { rewrite <- placeholder_iff. congruence. }
  rewrite F. repeat split; auto.
Qed.

Lemma cleansed_table_shape (view : list ExpandedRow) :
  NoDup (map key_of_cleansed (cleansed_table view))
  /\ forall g, In g (cleansed_table view) -> exists first, In first (c_pii_detected g).
Proof.
  destruct (collect_groups_shape (expanded_filtered view)) as [Hnd Hne].
  split; [exact Hnd|]. intros g Hg. rewrite Forall_forall in Hne.
  specialize (Hne g Hg). destruct (c_pii_detected g) as [|first others];
    [contradiction|]. exists first. left. reflexivity.
Qed.

(** A detected item whose value is usable and occurs in the text. *)
Definition found (text : option string) (item : option string * option string) : Prop :=
  exists t v,
    text = Some t /\ snd item = Some v
    /\ v <> "" /\ v <> "..." /\ str_contains v t = true.

Lemma cleansed_where_found (r : ExpandedRow) :
  where_holds (cleansed_where r) = true
  <-> found (unmasked_text r) (pii_struct r) /\ departments r <> None.
Proof.
  split.
  - intros H. destruct (cleansed_where_true r H) as (t & v & d & Ht & Hv & Hd & H1 & H2 & H3).
    split; [exists t, v; auto|congruence].
  - intros [(t & v & Ht & Hv & H1 & H2 & H3) Hd]. cbn in Hv.
    unfold cleansed_where, INSTR, sql_in, sql_not, sql_gt, sql_is_not_null, where_holds.
    rewrite Ht, Hv. destruct (departments r) as [d|]; [|contradiction Hd; reflexivity].
    unfold str_contains in H3. destruct (str_find v t) as [n|]; [|discriminate].
    assert (str_in v placeholders = false) as Hp.
    { destruct (str_in v placeholders) eqn:E; [|reflexivity].
      apply placeholder_iff in E. tauto. }
    cbn [option_map]. rewrite Hp.
    replace (0 <? Z.of_nat n + 1)%Z with true by (symmetry; apply Z.ltb_lt; lia).
    reflexivity.
Qed.

(** X18.  The cleansed table has one row per message, text and list of
    departments, with a text and departments that are not NULL and at
    least one detected item; every item of a row has a value that is not
    NULL, not empty and not "...", and that occurs in the text of the
    row. *)
Theorem cleansed_table_invariant (view : list ExpandedRow) :
  NoDup (map key_of_cleansed (cleansed_table view))
  /\ forall g,
      In g (cleansed_table view) ->
      exists t d,
        c_unmasked_text g = Some t
        /\ c_departments g = Some d
        /\ c_pii_detected g <> []
        /\ forall ty v,
            In (ty, v) (c_pii_detected g) ->
            exists s, v = Some s /\ s <> "" /\ s <> "..." /\ str_contains s t = true.
Proof.
  destruct (collect_groups_shape (expanded_filtered view)) as [Hnd Hne].
  split; [exact Hnd|]. intros g Hg.
  assert (Hitem : forall item,
             In item (c_pii_detected g) ->
             exists t v d,
               c_unmasked_text g = Some t /\ c_departments g = Some d
               /\ snd item = Some v
               /\ v <> "" /\ v <> "..." /\ str_contains v t = true).
  { intros item Hin.
    assert (holds (collect_groups (expanded_filtered view)) (key_of_cleansed g) item)
      as Hholds by (exists g; auto).
    apply collect_groups_holds in Hholds. destruct Hholds as (r & Hr & Hk & Hi).
    apply filter_In in Hr. destruct Hr as [_ Hw].
    destruct (cleansed_where_true r Hw) as (t & v & d & Ht & Hv & Hd & H1 & H2 & H3).
    unfold key_of_expanded, key_of_cleansed in Hk. injection Hk as _ Htext Hdep.
    exists t, v, d. rewrite <- Htext, <- Hdep, <- Hi. cbn. auto 10. }
  rewrite Forall_forall in Hne. pose proof (Hne g Hg) as Hnonempty.
  destruct (c_pii_detected g) as [|first others] eqn:Hitems; [contradiction|].
  destruct (Hitem first (or_introl eq_refl)) as (t & _ & d & Ht & Hd & _).
  exists t, d. split; [exact Ht|]. split; [exact Hd|]. split; [discriminate|].
  intros ty v Hin. destruct (Hitem (ty, v) Hin) as (t' & s & _ & Ht' & _ & Hv & H1 & H2 & H3).
  exists s. rewrite Ht in Ht'. injection Ht' as <-. auto.
Qed.

Definition ann_row : ExpandedRow :=
  {| message_id := Some "m1";
     unmasked_text := Some "Ann lost her card";
     departments := Some [Some "CUSTOMER_SUPPORT"];
     pii_type := Some "NAME";
     value := Some "Ann";
     prompt_profiling := Some "profile";
     prompt_categorisation := Some "categorise" |}.

Lemma cleansed_table_invariant_witness :
  exists t d,
    Some "Ann lost her card" = Some t
    /\ Some [Some "CUSTOMER_SUPPORT"] = Some d
    /\ [(Some "NAME", Some "Ann")] <> []
    /\ forall ty v,
        In (ty, v) [(Some "NAME", Some "Ann")] ->
        exists s, v = Some s /\ s <> "" /\ s <> "..." /\ str_contains s t = true.
Proof.
  exact (proj2 (cleansed_table_invariant [ann_row])
               {| c_message_id := Some "m1";
                  c_unmasked_text := Some "Ann lost her card";
                  c_departments := Some [Some "CUSTOMER_SUPPORT"];
                  c_pii_detected := [(Some "NAME", Some "Ann")] |}
               (or_introl eq_refl)).
Defined.

(** *** [redact_text] *)

(** X19.  [redact_text] reads the three series at the positions of the
    texts: when the series of detected items or the series of exclusions
    is shorter than the texts, it raises [KeyError] for the first position
    that is missing, and returns nothing. *)
Theorem redact_text_needs_all_series
        (unmasked_texts : list string) (pii_detected : list (list PiiItem))
        (excluded_flags : list (list string)) :
  let shortest := Nat.min (List.length pii_detected) (List.length excluded_flags) in
  shortest < List.length unmasked_texts ->
  redact_text unmasked_texts pii_detected excluded_flags
  = Raise (KeyError (str_nat shortest)).
Proof.
  intros shortest Hshort. unfold redact_text.
  assert (Hloop : forall k acc,
             k <= shortest ->
             redact_loop unmasked_texts pii_detected excluded_flags
                         (seq (shortest - k) (List.length unmasked_texts - (shortest - k)))
                         acc
             = Raise (KeyError (str_nat shortest))).
  { induction k as [|k IH]; intros acc Hk.
    - rewrite Nat.sub_0_r.
      destruct (List.length unmasked_texts - shortest) as [|more] eqn:E; [lia|].
      cbn [seq redact_loop].
      destruct (nth_error unmasked_texts shortest) as [text|] eqn:Htext;
        [|apply nth_error_None in Htext; lia].
      rewrite (RedactFacts.series_get_nth _ _ _ Htext). cbn [rbind].
      unfold series_get.
      destruct (nth_error pii_detected shortest) as [items|] eqn:Hitems;
        [|reflexivity]. cbn [rbind].
      destruct (nth_error excluded_flags shortest) as [flags|] eqn:Hflags;
        [|reflexivity].
      assert (shortest < List.length pii_detected)
        by (apply nth_error_Some; congruence).
      assert (shortest < List.length excluded_flags)
        by (apply nth_error_Some; congruence).
      subst shortest. lia.
    - destruct (List.length unmasked_texts - (shortest - S k)) as [|more] eqn:E; [lia|].
      cbn [seq redact_loop].
      assert (Hi : shortest - S k < shortest) by lia.
      destruct (nth_error unmasked_texts (shortest - S k)) as [text|] eqn:Htext;
        [|apply nth_error_None in Htext; lia].
      destruct (nth_error pii_detected (shortest - S k)) as [items|] eqn:Hitems;
        [|apply nth_error_None in Hitems; subst shortest; lia].
      destruct (nth_error excluded_flags (shortest - S k)) as [flags|] eqn:Hflags;
        [|apply nth_error_None in Hflags; subst shortest; lia].
      rewrite (RedactFacts.series_get_nth _ _ _ Htext),
        (RedactFacts.series_get_nth _ _ _ Hitems),
        (RedactFacts.series_get_nth _ _ _ Hflags).
      cbn [rbind].
      replace (S (shortest - S k)) with (shortest - k) by lia.
      replace more with (List.length unmasked_texts - (shortest - k)) by lia.
      apply IH. lia. }
  specialize (Hloop shortest [] (Nat.le_refl _)).
  rewrite Nat.sub_diag, Nat.sub_0_r in Hloop. exact Hloop.
Qed.

Lemma redact_text_needs_all_series_witness :
  redact_text ["Ann called"; "Bob wrote"]
              [[{| item_pii_type := Some "NAME"; item_value := "Ann" |}]]
              [[]; []]
  = Raise (KeyError "1").
Proof.
  apply (redact_text_needs_all_series
           ["Ann called"; "Bob wrote"]
           [[{| item_pii_type := Some "NAME"; item_value := "Ann" |}]]
           [[]; []]).
  cbn. lia.
Defined.

(** X20.  A text in which none of the values to redact occurs comes back
    unchanged. *)
Theorem redact_row_without_occurrence
        (unmasked_text : string) (pii_list : list PiiItem) (exclusions : list string) :
  (forall item_pii,
      In item_pii pii_list ->
      in_exclusions (item_pii_type item_pii) exclusions = false ->
      str_contains (item_value item_pii) unmasked_text = false) ->
  redact_row unmasked_text pii_list exclusions = unmasked_text.
Proof.
  unfold redact_row. induction pii_list as [|item rest IH]; intros Hall; [reflexivity|].
  cbn [fold_left].
  assert (Hitem : redact_item exclusions unmasked_text item = unmasked_text).
  { unfold redact_item.
    destruct (in_exclusions (item_pii_type item) exclusions) eqn:E; [reflexivity|].
    cbn [negb]. apply PyFacts.str_replace_absent.
    pose proof (Hall item (or_introl eq_refl) E) as Habsent.
    unfold str_contains in Habsent.
    destruct (str_find (item_value item) unmasked_text); [discriminate|reflexivity]. }
  rewrite Hitem. apply IH. intros it Hin. apply Hall. right. exact Hin.
Qed.

Lemma redact_row_without_occurrence_witness :
  redact_row "The order was late"
             [{| item_pii_type := Some "NAME"; item_value := "Ann" |};
              {| item_pii_type := Some "ORDER"; item_value := "order" |}]
             ["ORDER"]
  = "The order was late".
Proof.
  apply (redact_row_without_occurrence "The order was late"
           [{| item_pii_type := Some "NAME"; item_value := "Ann" |};
            {| item_pii_type := Some "ORDER"; item_value := "order" |}]
           ["ORDER"]).
  intros item [<-|[<-|[]]]; [reflexivity|discriminate].
Defined.

End PiiEtlMore.

(** ** 04_Data_ETL.py: where a message goes *)

Module PiiViewsMore.
Import PiiEtl PiiViews QuarantineFacts PiiEtlMore.

Lemma inner_join_in {A B} (on : A -> B -> option bool)
      (left : list A) (right : list B) (a : A) (b : B) :
  In (a, b) (inner_join on left right)
  <-> In a left /\ In b right /\ on a b = Some true.
Proof.
  unfold inner_join. rewrite in_flat_map. split.
  - intros (a' & Ha & Hin). apply in_map_iff in Hin.
    destruct Hin as (b' & [= -> ->] & Hb). apply filter_In in Hb.
    destruct Hb as [Hb Hon]. unfold where_holds in Hon.
    destruct (on a b) as [[|]|]; try discriminate. auto.
  - intros (Ha & Hb & Hon). exists a. split; [exact Ha|].
    apply in_map. apply filter_In. split; [exact Hb|]. rewrite Hon. reflexivity.
Qed.

Lemma sql_eq_true (a b : option string) :
  sql_eq a b = Some true <-> exists x, a = Some x /\ b = Some x.
Proof.
  destruct a as [x|], b as [y|]; cbn.
  - split.
    + intros [= H]. apply String.eqb_eq in H. subst y. eauto.
    + intros (z & [= ->] & [= ->]). rewrite String.eqb_refl. reflexivity.
  - split; [discriminate|intros (z & _ & H); discriminate].
  - split; [discriminate|intros (z & H & _); discriminate].
  - split; [discriminate|intros (z & H & _); discriminate].
Qed.

Lemma exploded_in (bronze : list BronzeRow) (b : BronzeRow)
      (item : option string * option string) :
  In (b, item) (exploded bronze)
  <-> In b bronze /\ In item (EXPLODE (b_pii_detected b)).
Proof.
  unfold exploded. rewrite in_flat_map. split.
  - intros (b' & Hb & Hin). apply in_map_iff in Hin.
    destruct Hin as (item' & [= -> ->] & Hitem). auto.
  - intros (Hb & Hitem). exists b. split; [exact Hb|]. apply in_map. exact Hitem.
Qed.

(** The rows of the expanded view: one per detected item of a message
    and prompt row of that message. *)
Lemma expanded_in (bronze : list BronzeRow) (prompts : list PromptRow)
      (r : ExpandedRow) :
  In r (view_bronze_documents_pii_handled_expanded bronze prompts)
  <-> exists b item pr m,
      In b bronze /\ In item (EXPLODE (b_pii_detected b)) /\ In pr prompts
      /\ b_message_id b = Some m /\ p_message_id pr = Some m
      /\ r = {| message_id := b_message_id b;
                unmasked_text := b_unmasked_text b;
                departments := b_departments b;
                pii_type := fst item;
                value := snd item;
                prompt_profiling := p_prompt_profiling pr;
                prompt_categorisation := p_prompt_categorisation pr |}.
Proof.
  unfold view_bronze_documents_pii_handled_expanded. rewrite in_map_iff. split.
  - intros ([[b item] pr] & <- & Hin). apply inner_join_in in Hin.
    destruct Hin as (He & Hpr & Hon). apply exploded_in in He. destruct He as [Hb Hitem].
    apply sql_eq_true in Hon. destruct Hon as (m & Hbm & Hpm). cbn in Hbm.
    exists b, item, pr, m. cbn. auto 10.
  - intros (b & item & pr & m & Hb & Hitem & Hpr & Hbm & Hpm & ->).
    exists ((b, item), pr). split; [reflexivity|].
    apply inner_join_in. split; [apply exploded_in; auto|]. split; [exact Hpr|].
    apply sql_eq_true. exists m. auto.
Qed.

(** A row of the cleansed table comes from a finding. *)
Lemma cleansed_row_origin
      (bronze : list BronzeRow) (prompts : list PromptRow) (m : string) (g : CleansedRow) :
  In g (cleansed_of bronze prompts) -> c_message_id g = Some m ->
  exists b item pr,
    In b bronze /\ In pr prompts
    /\ b_message_id b = Some m /\ p_message_id pr = Some m
    /\ b_departments b <> None
    /\ In item (EXPLODE (b_pii_detected b))
    /\ found (b_unmasked_text b) item.
Proof.
  unfold cleansed_of. intros Hg Hm.
    destruct (proj2 (cleansed_table_shape _) g Hg) as (first & Hfirst).
  assert (holds (cleansed_table (view_bronze_documents_pii_handled_expanded bronze prompts))
                (key_of_cleansed g) first) as Hholds by (exists g; auto).
  apply collect_groups_holds in Hholds. destruct Hholds as (r & Hr & Hk & _).
  apply filter_In in Hr. destruct Hr as [Hr Hw].
  apply cleansed_where_found in Hw. destruct Hw as [Hfound Hd].
  apply expanded_in in Hr.
  destruct Hr as (b & item & pr & m' & Hb & Hitem & Hpr & Hbm & Hpm & ->).
  unfold key_of_expanded, key_of_cleansed in Hk. cbn in Hk, Hfound, Hd.
  injection Hk as Hid _ _. rewrite Hm, Hbm in Hid. injection Hid as ->.
  exists b, item, pr. destruct item as [ty v]. auto 10.
Qed.

(** X21.  The cleansed table has a row for the message [m] exactly when
    the bronze table has a row of [m] with departments that are not NULL
    and with a detected item that is found in its text, and the prompts
    table has a row of [m].  So a message with an empty or NULL list of
    detected items, or with items that are all quarantined, is not in the
    cleansed table. *)
Theorem cleansed_rows_come_from_findings
        (bronze : list BronzeRow) (prompts : list PromptRow) (m : string) :
  (exists g, In g (cleansed_of bronze prompts) /\ c_message_id g = Some m)
  <-> (exists b item pr,
          In b bronze /\ In pr prompts
          /\ b_message_id b = Some m /\ p_message_id pr = Some m
          /\ b_departments b <> None
          /\ In item (EXPLODE (b_pii_detected b))
          /\ found (b_unmasked_text b) item).
Proof.
  split.
  - intros (g & Hg & Hm). exact (cleansed_row_origin bronze prompts m g Hg Hm).
  - unfold cleansed_of.
  intros (b & item & pr & Hb & Hpr & Hbm & Hpm & Hd & Hitem & Hfound).
    pose (r := {| message_id := b_message_id b;
                  unmasked_text := b_unmasked_text b;
                  departments := b_departments b;
                  pii_type := fst item;
                  value := snd item;
                  prompt_profiling := p_prompt_profiling pr;
                  prompt_categorisation := p_prompt_categorisation pr |}).
    assert (Hr : In r (view_bronze_documents_pii_handled_expanded bronze prompts)).
    { apply expanded_in. exists b, item, pr, m. auto 10. }
    assert (Hw : cleansed_where r = Some true).
    { assert (where_holds (cleansed_where r) = true) as H.
      { apply cleansed_where_found. split; [|exact Hd].
        destruct item as [ty v]. exact Hfound. }
      unfold where_holds in H. destruct (cleansed_where r) as [[|]|]; try discriminate.
      reflexivity. }
    apply (cleansed_iff _ r Hr) in Hw. destruct Hw as (g & Hg & Hk & _).
    exists g. split; [exact Hg|].
    unfold key_of_cleansed, key_of_expanded in Hk. injection Hk as -> _ _. exact Hbm.
Qed.

Lemma bronze_with_prompts_in (bronze : list BronzeRow) (prompts : list PromptRow)
      (b : BronzeRow) (pr : PromptRow) :
  In (b, pr) (bronze_with_prompts bronze prompts)
  <-> In b bronze /\ In pr prompts
      /\ exists m, b_message_id b = Some m /\ p_message_id pr = Some m.
Proof.
  unfold bronze_with_prompts. rewrite inner_join_in, sql_eq_true. tauto.
Qed.

Lemma quarantine_inserts_in (table : list QuarantinedRow)
      (bronze : list BronzeRow) (prompts : list PromptRow) (q : QuarantinedRow) :
  In q (quarantine_inserts table bronze prompts)
  <-> In q table
      \/ In q (quarantine_rows (view_bronze_documents_pii_handled_expanded bronze prompts))
      \/ In q (quarantine_null_pii_detected bronze prompts)
      \/ In q (quarantine_null_departments bronze prompts).
Proof.
  unfold quarantine_inserts, insert_into. cbv zeta. rewrite !in_app_iff. tauto.
Qed.

(** X22.  A message whose answer could not be parsed is quarantined once
    per prompt row of the message: with the profiling prompt when
    [pii_detected] is NULL, with the categorisation prompt (and NULL
    departments) when [departments] is NULL.  The rows already in the
    quarantine table stay, and a message all of whose bronze rows have a
    NULL [pii_detected] or NULL [departments] has no row in the cleansed
    table. *)
Theorem unparsed_answers_are_quarantined
        (quarantined_table : list QuarantinedRow)
        (bronze : list BronzeRow) (prompts : list PromptRow)
        (b : BronzeRow) (pr : PromptRow) (m : string) :
  In b bronze -> In pr prompts ->
  b_message_id b = Some m -> p_message_id pr = Some m ->
  let after := quarantine_inserts quarantined_table bronze prompts in
  (b_pii_detected b = None ->
   In {| q_message_id := Some m;
         q_unmasked_text := b_unmasked_text b;
         q_departments := b_departments b;
         q_pii_type := None;
         q_value := None;
         q_prompt := p_prompt_profiling pr |} after)
  /\ (b_departments b = None ->
      In {| q_message_id := Some m;
            q_unmasked_text := b_unmasked_text b;
            q_departments := None;
            q_pii_type := None;
            q_value := None;
            q_prompt := p_prompt_categorisation pr |} after)
  /\ (forall q, In q quarantined_table -> In q after)
  /\ ((forall b', In b' bronze -> b_message_id b' = Some m ->
                  b_pii_detected b' = None \/ b_departments b' = None) ->
      forall g, In g (cleansed_of bronze prompts) -> c_message_id g <> Some m).
Proof.
  intros Hb Hpr Hbm Hpm after. subst after.
  assert (Hjoin : In (b, pr) (bronze_with_prompts bronze prompts)).
  { apply bronze_with_prompts_in. eauto. }
  split; [|split; [|split]].
  - intros Hnull. apply quarantine_inserts_in. right. right. left.
    unfold quarantine_null_pii_detected. apply in_map_iff. exists (b, pr).
    cbn [fst snd]. rewrite Hbm. split; [reflexivity|].
    apply filter_In. split; [exact Hjoin|]. cbn [fst]. rewrite Hnull. reflexivity.
  - intros Hnull. apply quarantine_inserts_in. right. right. right.
    unfold quarantine_null_departments. apply in_map_iff. exists (b, pr).
    cbn [fst snd]. rewrite Hbm. split; [reflexivity|].
    apply filter_In. split; [exact Hjoin|]. cbn [fst]. rewrite Hnull. reflexivity.
  - intros q Hq. apply quarantine_inserts_in. left. exact Hq.
  - intros Hall g Hg Hm.
    destruct (cleansed_row_origin bronze prompts m g Hg Hm)
      as (b' & item & pr' & Hb' & _ & Hbm' & _ & Hd & Hitem & _).
    destruct (Hall b' Hb' Hbm') as [Hnull|Hnull]; [|contradiction].
    rewrite Hnull in Hitem. destruct Hitem.
Qed.

(** X23.  A message in which nothing was detected (an empty list) and
    whose departments were parsed is neither quarantined nor kept: the
    inserts add no row of it to the quarantine table, and the cleansed
    table has no row of it. *)
Theorem message_without_findings_vanishes
        (quarantined_table : list QuarantinedRow)
        (bronze : list BronzeRow) (prompts : list PromptRow) (m : string) :
  (forall b, In b bronze -> b_message_id b = Some m ->
             b_pii_detected b = Some [] /\ b_departments b <> None) ->
  (forall q, In q quarantined_table -> q_message_id q <> Some m) ->
  (forall q, In q (quarantine_inserts quarantined_table bronze prompts) ->
             q_message_id q <> Some m)
  /\ (forall g, In g (cleansed_of bronze prompts) -> c_message_id g <> Some m).
Proof.
  intros Hall Htable. split.
  - intros q Hq Hm. apply quarantine_inserts_in in Hq.
    destruct Hq as [Hq|[Hq|[Hq|Hq]]].
    + exact (Htable q Hq Hm).
    + unfold quarantine_rows in Hq. apply in_map_iff in Hq.
      destruct Hq as (r & <- & Hr). apply filter_In in Hr. destruct Hr as [Hr _].
      apply expanded_in in Hr.
      destruct Hr as (b & item & pr & m' & Hb & Hitem & _ & Hbm & _ & ->).
      cbn in Hm. destruct (Hall b Hb Hm) as [Hempty _].
      rewrite Hempty in Hitem. destruct Hitem.
    + unfold quarantine_null_pii_detected in Hq. apply in_map_iff in Hq.
      destruct Hq as ([b pr] & <- & Hr). apply filter_In in Hr.
      destruct Hr as [Hr Hnull]. apply bronze_with_prompts_in in Hr.
      destruct Hr as (Hb & _). cbn in Hm, Hnull.
      destruct (Hall b Hb Hm) as [Hempty _]. rewrite Hempty in Hnull. discriminate.
    + unfold quarantine_null_departments in Hq. apply in_map_iff in Hq.
      destruct Hq as ([b pr] & <- & Hr). apply filter_In in Hr.
      destruct Hr as [Hr Hnull]. apply bronze_with_prompts_in in Hr.
      destruct Hr as (Hb & _). cbn in Hm, Hnull.
      destruct (Hall b Hb Hm) as [_ Hd].
      destruct (b_departments b); [discriminate|contradiction Hd; reflexivity].
  - intros g Hg Hm.
    destruct (cleansed_row_origin bronze prompts m g Hg Hm)
      as (b & item & pr & Hb & _ & Hbm & _ & _ & Hitem & _).
    destruct (Hall b Hb Hbm) as [Hempty _]. rewrite Hempty in Hitem. destruct Hitem.
Qed.

Definition ann : BronzeRow :=
  {| b_message_id := Some "m1";
     b_unmasked_text := Some "Ann lost her card";
     b_departments := Some [Some "CUSTOMER_SUPPORT"];
     b_pii_detected := Some [(Some "NAME", Some "Ann"); (Some "PHONE", Some "...")] |}.

(** The answer on the departments of this message was no JSON. *)
Definition unparsed : BronzeRow :=
  {| b_message_id := Some "m2";
     b_unmasked_text := Some "Reset my password";
     b_departments := None;
     b_pii_detected := Some [] |}.

(** Nothing was detected in this message. *)
Definition nothing_found : BronzeRow :=
  {| b_message_id := Some "m3";
     b_unmasked_text := Some "Thank you";
     b_departments := Some [Some "CUSTOMER_SUPPORT"];
     b_pii_detected := Some [] |}.

Definition prompt_of (m : string) : PromptRow :=
  {| p_message_id := Some m;
     p_prompt_profiling := Some "profile";
     p_prompt_categorisation := Some "categorise" |}.

Definition bronze_table : list BronzeRow := [ann; unparsed; nothing_found].
Definition prompts_table : list PromptRow := [prompt_of "m1"; prompt_of "m2"; prompt_of "m3"].

Lemma cleansed_rows_come_from_findings_witness :
  exists g, In g (cleansed_of bronze_table prompts_table) /\ c_message_id g = Some "m1".
Proof.
  apply (proj2 (cleansed_rows_come_from_findings bronze_table prompts_table "m1")).
  exists ann, (Some "NAME", Some "Ann"), (prompt_of "m1").
  split; [left; reflexivity|]. split; [left; reflexivity|].
  split; [reflexivity|]. split; [reflexivity|]. split; [discriminate|].
  split; [left; reflexivity|].
  exists "Ann lost her card", "Ann".
  split; [reflexivity|]. split; [reflexivity|].
  split; [discriminate|]. split; [discriminate|reflexivity].
Defined.

Lemma unparsed_answers_are_quarantined_witness :
  In {| q_message_id := Some "m2";
        q_unmasked_text := Some "Reset my password";
        q_departments := None;
        q_pii_type := None;
        q_value := None;
        q_prompt := Some "categorise" |}
     (quarantine_inserts [] bronze_table prompts_table).
Proof.
  refine (proj1 (proj2 (unparsed_answers_are_quarantined [] bronze_table prompts_table
                          unparsed (prompt_of "m2") "m2" _ _ eq_refl eq_refl))
                eq_refl).
  - right. left. reflexivity.
  - right. left. reflexivity.
Defined.

Lemma message_without_findings_vanishes_witness :
  (forall q, In q (quarantine_inserts [] bronze_table prompts_table) ->
             q_message_id q <> Some "m3")
  /\ (forall g, In g (cleansed_of bronze_table prompts_table) ->
                c_message_id g <> Some "m3").
Proof.
  apply (message_without_findings_vanishes [] bronze_table prompts_table "m3").
  - intros b [<-|[<-|[<-|[]]]]; try discriminate.
    intros _. split; [reflexivity|discriminate].
  - intros q [].
Defined.

End PiiViewsMore.

(** ** 04_Data_ETL.py: the exclusion lists *)

Module RedactionMore.
Import PiiEtl PiiViews Redaction.

Lemma unique_in (items : list string) (x : string) : In x (unique items) <-> In x items.
Proof.
  induction items as [|item items IH]; cbn; [reflexivity|].
  rewrite filter_In, IH. destruct (String.eqb_spec item x) as [->|Hne]; cbn.
  - split; auto.
  - split; [intros [H|[H _]]; auto|intros [H|H]; auto].
Qed.

Lemma unique_nodup (items : list string) : NoDup (unique items).
Proof.
  induction items as [|item items IH]; cbn; constructor.
  - rewrite filter_In. intros [_ H]. rewrite String.eqb_refl in H. discriminate.
  - apply NoDup_filter. exact IH.
Qed.

(** The lists of a response, each a list of strings. *)
Definition lists_of (categories : list (string * list string)) : list (string * json) :=
  map (fun kv => (fst kv, JArr (map JStr (snd kv)))) categories.

Lemma lists_of_items (categories : list (string * list string)) :
  List.concat (map (fun kv : string * json =>
                      match snd kv with JArr xs => xs | _ => [] end)
                   (lists_of categories))
  = map JStr (List.concat (map snd categories)).
Proof.
  unfold lists_of. rewrite map_map. cbn [snd].
  induction categories as [|c cs IH]; [reflexivity|].
  cbn [map List.concat]. rewrite IH, map_app. reflexivity.
Qed.

Section MergedList.

Variable json_loads : string -> result json.

(** X24.  When the response is a JSON object whose values are lists of
    strings, [parse_string] returns the strings of all the lists with the
    white space around them removed, without the empty ones and without
    repetition, whatever the keys are.  A response that is JSON but no
    object raises [AttributeError], and one that is no JSON raises what
    [json.loads] raises. *)
Theorem parse_string_merges_the_lists (response : string) :
  (forall categories,
      json_loads response = Ok (JObj (lists_of categories)) ->
      exists merged,
        parse_string json_loads response = Ok merged
        /\ NoDup merged
        /\ forall x, In x merged
                     <-> x <> "" /\ exists category raw,
                                      In category categories /\ In raw (snd category)
                                      /\ str_strip raw = x)
  /\ (forall j, json_loads response = Ok j -> (forall kvs, j <> JObj kvs) ->
                parse_string json_loads response = Raise AttributeError)
  /\ (forall e, json_loads response = Raise e ->
                parse_string json_loads response = Raise e).
Proof.
  split; [|split].
  - intros categories Hloads. unfold parse_string. rewrite Hloads.
    cbn [rbind dict_items].
    rewrite (PyMore.mapM_ok _ (fun kv => match snd kv with
                                         | JArr xs => xs
                                         | _ => []
                                         end)).
    2:{ intros kv Hkv. unfold lists_of in Hkv. apply in_map_iff in Hkv.
        destruct Hkv as (c & <- & _). reflexivity. }
    cbn [rbind].
    rewrite lists_of_items.
    rewrite (PyMore.mapM_ok _ (fun item => match item with
                                           | JStr s => str_strip s
                                           | _ => ""
                                           end)).
    2:{ intros item Hitem. apply in_map_iff in Hitem.
        destruct Hitem as (raw & <- & _). reflexivity. }
    cbn [rbind]. rewrite map_map. eexists. split; [reflexivity|].
    split; [apply unique_nodup|].
    intros x. rewrite unique_in, filter_In, in_map_iff. split.
    + intros [(raw & Hx & Hraw) Hlen]. apply in_concat in Hraw.
      destruct Hraw as (l & Hl & Hraw). apply in_map_iff in Hl.
      destruct Hl as (c & <- & Hc). split.
      * intros ->. discriminate.
      * exists c, raw. auto.
    + intros [Hne (c & raw & Hc & Hraw & Hx)]. split.
      * exists raw. split; [exact Hx|]. apply in_concat. exists (snd c).
        split; [apply in_map; exact Hc|exact Hraw].
      * destruct x; [contradiction Hne; reflexivity|reflexivity].
  - intros j Hloads Hnot. unfold parse_string. rewrite Hloads. cbn [rbind].
    destruct j; try reflexivity. contradiction (Hnot kvs eq_refl).
  - intros e Hloads. unfold parse_string. rewrite Hloads. reflexivity.
Qed.

End MergedList.

(** A response as the notebook shows it, with a padded entry and an
    empty one. *)
Definition response_example : list (string * list string) :=
  [("IP addresses", ["IMEI"; " URL "]);
   ("Person names", ["NAME"; ""; "URL"])].

Definition loads_example (s : string) : result json := Ok (JObj (lists_of response_example)).

Lemma parse_string_merges_the_lists_witness :
  exists merged,
    parse_string loads_example "{...}" = Ok merged
    /\ NoDup merged
    /\ forall x, In x merged
                 <-> x <> "" /\ exists category raw,
                                  In category response_example /\ In raw (snd category)
                                  /\ str_strip raw = x.
Proof.
  apply (proj1 (parse_string_merges_the_lists loads_example "{...}") response_example).
  reflexivity.
Defined.

Lemma combine_self {A B} (f : A -> B) (l : list A) :
  combine l (map f l) = map (fun a => (a, f a)) l.
Proof. induction l as [|a l IH]; [reflexivity|]. cbn. rewrite IH. reflexivity. Qed.

Lemma combine_split_pairs {A B} (l : list (A * B)) : combine (map fst l) (map snd l) = l.
Proof.
  induction l as [|[a b] l IH]; [reflexivity|]. cbn. rewrite IH. reflexivity.
Qed.

Lemma left_outer_join_in {A B} (on : A -> B -> option bool)
      (left : list A) (right : list B) (a : A) (ref : option B) :
  In (a, ref) (left_outer_join on left right) ->
  In a left
  /\ match ref with
     | Some b => In b right /\ on a b = Some true
     | None => forall b, In b right -> on a b <> Some true
     end.
Proof.
  unfold left_outer_join. rewrite in_flat_map. intros (a' & Ha & Hin).
  destruct (filter (fun b => where_holds (on a' b)) right) as [|b0 rest] eqn:F.
  - destruct Hin as [[= -> <-]|[]]. split; [exact Ha|].
    intros b Hb Hon.
    assert (In b (filter (fun b => where_holds (on a b)) right)) as Hf.
    { apply filter_In. split; [exact Hb|]. rewrite Hon. reflexivity. }
    rewrite F in Hf. destruct Hf.
  - apply in_map_iff in Hin. destruct Hin as (b & [= -> <-] & Hb).
    split; [exact Ha|]. rewrite <- F in Hb. apply filter_In in Hb.
    destruct Hb as [Hb Hon]. split; [exact Hb|].
    unfold where_holds in Hon. destruct (on a b) as [[|]|]; try discriminate.
    reflexivity.
Qed.

Section Filters.

Variable user_instruction_filter_pii_types_format : string -> string -> string.
Variable json_loads : string -> result json.
Variable llama_70b : list string -> result (list string).

Abbreviation prompted := (df_prompts user_instruction_filter_pii_types_format).
Abbreviation filters :=
  (view_bronze_dept_filters user_instruction_filter_pii_types_format json_loads llama_70b).

(** Every row of the aggregate gets the prompt of its own department. *)
Lemma df_prompts_rows (df_agg : list (option string * list string)) :
  prompted df_agg
  = map (fun row => {| a_department := fst row;
                       pii_types_identified := snd row;
                       prompts := filter_pii_prompt user_instruction_filter_pii_types_format
                                    (fst row) (snd row) |}) df_agg.
Proof.
  unfold df_prompts, create_filter_pii_prompt.
  rewrite combine_split_pairs, combine_self, map_map. reflexivity.
Qed.

Lemma no_rule_no_prompt (department : option string) (pii_identified : list string) :
  exemptions_get department = [] ->
  filter_pii_prompt user_instruction_filter_pii_types_format department pii_identified = "".
Proof. unfold filter_pii_prompt. intros ->. reflexivity. Qed.

(** The departments of the filter rows have exemption rules. *)
Lemma filter_rows_have_rules (df_agg : list (option string * list string))
      (rows : list FilterRow) :
  filters df_agg = Ok rows ->
  forall f, In f rows -> exemptions_get (f_department f) <> [].
Proof.
  unfold view_bronze_dept_filters. cbv zeta. rewrite df_prompts_rows.
  destruct (apply_udf llama_70b _) as [responses|e]; [|discriminate]. cbn [rbind].
  destruct (apply_udf _ responses) as [merged|e]; [|discriminate]. cbn [rbind].
  intros [= <-] f Hf. apply in_map_iff in Hf. destruct Hf as ([row ml] & <- & Hin).
  apply in_combine_l in Hin. apply filter_In in Hin. destruct Hin as [Hin Hkeep].
  apply in_map_iff in Hin. destruct Hin as ([d types] & <- & _).
  cbn [fst snd a_department prompts] in *. intros Hnone.
  rewrite (no_rule_no_prompt d types Hnone) in Hkeep. discriminate.
Qed.

(** X25.  The filter rows, for which the language model is asked, are
    those of departments that have exemption rules, so that every row of
    [view_bronze_redact_ready] of another department (or of a NULL
    department) has an empty exclusion list: all its detected items are
    redacted.  The exclusion list of any row is either empty or the merged
    list of a filter row of its department, as the model answered it. *)
Theorem exclusions_come_from_the_rules
        (df_agg : list (option string * list string)) (rows : list FilterRow)
        (cleansed : list CleansedRow) :
  filters df_agg = Ok rows ->
  (forall f, In f rows -> exemptions_get (f_department f) <> [])
  /\ (forall r, In r (view_bronze_redact_ready cleansed rows) ->
                exemptions_get (r_department r) = [] ->
                redaction_exclusion_filters r = []
                /\ forall unmasked_text pii_list,
                    redact_row unmasked_text pii_list (redaction_exclusion_filters r)
                    = fold_left (fun text item_pii =>
                                   str_replace (item_value item_pii) (tag item_pii) text)
                                pii_list unmasked_text)
  /\ (forall r, In r (view_bronze_redact_ready cleansed rows) ->
                redaction_exclusion_filters r = []
                \/ exists f, In f rows
                             /\ f_department f = r_department r
                             /\ redaction_exclusion_filters r = merged_list f).
Proof.
  intros Hrows. pose proof (filter_rows_have_rules df_agg rows Hrows) as Hrules.
  assert (Hrow : forall r,
             In r (view_bronze_redact_ready cleansed rows) ->
             redaction_exclusion_filters r = []
             \/ exists f, In f rows
                          /\ f_department f = r_department r
                          /\ redaction_exclusion_filters r = merged_list f).
  { intros r Hr. unfold view_bronze_redact_ready in Hr. apply in_map_iff in Hr.
    destruct Hr as ([[g department] ref] & <- & Hin).
    apply left_outer_join_in in Hin. destruct Hin as [_ Href].
    destruct ref as [f|]; [|left; reflexivity].
    right. exists f. destruct Href as [Hf Hon]. cbn in Hon |- *.
    split; [exact Hf|]. split; [|reflexivity].
    apply PiiViewsMore.sql_eq_true in Hon. destruct Hon as (x & -> & ->). reflexivity. }
  split; [exact Hrules|]. split; [|exact Hrow].
  intros r Hr Hnone.
  assert (Hempty : redaction_exclusion_filters r = []).
  { destruct (Hrow r Hr) as [H|(f & Hf & Hd & _)]; [exact H|].
    rewrite <- Hd in Hnone. contradiction (Hrules f Hf Hnone). }
  split; [exact Hempty|]. intros unmasked_text pii_list. rewrite Hempty.
  rewrite RedactFacts.redact_row_replacements. f_equal.
  induction pii_list as [|item rest IH]; [reflexivity|].
  cbn [filter]. destruct (item_pii_type item); cbn; rewrite IH; reflexivity.
Qed.

End Filters.

Definition ask (pii_identified_list department_exclusions : string) : string :=
  "Which items of List A fit these categories?".

(** A model that gives the same answer to every prompt. *)
Definition answers (prompts : list string) : result (list string) :=
  Ok (map (fun _ => "{...}") prompts).

Definition aggregate : list (option string * list string) :=
  [(Some "CYBERSECURITY", ["IMEI"; "NAME"]); (Some "SALES", ["NAME"])].

Definition filter_rows : list FilterRow :=
  [{| f_department := Some "CYBERSECURITY";
      f_prompts := "Which items of List A fit these categories?";
      merged_list := ["IMEI"; "URL"; "NAME"] |}].

Definition shared_message : CleansedRow :=
  {| c_message_id := Some "m1";
     c_unmasked_text := Some "Ann, IMEI 35-209900-176148-1";
     c_departments := Some [Some "SALES"; Some "CYBERSECURITY"];
     c_pii_detected := [(Some "NAME", Some "Ann");
                        (Some "IMEI", Some "35-209900-176148-1")] |}.

(** The row of the message for the department without rules. *)
Definition sales_row : RedactReadyRow :=
  {| r_message_id := Some "m1";
     r_unmasked_text := Some "Ann, IMEI 35-209900-176148-1";
     r_department := Some "SALES";
     r_pii_detected := [(Some "NAME", Some "Ann");
                        (Some "IMEI", Some "35-209900-176148-1")];
     redaction_exclusion_filters := [] |}.

Lemma exclusions_come_from_the_rules_witness :
  In sales_row (view_bronze_redact_ready [shared_message] filter_rows)
  /\ redaction_exclusion_filters sales_row = [].
Proof.
  split; [left; reflexivity|].
  apply (proj1 (proj2 (exclusions_come_from_the_rules ask loads_example answers
                         aggregate filter_rows [shared_message] eq_refl)) sales_row).
  - left. reflexivity.
  - reflexivity.
Defined.

End RedactionMore.

(** ** structured-data-for-rag.py: [index_exists] *)

Module IndexExistsMore.
Import IndexExists.

Section Exists.

Variable describe : nat -> result json.
Variable str_of_error : exn -> string.
Variables endpoint_name index_full_name : string.

Abbreviation run n := (index_exists describe str_of_error endpoint_name index_full_name n).

(** What the body of the [try] gives at the [n]-th request. *)
Definition ready_flag (n : nat) : result json :=
  rbind (describe n) (fun dict_vsindex =>
  rbind (dict_get dict_vsindex "status" JNull) (fun status =>
  dict_get status "ready" (JBool false))).

Lemma index_exists_run (n : nat) :
  run n
  = match ready_flag n with
    | Ok ready =>
        ((Ok ready, S n),
         [Call DESCRIBE (JArr [JStr endpoint_name; JStr index_full_name])])
    | Raise e =>
        if str_contains "RESOURCE_DOES_NOT_EXIST" (str_of_error e)
        then ((Ok (JBool false), S n),
              [Call DESCRIBE (JArr [JStr endpoint_name; JStr index_full_name])])
        else ((Raise e, S n),
              [Call DESCRIBE (JArr [JStr endpoint_name; JStr index_full_name]);
               Print ("Unexpected error describing the index. "
                      ++ "This could be a permission issue.")%string])
    end.
Proof.
  unfold index_exists, bind, try_ready. fold (ready_flag n). cbv beta iota.
  destruct (ready_flag n) as [ready|e]; [reflexivity|].
  destruct (str_contains "RESOURCE_DOES_NOT_EXIST" (str_of_error e)); reflexivity.
Qed.

(** X26.  [index_exists] sends one request.  Of the errors of that
    request it swallows those whose text mentions RESOURCE_DOES_NOT_EXIST,
    answering [False]; any other error is raised again.  An answer without
    a [status] entry is such an error ([None] has no [get]) and not a
    [False]; an answer with a status gives its [ready] entry, [False] when
    there is none. *)
Theorem index_exists_swallows_only_missing_index (n : nat) :
  calls (trace (run n)) = 1
  /\ (forall e, describe n = Raise e ->
                outcome (run n)
                = if str_contains "RESOURCE_DOES_NOT_EXIST" (str_of_error e)
                  then Ok (JBool false) else Raise e)
  /\ (forall fields,
         describe n = Ok (JObj fields) -> assoc "status" fields = None ->
         str_contains "RESOURCE_DOES_NOT_EXIST" (str_of_error AttributeError) = false ->
         outcome (run n) = Raise AttributeError)
  /\ (forall fields status,
         describe n = Ok (JObj fields) -> assoc "status" fields = Some (JObj status) ->
         outcome (run n) = Ok (match assoc "ready" status with
                               | Some ready => ready
                               | None => JBool false
                               end)).
Proof.
  rewrite index_exists_run. split; [|split; [|split]].
  - destruct (ready_flag n) as [ready|e]; [reflexivity|].
    destruct (str_contains _ _); reflexivity.
  - intros e He. unfold ready_flag. rewrite He. cbn [rbind].
    destruct (str_contains _ _); reflexivity.
  - intros fields Hd Hstatus Htext. unfold ready_flag. rewrite Hd.
    cbn [rbind dict_get]. rewrite Hstatus. cbn [rbind dict_get]. rewrite Htext.
    reflexivity.
  - intros fields status Hd Hstatus. unfold ready_flag. rewrite Hd.
    cbn [rbind dict_get]. rewrite Hstatus. reflexivity.
Qed.

End Exists.

Definition not_found (n : nat) : result json :=
  Raise (Exception "RESOURCE_DOES_NOT_EXIST: index hotels_index").

Definition error_message (e : exn) : string :=
  match e with
  | Exception message => message
  | _ => "error"
  end.

Lemma index_exists_swallows_only_missing_index_witness :
  outcome (index_exists not_found error_message "endpoint" "hotels_index" 0)
  = Ok (JBool false).
Proof.
  exact (proj1 (proj2 (index_exists_swallows_only_missing_index not_found error_message
                         "endpoint" "hotels_index" 0))
               (Exception "RESOURCE_DOES_NOT_EXIST: index hotels_index") eq_refl).
Defined.

End IndexExistsMore.

(** ** uc_tools_image_upload.py: [execute_sql_statement] *)

Module SqlStatementMore.
Import SqlStatement.

Lemma append_assoc (a b c : string) : ((a ++ b) ++ c = a ++ (b ++ c))%string.
Proof. induction a as [|x a IH]; [reflexivity|]. cbn. rewrite IH. reflexivity. Qed.

Lemma append_empty (a : string) : (a ++ "" = a)%string.
Proof. induction a as [|x a IH]; [reflexivity|]. cbn. rewrite IH. reflexivity. Qed.

Lemma drop_last_cons (c : ascii) (s : string) :
  s <> EmptyString -> drop_last (String c s) = String c (drop_last s).
Proof. destruct s; [intros H; contradiction H; reflexivity|reflexivity]. Qed.

(** [(s + c)[:-1]] *)
Lemma drop_last_snoc (s : string) (c : ascii) :
  drop_last (s ++ String c EmptyString)%string = s.
Proof.
  induction s as [|a s IH]; [reflexivity|].
  cbn [append]. rewrite drop_last_cons, IH; [reflexivity|].
  destruct s; discriminate.
Qed.

Section Execute.

Variable py_str : json -> string.
Variable cursor : string -> result (option (list string) * list (list json)).

(** [f" {col}={value}"] *)
Definition cell (cv : string * json) : string :=
  (" " ++ fst cv ++ "=" ++ py_str (snd cv))%string.

(** The line of a row: its cells joined by commas, and a newline. *)
Definition line (columns : list string) (row : list json) : string :=
  (String.concat "," (map cell (combine columns row)) ++ newline)%string.

Lemma concat_empty_cons (x : string) (xs : list string) :
  String.concat "" (x :: xs) = (x ++ String.concat "" xs)%string.
Proof.
  destruct xs as [|y xs]; cbn [String.concat].
  - rewrite append_empty. reflexivity.
  - reflexivity.
Qed.

Lemma concat_sep_cons (sep x y : string) (ys : list string) :
  String.concat sep (x :: y :: ys) = (x ++ sep ++ String.concat sep (y :: ys))%string.
Proof. reflexivity. Qed.

Lemma add_columns_cells (pairs : list (string * json)) :
  forall result_str,
    fold_left (fun result_str cv =>
                 (result_str ++ " " ++ fst cv ++ "=" ++ py_str (snd cv) ++ ",")%string)
              pairs result_str
    = (result_str ++ String.concat "" (map (fun cv => (cell cv ++ ",")%string) pairs))%string.
Proof.
  induction pairs as [|cv pairs IH]; intros result_str; cbn [fold_left map].
  - cbn [String.concat]. rewrite append_empty. reflexivity.
  - rewrite IH, concat_empty_cons. unfold cell. rewrite !append_assoc. reflexivity.
Qed.

Lemma cells_joined (pairs : list (string * json)) :
  pairs <> [] ->
  String.concat "" (map (fun cv => (cell cv ++ ",")%string) pairs)
  = (String.concat "," (map cell pairs) ++ ",")%string.
Proof.
  induction pairs as [|cv pairs IH]; intros Hne; [contradiction Hne; reflexivity|].
  destruct pairs as [|cv' pairs]; [reflexivity|].
  cbn [map] in *. rewrite concat_empty_cons, concat_sep_cons.
  rewrite IH by discriminate. rewrite !append_assoc. reflexivity.
Qed.

Lemma add_row_line (columns : list string) (result_str : string) (row : list json) :
  combine columns row <> [] ->
  add_row py_str columns result_str row = (result_str ++ line columns row)%string.
Proof.
  intros Hne. unfold add_row, add_columns, line.
  rewrite add_columns_cells, (cells_joined _ Hne).
  rewrite <- !append_assoc, drop_last_snoc. reflexivity.
Qed.

Lemma rows_lines (columns : list string) (rows : list (list json)) :
  Forall (fun row => combine columns row <> []) rows ->
  forall result_str,
    fold_left (add_row py_str columns) rows result_str
    = (result_str ++ String.concat "" (map (line columns) rows))%string.
Proof.
  induction 1 as [|row rows Hrow _ IH]; intros result_str; cbn [fold_left map].
  - cbn [String.concat]. rewrite append_empty. reflexivity.
  - rewrite IH, (add_row_line _ _ _ Hrow), concat_empty_cons, append_assoc.
    reflexivity.
Qed.

Lemma rows_without_columns (rows : list (list json)) :
  forall result_str,
    result_str = EmptyString \/ result_str = newline ->
    fold_left (add_row py_str []) rows result_str
    = match rows with [] => result_str | _ :: _ => newline end.
Proof.
  induction rows as [|row rows IH]; intros result_str Hstr; [reflexivity|].
  cbn [fold_left]. rewrite IH.
  - destruct rows; [|reflexivity].
    destruct Hstr as [->| ->]; reflexivity.
  - right. destruct Hstr as [->| ->]; reflexivity.
Qed.

(** X27.  For a statement with a result set, [execute_sql_statement]
    returns one line per row: the cells [ col=value] of the row joined by
    commas, the comma after the last cell being taken off again, and a
    newline.  When the result set has no columns the comma is not there to
    take off and each row removes the newline of the row before, so that
    the text is one newline however many rows there are.  A statement that
    gives no result set ends in [TypeError], its description being [None]. *)
Theorem execute_sql_statement_lines (sql_statement : string) :
  (forall columns rows,
      cursor sql_statement = Ok (Some columns, rows) ->
      columns <> [] -> Forall (fun row => row <> []) rows ->
      execute_sql_statement py_str cursor sql_statement
      = Ok (String.concat "" (map (line columns) rows)))
  /\ (forall rows,
         cursor sql_statement = Ok (Some [], rows) ->
         execute_sql_statement py_str cursor sql_statement
         = Ok (match rows with [] => EmptyString | _ :: _ => newline end))
  /\ (forall rows,
         cursor sql_statement = Ok (None, rows) ->
         execute_sql_statement py_str cursor sql_statement = Raise TypeError).
Proof.
  unfold execute_sql_statement. split; [|split].
  - intros columns rows Hcursor Hcolumns Hrows. rewrite Hcursor. cbn [rbind fst snd].
    rewrite rows_lines; [reflexivity|].
    eapply Forall_impl; [|exact Hrows]. intros row Hrow.
    destruct columns as [|c columns]; [contradiction Hcolumns; reflexivity|].
    destruct row as [|v row]; [contradiction Hrow; reflexivity|]. discriminate.
  - intros rows Hcursor. rewrite Hcursor. cbn [rbind fst snd].
    rewrite rows_without_columns; [reflexivity|left; reflexivity].
  - intros rows Hcursor. rewrite Hcursor. reflexivity.
Qed.

End Execute.

Definition show_value (v : json) : string :=
  match v with
  | JStr s => s
  | JNum n => DecimalString.NilZero.string_of_int (Z.to_int n)
  | _ => "None"
  end.

Definition hotels (sql_statement : string) : result (option (list string) * list (list json)) :=
  Ok (Some ["name"; "city"],
      [[JStr "Ritz"; JStr "Paris"]; [JStr "Savoy"; JStr "London"]]).

Lemma execute_sql_statement_lines_witness :
  execute_sql_statement show_value hotels "SELECT name, city FROM hotels"
  = Ok (" name=Ritz, city=Paris" ++ newline ++ " name=Savoy, city=London" ++ newline)%string.
Proof.
  refine (proj1 (execute_sql_statement_lines show_value hotels
                   "SELECT name, city FROM hotels")
                ["name"; "city"]
                [[JStr "Ritz"; JStr "Paris"]; [JStr "Savoy"; JStr "London"]]
                eq_refl _ _).
  - discriminate.
  - repeat constructor; discriminate.
Defined.

End SqlStatementMore.
